(** * sngraz: a client of the Stromnetz Graz web API, embedded in Rocq

    A shallow embedding of [src/sngraz/sngraz.py]: the session manager
    [StromNetzGraz] (token check, raw request with its retry policy,
    authentication, installation refresh), [SNGrazInstallation] and
    [SNGrazMeter] (the fetch primitive, the last-value trackers and the
    first-reading scan).

    Python values are modelled as they arrive from the JSON decoder;
    Python's [None] is [JNull].  Every method is a function of an explicit
    state and returns an outcome (a value or a raised exception) together
    with the state it leaves behind, so that what a method has already
    mutated when it raises is kept.  The network, the clock and the two
    library parsers the code calls are parameters of the development.

    Conventions of the model:
    - a JSON number is an integer;
    - [json.dumps(payload)] is not carried out: a request holds the payload;
    - the retry budget of [_query] is a natural number;
    - a tzinfo object is known by a name, and what its [utcoffset] gives at
      a wall time is a parameter of the development; the offset is a whole
      number of seconds and every datetime has fold 0, as all those of the
      code have;
    - logging is left out: it changes neither a result nor the state;
    - [asyncio.gather] in the two [fetch_consumption_data] fan-outs is not
      modelled; the methods of one meter are, on that meter and the client
      its back-reference leads to. *)

From Stdlib Require Import ZArith String Ascii List Bool Lia.
From stdpp Require Import base option list strings countable gmap fin_maps.

Import ListNotations.
Local Open Scope string_scope.
#[local] Set Warnings "-register-all".

(** ** JSON values, as [resp.json()] hands them to the code *)

Inductive json : Type :=
| JNull
| JBool (b : bool)
| JNum (n : Z)
| JStr (s : string)
| JList (l : list json)
| JDict (kvs : list (string * json)).

(** Python's truth value of a decoded JSON value. *)
Definition truthy (j : json) : bool :=
  match j with
  | JNull => false
  | JBool b => b
  | JNum n => negb (n =? 0)%Z
  | JStr s => negb (String.eqb s "")
  | JList l => match l with [] => false | _ => true end
  | JDict kvs => match kvs with [] => false | _ => true end
  end.

(** [j == s] for a string literal [s]. *)
Definition is_str (s : string) (j : json) : bool :=
  match j with
  | JStr t => String.eqb s t
  | _ => false
  end.

Fixpoint assoc (k : string) (kvs : list (string * json)) : option json :=
  match kvs with
  | [] => None
  | (k', v) :: rest => if String.eqb k k' then Some v else assoc k rest
  end.

Fixpoint is_prefix (p s : string) : bool :=
  match p, s with
  | EmptyString, _ => true
  | String a p', String b s' => Ascii.eqb a b && is_prefix p' s'
  | String _ _, EmptyString => false
  end.

Fixpoint is_substring (p s : string) : bool :=
  is_prefix p s ||
  match s with
  | EmptyString => false
  | String _ s' => is_substring p s'
  end.

(** ** Exceptions and outcomes *)

Inductive exn : Type :=
| AttributeError
| TypeError
| ValueError (msg : string)
| InvalidLogin (err : json)
| PyException (msg : string)
| IndexError
| OverflowError
| ClientError
| TimeoutError.

Inductive outcome (A : Type) : Type :=
| Return (a : A)
| Raise (e : exn).
Arguments Return {A} a.
Arguments Raise {A} e.

(** [d.get(k)]: only dicts have [get]. *)
Definition py_get (j : json) (k : string) : outcome json :=
  match j with
  | JDict kvs => Return (default JNull (assoc k kvs))
  | _ => Raise AttributeError
  end.

(** [k in j] for a string literal [k]. *)
Definition py_in (k : string) (j : json) : outcome bool :=
  match j with
  | JDict kvs => Return (match assoc k kvs with Some _ => true | None => false end)
  | JList l => Return (existsb (is_str k) l)
  | JStr s => Return (is_substring k s)
  | _ => Raise TypeError
  end.

Fixpoint chars (s : string) : list json :=
  match s with
  | EmptyString => []
  | String a s' => JStr (String a EmptyString) :: chars s'
  end.

(** [for x in j]: the elements of a list, the keys of a dict, the
    characters of a string. *)
Definition py_iter (j : json) : outcome (list json) :=
  match j with
  | JList l => Return l
  | JDict kvs => Return (map (fun kv => JStr (fst kv)) kvs)
  | JStr s => Return (chars s)
  | _ => Raise TypeError
  end.

(** ** Keys of Python dicts

    A decoded JSON scalar used as a dict key.  [True] and [1] (and [False]
    and [0]) are the same key in Python; lists and dicts are unhashable. *)

Inductive pykey : Type :=
| KNone
| KInt (n : Z)
| KStr (s : string).

#[global] Instance pykey_eq_dec : EqDecision pykey.
Proof. solve_decision. Defined.

Definition pykey_enc (k : pykey) : unit + (Z + string) :=
  match k with
  | KNone => inl tt
  | KInt n => inr (inl n)
  | KStr s => inr (inr s)
  end.

Definition pykey_dec (x : unit + (Z + string)) : pykey :=
  match x with
  | inl _ => KNone
  | inr (inl n) => KInt n
  | inr (inr s) => KStr s
  end.

#[global] Instance pykey_countable : Countable pykey.
Proof.
  apply (inj_countable' pykey_enc pykey_dec).
  intros []; reflexivity.
Defined.

Definition hash_key (j : json) : outcome pykey :=
  match j with
  | JNull => Return KNone
  | JBool b => Return (KInt (if b then 1 else 0))
  | JNum n => Return (KInt n)
  | JStr s => Return (KStr s)
  | JList _ | JDict _ => Raise TypeError
  end.

(** ** datetime

    A [datetime.datetime]: the date as its proleptic Gregorian ordinal
    ([date.toordinal()]), the time of day and the tzinfo.  Two kinds of
    tzinfo occur in the code.  [datetime.fromisoformat] gives a naive
    datetime or one with a [datetime.timezone], a fixed offset from UTC: a
    [parsed_datetime] carries that offset, in seconds.  The account's
    [time_zone] is any tzinfo object, a [zoneinfo.ZoneInfo] by default: a
    [datetime] carries the name of the object, and the offset the object
    gives depends on the wall time it is asked for (daylight saving time). *)

Record datetime_of (T : Type) : Type := mkDt {
  ordinal : Z;
  hour : Z;
  minute : Z;
  second : Z;
  microsecond : Z;
  tzinfo : option T
}.
Arguments mkDt {T} ordinal hour minute second microsecond tzinfo.
Arguments ordinal {T} d.
Arguments hour {T} d.
Arguments minute {T} d.
Arguments second {T} d.
Arguments microsecond {T} d.
Arguments tzinfo {T} d.

(** A tzinfo object, by its name: two datetimes have the same tzinfo
    object when they have the same name. *)
Definition zone : Type := string.

Definition datetime : Type := datetime_of zone.

Definition parsed_datetime : Type := datetime_of Z.

(** [tz.utcoffset(d)] in seconds, for the tzinfo named [tz] and the wall
    time of [d], given as ordinal, hour, minute, second and microsecond. *)
Definition offsets : Type := zone -> Z -> Z -> Z -> Z -> Z -> Z.

(** [d.utcoffset()] *)
Definition utcoffset (tzdb : offsets) (d : datetime) : option Z :=
  match tzinfo d with
  | None => None
  | Some tz => Some (tzdb tz (ordinal d) (hour d) (minute d) (second d) (microsecond d))
  end.

(** [d.replace(hour=h, minute=m)] *)
Definition replace_hm {T : Type} (d : datetime_of T) (h m : Z) : datetime_of T :=
  mkDt (ordinal d) h m (second d) (microsecond d) (tzinfo d).

(** [d.replace(tzinfo=tz, minute=m)] *)
Definition replace_minute {T U : Type} (d : datetime_of T) (m : Z) (tz : option U)
  : datetime_of U :=
  mkDt (ordinal d) (hour d) m (second d) (microsecond d) tz.

(** [d.replace(microsecond=0, second=0, minute=0, tzinfo=tz)] *)
Definition floor_hour {T U : Type} (d : datetime_of T) (tz : option U) : datetime_of U :=
  mkDt (ordinal d) (hour d) 0 0 0 tz.

(** [date.max.toordinal()], the last day of year 9999. *)
Definition MAXORDINAL : Z := 3652059.

(** [d + timedelta(days=n)]: the wall time [n] days later, with the same
    tzinfo; OverflowError when the day is not in years 1 to 9999 (also
    when [timedelta] itself refuses [n]: the day is then out of range as
    well). *)
Definition add_days (d : datetime) (n : Z) : outcome datetime :=
  let o := (ordinal d + n)%Z in
  if ((1 <=? o) && (o <=? MAXORDINAL))%Z
  then Return (mkDt o (hour d) (minute d) (second d) (microsecond d) (tzinfo d))
  else Raise OverflowError.

(** Microseconds from the start of day 0 of the ordinal count, read off the
    fields. *)
Definition naive_us {T : Type} (d : datetime_of T) : Z :=
  ((((ordinal d * 24 + hour d) * 60 + minute d) * 60 + second d) * 1000000
   + microsecond d)%Z.

(** The key two parsed datetimes are ordered by: naive ones by their
    fields, aware ones by their UTC instant. *)
Definition order_key (d : parsed_datetime) : Z :=
  match tzinfo d with
  | None => naive_us d
  | Some off => (naive_us d - off * 1000000)%Z
  end.

Definition same_kind {T : Type} (a b : datetime_of T) : bool :=
  match tzinfo a, tzinfo b with
  | None, None | Some _, Some _ => true
  | _, _ => false
  end.

(** [a > b] for two parsed datetimes; comparing a naive with an aware
    datetime raises TypeError. *)
Definition dt_gt (a b : parsed_datetime) : outcome bool :=
  if same_kind a b then Return (order_key b <? order_key a)%Z
  else Raise TypeError.

(** [a < b]: two datetimes with the same tzinfo object (or none) are
    compared by their wall times, two with different tzinfo objects by
    their UTC instants; comparing a naive with an aware datetime raises
    TypeError. *)
Definition dt_lt (tzdb : offsets) (a b : datetime) : outcome bool :=
  match tzinfo a, tzinfo b with
  | None, None => Return (naive_us a <? naive_us b)%Z
  | Some za, Some zb =>
      if String.eqb za zb then Return (naive_us a <? naive_us b)%Z
      else
        match utcoffset tzdb a, utcoffset tzdb b with
        | Some oa, Some ob =>
            Return (naive_us a - oa * 1000000 <? naive_us b - ob * 1000000)%Z
        | _, _ => Raise TypeError
        end
  | _, _ => Raise TypeError
  end.

(** [datetime.utcfromtimestamp], from microseconds since the epoch. *)
Definition utc_of_us {T : Type} (t : Z) : datetime_of T :=
  let day := (t / 86400000000)%Z in
  let r := (t mod 86400000000)%Z in
  mkDt (719163 + day)
       (r / 3600000000)
       ((r / 60000000) mod 60)
       ((r / 1000000) mod 60)
       (r mod 1000000)
       None.

(** Year, month and day of an ordinal. *)
Definition ymd_of_ordinal (o : Z) : Z * Z * Z :=
  let z := (o - 719163 + 719468)%Z in
  let era := (z / 146097)%Z in
  let doe := (z - era * 146097)%Z in
  let yoe := ((doe - doe / 1460 + doe / 36524 - doe / 146096) / 365)%Z in
  let doy := (doe - (365 * yoe + yoe / 4 - yoe / 100))%Z in
  let mp := ((5 * doy + 2) / 153)%Z in
  let d := (doy - (153 * mp + 2) / 5 + 1)%Z in
  let m := (if mp <? 10 then mp + 3 else mp - 9)%Z in
  let y := (yoe + era * 400 + (if m <=? 2 then 1 else 0))%Z in
  (y, m, d).

Definition digit (n : Z) : ascii :=
  ascii_of_nat (48 + Z.to_nat (n mod 10)).

(** The last [width] decimal digits of [n], zero padded. *)
Fixpoint zfill (width : nat) (n : Z) : string :=
  match width with
  | O => EmptyString
  | S w => zfill w (n / 10) ++ String (digit n) EmptyString
  end.

Definition format_offset (off : Z) : string :=
  let sign := if (off <? 0)%Z then "-" else "+" in
  let a := Z.abs off in
  let hh := (a / 3600)%Z in
  let mm := ((a / 60) mod 60)%Z in
  let ss := (a mod 60)%Z in
  sign ++ zfill 2 hh ++ ":" ++ zfill 2 mm ++
  (if (ss =? 0)%Z then "" else ":" ++ zfill 2 ss).

(** [d.isoformat(timespec="milliseconds")] *)
Definition isoformat_ms (tzdb : offsets) (d : datetime) : string :=
  let '(y, m, dd) := ymd_of_ordinal (ordinal d) in
  zfill 4 y ++ "-" ++ zfill 2 m ++ "-" ++ zfill 2 dd ++ "T" ++
  zfill 2 (hour d) ++ ":" ++ zfill 2 (minute d) ++ ":" ++ zfill 2 (second d) ++
  "." ++ zfill 3 (microsecond d / 1000) ++
  match utcoffset tzdb d with
  | None => ""
  | Some off => format_offset off
  end.

(** ** Values held by the objects *)

(** A value stored in a reading record: a decoded JSON value, or the parsed
    [readTime]. *)
Inductive pyval : Type :=
| VJson (j : json)
| VDatetime (d : parsed_datetime).

Definition PyNone : pyval := VJson JNull.

Definition val_truthy (v : pyval) : bool :=
  match v with
  | VJson j => truthy j
  | VDatetime _ => true
  end.

Record SNGrazMeter : Type := mkMeter {
  _meter_id : json;
  _name : json;
  _short_name : json;
  _opt_state : json;
  _data : option (list (gmap pykey pyval));
  _first_reading : pyval;
  _first_reading_date : option datetime;
  _last_consumption_date : option parsed_datetime;
  _last_consumption : pyval;
  _last_reading_date : option parsed_datetime;
  _last_reading : pyval
}.

Record SNGrazInstallation : Type := mkInstallation {
  _installation_id : json;
  _customer_id : json;
  _customer_number : json;
  _installation_number : json;
  _address : json;
  _meters : gmap pykey SNGrazMeter
}.

Record StromNetzGraz : Type := mkSN {
  _timeout : Z;
  _username : string;
  _password : string;
  time_zone : zone;
  _installations : gmap pykey SNGrazInstallation;
  _jwt : json;
  user_agent : string
}.

(** ** The outside world *)

Record request : Type := mkRequest {
  url : string;
  headers : list (string * string);
  data : json
}.

(** What one [websession.post] meets: the call raises, or a response comes
    back with a status and what [resp.json()] does on it. *)
Inductive attempt : Type :=
| PostRaises (e : exn)
| Responded (status : Z) (body : outcome json).

Record Externals : Type := mkExternals {
  (** the clock, in microseconds since the epoch, at its n-th reading *)
  wall_clock : nat -> Z;
  (** what the n-th POST of the run meets *)
  transport : nat -> request -> attempt;
  (** PyJWT's decoding of a token without its signature: [None] when the
      token does not decode, else its integer [exp] claim if it has one *)
  jwt_unverified : string -> option (option Z);
  (** [datetime.fromisoformat]; [None] stands for its ValueError *)
  fromisoformat : string -> option parsed_datetime;
  (** what the [utcoffset] of each tzinfo object gives, in seconds *)
  tzdata : offsets
}.

(** How often the clock was read and the requests sent, oldest first. *)
Record Env : Type := mkEnv {
  clock_reads : nat;
  sent : list request
}.

Record Client : Type := mkClient {
  env : Env;
  sn : StromNetzGraz
}.

(** A meter together with the client its back-reference leads to. *)
Record MeterCtx : Type := mkCtx {
  client : Client;
  self : SNGrazMeter
}.

(** ** State and exceptions *)

Definition M (S A : Type) : Type := S -> outcome A * S.

Definition ret {S A : Type} (a : A) : M S A := fun s => (Return a, s).

Definition raise {S A : Type} (e : exn) : M S A := fun s => (Raise e, s).

Definition bind {S A B : Type} (c : M S A) (k : A -> M S B) : M S B :=
  fun s =>
    match c s with
    | (Return a, s') => k a s'
    | (Raise e, s') => (Raise e, s')
    end.

Definition lift_o {S A : Type} (o : outcome A) : M S A := fun s => (o, s).

Definition obind {A B : Type} (o : outcome A) (k : A -> outcome B) : outcome B :=
  match o with
  | Return a => k a
  | Raise e => Raise e
  end.

Notation "'let*' x ':=' c 'in' k" := (bind c (fun x => k))
  (at level 10, x name, c at level 100, k at level 200).

Notation "'let+' x ':=' c 'in' k" := (obind c (fun x => k))
  (at level 10, x name, c at level 100, k at level 200).

Fixpoint for_each {S A : Type} (l : list A) (body : A -> M S unit) : M S unit :=
  match l with
  | [] => ret tt
  | x :: rest => let* _ := body x in for_each rest body
  end.

Definition in_client {A : Type} (c : M Client A) : M MeterCtx A :=
  fun s =>
    let '(r, cl) := c (client s) in (r, mkCtx cl (self s)).

Definition API_ENDPOINT : string := "https://webportal.stromnetz-graz.at/api/".

Definition set_jwt (tok : json) (c : Client) : Client :=
  let s := sn c in
  mkClient (env c)
    (mkSN (_timeout s) (_username s) (_password s) (time_zone s)
          (_installations s) tok (user_agent s)).

Definition set_installation (k : pykey) (i : SNGrazInstallation) (c : Client) : Client :=
  let s := sn c in
  mkClient (env c)
    (mkSN (_timeout s) (_username s) (_password s) (time_zone s)
          (<[k := i]> (_installations s)) (_jwt s) (user_agent s)).

Definition tick (c : Client) : Client :=
  mkClient (mkEnv (S (clock_reads (env c))) (sent (env c))) (sn c).

Definition log_request (r : request) (c : Client) : Client :=
  mkClient (mkEnv (clock_reads (env c)) (sent (env c) ++ [r])) (sn c).

Section Session.

Variable W : Externals.

(** [jwt.decode(tok, options={"verify_signature": False, "verify_exp": True})]
    returns without raising: the token is a string that decodes, and its
    [exp] claim, when it has one, is later than [now] (in microseconds;
    PyJWT takes a token whose [exp] is [now] as expired). *)
Definition jwt_decode (tok : json) (now : Z) : bool :=
  match tok with
  | JStr s =>
      match jwt_unverified W s with
      | None => false
      | Some None => true
      | Some (Some e) => negb (e * 1000000 <=? now)%Z
      end
  | _ => false
  end.

(** The [ok] property. *)
Definition ok : M Client bool :=
  fun c =>
    match _jwt (sn c) with
    | JNull => (Return false, c)
    | tok =>
        if jwt_decode tok (wall_clock W (clock_reads (env c)))
        then (Return true, tick c)
        else (Return false, set_jwt JNull (tick c))
    end.

Definition post (r : request) : M Client attempt :=
  fun c => (Return (transport W (length (sent (env c))) r), log_request r c).

Definition bearer : M Client (list (string * string)) :=
  fun c =>
    match _jwt (sn c) with
    | JStr s => (Return [("Authorization", "Bearer " ++ s)], c)
    | _ => (Raise TypeError, c)
    end.

Fixpoint _query (path : string) (payload : json) (retry : nat) : M Client json :=
  let* valid := ok in
  let* auth := (if valid then bearer else ret []) in
  let* ua := (fun c => (Return (user_agent (sn c)), c)) in
  let post_args :=
    mkRequest (API_ENDPOINT ++ path)
      ([("User-Agent", ua); ("Content-Type", "application/json; charset=utf-8")] ++ auth)
      payload in
  let handler (e : exn) : M Client json :=
    match e with
    | ClientError =>
        match retry with
        | S r => _query path payload r
        | O => raise ClientError
        end
    | _ => raise e
    end in
  let* resp := post post_args in
  match resp with
  | PostRaises e => handler e
  | Responded status body =>
      if negb (status =? 200)%Z then ret JNull
      else
        match body with
        | Return result => ret result
        | Raise e => handler e
        end
  end.

Definition authenticate : M Client bool :=
  let* creds := (fun c => (Return (_username (sn c), _password (sn c)), c)) in
  let* resp := _query "login" (JDict [("email", JStr (fst creds)); ("password", JStr (snd creds))]) 2 in
  match resp with
  | JNull => ret false
  | _ =>
      let* has_error := lift_o (py_in "error" resp) in
      let* rejected :=
        (if has_error
         then let* e := lift_o (py_get resp "error") in ret (negb (is_str "" e))
         else ret false) in
      if rejected
      then let* e := lift_o (py_get resp "error") in raise (InvalidLogin e)
      else
        let* has_success := lift_o (py_in "success" resp) in
        let* failed :=
          (if has_success
           then let* s := lift_o (py_get resp "success") in ret (negb (truthy s))
           else ret false) in
        let* no_token :=
          (if failed then ret true
           else let* t := lift_o (py_get resp "token") in ret (negb (truthy t))) in
        if no_token then raise (ValueError "no token returned")
        else
          let* t := lift_o (py_get resp "token") in
          let* _ := (fun c => (Return tt, set_jwt t c)) in
          let* valid := ok in
          if negb valid then raise (PyException "login failed")
          else ret true
  end.

Definition query (path : string) (payload : json) : M Client json :=
  let* valid := ok in
  let* _ := (if negb valid then authenticate else ret true) in
  _query path payload 2.

End Session.

(** ** Building installations and meters from a [getInstallations] record *)

(** [SNGrazMeter.__init__] *)
Definition new_meter (meter_id : json) (info : json) : outcome SNGrazMeter :=
  let+ name := py_get info "name" in
  let+ short_name := py_get info "shortName" in
  let+ opt := py_get info "optState" in
  let+ opt_state := py_get opt "currentOptState" in
  Return (mkMeter meter_id name short_name opt_state None
                  PyNone None None PyNone None PyNone).

(** The loop of [SNGrazInstallation.__init__] over [meterPoints]. *)
Fixpoint add_meters (points : list json) (meters : gmap pykey SNGrazMeter)
  : outcome (gmap pykey SNGrazMeter) :=
  match points with
  | [] => Return meters
  | _meter :: rest =>
      let+ meter_id := py_get _meter "meterPointID" in
      if negb (truthy meter_id) then add_meters rest meters
      else
        let+ m := new_meter meter_id _meter in
        let+ k := hash_key meter_id in
        add_meters rest (<[k := m]> meters)
  end.

(** [SNGrazInstallation.__init__] *)
Definition new_installation (installation_id : json) (info : json)
  : outcome SNGrazInstallation :=
  let+ customer_id := py_get info "customerID" in
  let+ customer_number := py_get info "customerNumber" in
  let+ installation_number := py_get info "installationNumber" in
  let+ address := py_get info "address" in
  let+ mps := py_get info "meterPoints" in
  let+ points := py_iter mps in
  let+ meters := add_meters points ∅ in
  Return (mkInstallation installation_id customer_id customer_number
                         installation_number address meters).

(** [get_meter] *)
Definition get_meter (i : SNGrazInstallation) (meter_id : pykey) : outcome SNGrazMeter :=
  match _meters i !! meter_id with
  | None => Raise (ValueError "Could not find meter id")
  | Some m => Return m
  end.

(** [get_installation] *)
Definition get_installation (s : StromNetzGraz) (installation_id : pykey)
  : outcome SNGrazInstallation :=
  match _installations s !! installation_id with
  | None => Raise (ValueError "Could not find installation id")
  | Some i => Return i
  end.

Section Account.

Variable W : Externals.

(** The body of the loop of [update_info]. *)
Definition update_one (_inst : json) : M Client unit :=
  let* installation_id := lift_o (py_get _inst "installationID") in
  if negb (truthy installation_id) then ret tt
  else
    let* i := lift_o (new_installation installation_id _inst) in
    let* k := lift_o (hash_key installation_id) in
    fun c => (Return tt, set_installation k i c).

Definition update_info : M Client unit :=
  let* res := query W "getInstallations" (JList []) in
  match res with
  | JNull => ret tt
  | _ =>
      let* records := lift_o (py_iter res) in
      for_each records update_one
  end.

End Account.

(** ** The meter *)

Definition set_first_reading_date (d : datetime) (m : SNGrazMeter) : SNGrazMeter :=
  mkMeter (_meter_id m) (_name m) (_short_name m) (_opt_state m) (_data m)
          (_first_reading m) (Some d)
          (_last_consumption_date m) (_last_consumption m)
          (_last_reading_date m) (_last_reading m).

Definition set_first_reading (v : pyval) (m : SNGrazMeter) : SNGrazMeter :=
  mkMeter (_meter_id m) (_name m) (_short_name m) (_opt_state m) (_data m)
          v (_first_reading_date m)
          (_last_consumption_date m) (_last_consumption m)
          (_last_reading_date m) (_last_reading m).

Definition set_last_consumption (d : parsed_datetime) (v : pyval) (m : SNGrazMeter) : SNGrazMeter :=
  mkMeter (_meter_id m) (_name m) (_short_name m) (_opt_state m) (_data m)
          (_first_reading m) (_first_reading_date m)
          (Some d) v
          (_last_reading_date m) (_last_reading m).

Definition set_last_reading (d : parsed_datetime) (v : pyval) (m : SNGrazMeter) : SNGrazMeter :=
  mkMeter (_meter_id m) (_name m) (_short_name m) (_opt_state m) (_data m)
          (_first_reading m) (_first_reading_date m)
          (_last_consumption_date m) (_last_consumption m)
          (Some d) v.

Definition set_data (l : list (gmap pykey pyval)) (m : SNGrazMeter) : SNGrazMeter :=
  mkMeter (_meter_id m) (_name m) (_short_name m) (_opt_state m) (Some l)
          (_first_reading m) (_first_reading_date m)
          (_last_consumption_date m) (_last_consumption m)
          (_last_reading_date m) (_last_reading m).

Definition on_self (f : SNGrazMeter -> SNGrazMeter) : M MeterCtx unit :=
  fun s => (Return tt, mkCtx (client s) (f (self s))).

Definition read_self {A : Type} (f : SNGrazMeter -> A) : M MeterCtx A :=
  fun s => (Return (f (self s)), s).

(** [if d.endswith("Z"): d = d[:-1] + "+00:00"] *)
Fixpoint patch_utc_suffix (d : string) : string :=
  match d with
  | EmptyString => EmptyString
  | String a EmptyString =>
      if Ascii.eqb a "Z"%char then "+00:00" else String a EmptyString
  | String a rest => String a (patch_utc_suffix rest)
  end.

(** The inner loop of [_fetch_data]: the type-to-value mapping of the
    sub-values of one reading. *)
Fixpoint valid_values (rvs : list json) (res : gmap pykey pyval)
  : outcome (gmap pykey pyval) :=
  match rvs with
  | [] => Return res
  | rv :: rest =>
      let+ state := py_get rv "readingState" in
      if negb (is_str "Valid" state) then valid_values rest res
      else
        let+ v := py_get rv "value" in
        let+ ty := py_get rv "readingType" in
        let+ k := hash_key ty in
        valid_values rest (<[k := VJson v]> res)
  end.

(** [not cached or t > cached] *)
Definition newer (t : parsed_datetime) (cached : option parsed_datetime) : outcome bool :=
  match cached with
  | None => Return true
  | Some c => dt_gt t c
  end.

(** The two tracker updates; [t] is [res["readTime"]], the datetime that
    was stored under that key just before. *)
Definition track_consumption (res : gmap pykey pyval) (t : parsed_datetime) : M MeterCtx unit :=
  match res !! KStr "CONSUMP" with
  | None => ret tt
  | Some v =>
      let* cached := read_self _last_consumption_date in
      let* upd := lift_o (newer t cached) in
      if upd then on_self (set_last_consumption t v) else ret tt
  end.

Definition track_reading (res : gmap pykey pyval) (t : parsed_datetime) : M MeterCtx unit :=
  match res !! KStr "MR" with
  | None => ret tt
  | Some v =>
      let* cached := read_self _last_reading_date in
      let* upd := lift_o (newer t cached) in
      if upd then on_self (set_last_reading t v) else ret tt
  end.

Section Meter.

Variable W : Externals.

Definition parse_iso {S : Type} (j : json) (not_str : exn) : M S parsed_datetime :=
  match j with
  | JStr d =>
      match fromisoformat W d with
      | Some t => ret t
      | None => raise (ValueError "Invalid isoformat string")
      end
  | _ => raise not_str
  end.

Definition _get_first_reading_date : M MeterCtx (option datetime) :=
  let* cached := read_self _first_reading_date in
  match cached with
  | Some d => ret (Some d)
  | None =>
      let* id := read_self _meter_id in
      let* resp := in_client (query W "getMeterReadingMetaData" (JDict [("meterPointId", id)])) in
      match resp with
      | JNull => ret None
      | _ =>
          let* since := lift_o (py_get resp "readingsAvailableSince") in
          let* d := parse_iso since TypeError in
          let* tz := (fun s => (Return (time_zone (sn (client s))), s)) in
          let first : datetime := replace_minute d 0 (Some tz) in
          let* _ := on_self (set_first_reading_date first) in
          ret (Some first)
      end
  end.

(** The body of the loop of [_fetch_data] over the readings: [None] when
    the record is skipped, else the enriched record. *)
Definition process_reading (reading : json) : M MeterCtx (option (gmap pykey pyval)) :=
  let* rvs := lift_o (py_get reading "readingValues") in
  let* items := lift_o (py_iter rvs) in
  let* res := lift_o (valid_values items ∅) in
  if decide (res = ∅) then ret None
  else
    let* d := lift_o (py_get reading "readTime") in
    let* t := parse_iso (match d with JStr s => JStr (patch_utc_suffix s) | _ => d end)
                        AttributeError in
    let res := <[KStr "readTime" := VDatetime t]> res in
    let res := <[KStr "readingValues" := VJson rvs]> res in
    let* _ := track_consumption res t in
    let* _ := track_reading res t in
    ret (Some res).

Fixpoint process_readings (readings : list json) (result : list (gmap pykey pyval))
  : M MeterCtx (list (gmap pykey pyval)) :=
  match readings with
  | [] => ret result
  | reading :: rest =>
      let* r := process_reading reading in
      process_readings rest (match r with Some res => result ++ [res] | None => result end)
  end.

(** The interval of the meter's mode and the end time to ask for. *)
Definition interval_of (opt_state : json) (endTime : datetime) : option (string * datetime) :=
  if is_str "OptMiddle" opt_state then Some ("Daily", replace_hm endTime 0 0)
  else if is_str "OptIn" opt_state then Some ("QuarterHourly", endTime)
  else None.

Definition reading_payload (interval : string) (id : json) (startTime endTime : datetime) : json :=
  JDict [("unitOfConsump", JStr "KWH");
         ("interval", JStr interval);
         ("meterPointId", id);
         ("fromDate", JStr (isoformat_ms (tzdata W) startTime));
         ("toDate", JStr (isoformat_ms (tzdata W) endTime))].

Definition _fetch_data (startTime endTime : datetime)
  : M MeterCtx (option (list (gmap pykey pyval))) :=
  let* opt_state := read_self _opt_state in
  match interval_of opt_state endTime with
  | None => ret None
  | Some (interval, endTime) =>
      let* fr := _get_first_reading_date in
      match fr with
      | None => ret None
      | Some first_reading =>
          let* before := lift_o (dt_lt (tzdata W) startTime first_reading) in
          let startTime := if before then first_reading else startTime in
          let* id := read_self _meter_id in
          let payload := reading_payload interval id startTime endTime in
          let* resp := in_client (query W "getMeterReading" payload) in
          match resp with
          | JNull => ret None
          | _ =>
              let* readings := lift_o (py_get resp "readings") in
              if negb (truthy readings) then ret None
              else
                let* items := lift_o (py_iter readings) in
                let* result := process_readings items [] in
                ret (Some result)
          end
      end
  end.

(** [utcnow().replace(microsecond=0, second=0, minute=0, tzinfo=time_zone)]
    and the start [days] earlier. *)
Definition window (days : Z) : M MeterCtx (datetime * datetime) :=
  fun s =>
    let c := client s in
    let now : datetime := utc_of_us (wall_clock W (clock_reads (env c))) in
    let endTime : datetime := floor_hour now (Some (time_zone (sn c))) in
    match add_days endTime (- days) with
    | Return startTime => (Return (startTime, endTime), mkCtx (tick c) (self s))
    | Raise e => (Raise e, mkCtx (tick c) (self s))
    end.

Definition fetch_consumption_data (days : Z) : M MeterCtx unit :=
  let* w := window days in
  let* resp := _fetch_data (fst w) (snd w) in
  match resp with
  | None => ret tt
  | Some l => on_self (set_data l)
  end.

Definition get_historic_data (days : Z) : M MeterCtx (option (list (gmap pykey pyval))) :=
  let* w := window days in
  let* resp := _fetch_data (fst w) (snd w) in
  match resp with
  | None => ret None
  | Some l => ret (Some l)
  end.

(** The [while len(resp) == 0] loop of [get_first_reading]; [None] when
    [fuel] iterations did not end it.  The window is moved on after every
    fetch that gave a list, before the length of the list is looked at. *)
Fixpoint scan (fuel : nat) (startTime endTime : datetime) (s : MeterCtx)
  : option (outcome (option (list (gmap pykey pyval))) * MeterCtx) :=
  match fuel with
  | O => None
  | S fuel' =>
      match _fetch_data startTime endTime s with
      | (Raise e, s') => Some (Raise e, s')
      | (Return None, s') => Some (Return None, s')
      | (Return (Some resp), s') =>
          match add_days startTime 7 with
          | Raise e => Some (Raise e, s')
          | Return startTime =>
              match add_days startTime 7 with
              | Raise e => Some (Raise e, s')
              | Return endTime =>
                  match resp with
                  | [] => scan fuel' startTime endTime s'
                  | _ :: _ => Some (Return (Some resp), s')
                  end
              end
          end
      end
  end.

Definition get_first_reading (fuel : nat) (s : MeterCtx) : option (outcome pyval * MeterCtx) :=
  if val_truthy (_first_reading (self s)) then Some (Return (_first_reading (self s)), s)
  else
    match _get_first_reading_date s with
    | (Raise e, s1) => Some (Raise e, s1)
    | (Return None, s1) => Some (Return PyNone, s1)
    | (Return (Some startTime), s1) =>
        match add_days startTime 7 with
        | Raise e => Some (Raise e, s1)
        | Return endTime =>
            match scan fuel startTime endTime s1 with
            | None => None
            | Some (Raise e, s2) => Some (Raise e, s2)
            | Some (Return None, s2) => Some (Return PyNone, s2)
            | Some (Return (Some resp), s2) =>
                match resp with
                | [] => Some (Raise IndexError, s2)
                | first :: _ =>
                    match first !! KStr "MR" with
                    | None => Some (Return PyNone, s2)
                    | Some v =>
                        Some (Return v, mkCtx (client s2) (set_first_reading v (self s2)))
                    end
                end
            end
        end
    end.

End Meter.

(** * The vocabulary of the statements

    Nothing below is part of the program: these are the notions the
    theorems are stated with. *)

(** How the [try] of [_query] ends on one attempt: [None] when the attempt
    met a ClientError, which is retried while the budget lasts, else the
    value returned or the exception raised. *)
Definition settle (a : attempt) : option (outcome json) :=
  match a with
  | PostRaises ClientError => None
  | PostRaises e => Some (Raise e)
  | Responded status body =>
      if negb (status =? 200)%Z then Some (Return JNull)
      else
        match body with
        | Return result => Some (Return result)
        | Raise ClientError => None
        | Raise e => Some (Raise e)
        end
  end.

(** The payload of the login request. *)
Definition login_payload (s : StromNetzGraz) : json :=
  JDict [("email", JStr (_username s)); ("password", JStr (_password s))].

(** ** Relations kept by a computation, whatever it returns or raises *)

Definition keeps {S A : Type} (R : S -> S -> Prop) (m : M S A) : Prop :=
  forall s, R s (snd (m s)).

(** ** Ids of installations and meters *)

(** The keys a falsy id would give. *)
Definition falsy_key (k : pykey) : Prop := k = KNone \/ k = KInt 0 \/ k = KStr "".

Definition meter_ids_truthy (i : SNGrazInstallation) : Prop :=
  forall mk m, _meters i !! mk = Some m -> ~ falsy_key mk.

Definition ids_truthy (s : StromNetzGraz) : Prop :=
  forall k i, _installations s !! k = Some i -> ~ falsy_key k /\ meter_ids_truthy i.

(** [_installations] is untouched; the ids stay truthy. *)
Definition same_installations (c c' : Client) : Prop :=
  _installations (sn c) = _installations (sn c').

Definition ids_kept (c c' : Client) : Prop :=
  ids_truthy (sn c) -> ids_truthy (sn c').

(** ** What the sub-values of a reading say, read off the raw JSON *)

Definition rv_valid (rv : json) : bool :=
  match py_get rv "readingState" with
  | Return state => is_str "Valid" state
  | Raise _ => false
  end.

Definition rv_entry (rv : json) : option (pykey * json) :=
  match py_get rv "readingType", py_get rv "value" with
  | Return ty, Return v =>
      match hash_key ty with
      | Return k => Some (k, v)
      | Raise _ => None
      end
  | _, _ => None
  end.

(** The value of the last "Valid" sub-value of type [k]. *)
Fixpoint last_valid (k : pykey) (rvs : list json) : option json :=
  match rvs with
  | [] => None
  | rv :: rest =>
      match last_valid k rest with
      | Some v => Some v
      | None =>
          if rv_valid rv then
            match rv_entry rv with
            | Some (k', v) => if decide (k' = k) then Some v else None
            | None => None
            end
          else None
      end
  end.

(** What the loop of [_fetch_data] makes of one reading: [out] is [None]
    when the reading is skipped and the enriched record otherwise. *)
Definition reading_outcome (reading : json) (out : option (gmap pykey pyval)) : Prop :=
  exists rvs items m,
    py_get reading "readingValues" = Return rvs /\
    py_iter rvs = Return items /\
    valid_values items ∅ = Return m /\
    (forall k, m !! k = VJson <$> last_valid k items) /\
    (m = ∅ <-> Forall (fun rv => rv_valid rv = false) items) /\
    (m = ∅ -> out = None) /\
    (m <> ∅ -> exists res,
        out = Some res /\
        res !! KStr "readingValues" = Some (VJson rvs) /\
        forall k, k <> KStr "readTime" -> k <> KStr "readingValues" -> res !! k = m !! k).

(** ** Relations on a meter and its client *)

(** A relation between the meter before and after, and one between the
    client before and after. *)
Definition on_meter (Rm : SNGrazMeter -> SNGrazMeter -> Prop) (s s' : MeterCtx) : Prop :=
  Rm (self s) (self s').

Definition on_client (Rc : Client -> Client -> Prop) (s s' : MeterCtx) : Prop :=
  Rc (client s) (client s').

(** ** Order of the trackers *)

Definition dt_le (a b : parsed_datetime) : Prop :=
  same_kind a b = true /\ (order_key a <= order_key b)%Z.

Definition tracker_le (old new : option parsed_datetime) : Prop :=
  match old with
  | None => True
  | Some a => exists b, new = Some b /\ dt_le a b
  end.

Definition trackers_le (m m' : SNGrazMeter) : Prop :=
  tracker_le (_last_consumption_date m) (_last_consumption_date m') /\
  tracker_le (_last_reading_date m) (_last_reading_date m').



(** ** Wall times and days *)

(** The wall time [n] days after that of [d], with the tzinfo of [d]. *)
Definition days_later (d : datetime) (n : Z) : datetime :=
  mkDt (ordinal d + n) (hour d) (minute d) (second d) (microsecond d) (tzinfo d).

(** The day of [d] is one of the years 1 to 9999. *)
Definition in_range {T : Type} (d : datetime_of T) : Prop :=
  (1 <= ordinal d <= 3652059)%Z.

(** What a call leaves unchanged when it only reads. *)
Definition cache_kept (m m' : SNGrazMeter) : Prop :=
  _data m = _data m' /\ _first_reading m = _first_reading m'.

Definition first_date_kept (m m' : SNGrazMeter) : Prop :=
  forall d, _first_reading_date m = Some d -> _first_reading_date m' = Some d.

(** ** Sequences of fetch operations on one meter *)

Inductive meter_call : Type :=
| CallFetch (startTime endTime : datetime)
| CallFetchConsumption (days : Z)
| CallHistoric (days : Z)
| CallFirstReading (fuel : nat).

Definition records_of (r : outcome (option (list (gmap pykey pyval))))
  : list (gmap pykey pyval) :=
  match r with
  | Return (Some l) => l
  | _ => []
  end.

Section MeterCalls.

Variable W : Externals.

(** The records a call fetched and hands out or stores (those of
    [fetch_consumption_data] are the ones [get_historic_data] returns from
    the same state), and the state the call leaves; [None] when the scan of
    [get_first_reading] does not end within its fuel. *)
Definition run_call (c : meter_call) (s : MeterCtx)
  : option (list (gmap pykey pyval) * MeterCtx) :=
  match c with
  | CallFetch a b =>
      Some (records_of (fst (_fetch_data W a b s)), snd (_fetch_data W a b s))
  | CallFetchConsumption days =>
      Some (records_of (fst (get_historic_data W days s)),
            snd (fetch_consumption_data W days s))
  | CallHistoric days =>
      Some (records_of (fst (get_historic_data W days s)),
            snd (get_historic_data W days s))
  | CallFirstReading fuel =>
      match get_first_reading W fuel s with
      | Some (_, s') => Some ([], s')
      | None => None
      end
  end.

Fixpoint run_calls (cs : list meter_call) (s : MeterCtx)
  : option (list (gmap pykey pyval) * MeterCtx) :=
  match cs with
  | [] => Some ([], s)
  | c :: rest =>
      match run_call c s with
      | None => None
      | Some (l, s1) =>
          match run_calls rest s1 with
          | None => None
          | Some (l', s') => Some ((l ++ l')%list, s')
          end
      end
  end.

End MeterCalls.

(** [c'] has sent what [c] had sent and then requests that all satisfy [P]. *)
Definition sends (P : request -> Prop) (c c' : Client) : Prop :=
  exists extra, sent (env c') = (sent (env c) ++ extra)%list /\ Forall P extra.

(** The requests sent between two states of a meter's client. *)
Definition new_requests (s s' : MeterCtx) : list request :=
  drop (length (sent (env (client s)))) (sent (env (client s'))).

(** A request to [path] with [payload], and a login request. *)
Definition to_path (path : string) (payload : json) (r : request) : Prop :=
  url r = API_ENDPOINT ++ path /\ data r = payload.

Definition login_request (r : request) : Prop := url r = API_ENDPOINT ++ "login".

(** The id, the mode and a resolved first reading date stay. *)
Definition static_kept (m m' : SNGrazMeter) : Prop :=
  _meter_id m = _meter_id m' /\ _opt_state m = _opt_state m' /\ first_date_kept m m'.

Definition reading_url : string := API_ENDPOINT ++ "getMeterReading".

(** A request to [getMeterReading] carries [payload]. *)
Definition reading_carries (payload : json) (r : request) : Prop :=
  url r = reading_url -> data r = payload.

Section FetchTail.

Variable W : Externals.

(** What [_fetch_data] does with the response of its query. *)
Definition fetch_tail (resp : json) : M MeterCtx (option (list (gmap pykey pyval))) :=
  match resp with
  | JNull => ret None
  | _ =>
      let* readings := lift_o (py_get resp "readings") in
      if negb (truthy readings) then ret None
      else
        let* items := lift_o (py_iter readings) in
        let* result := process_readings W items [] in
        ret (Some result)
  end.

End FetchTail.

(** ** The request of a fetch, in the words of the specification *)

(** [t] is [e] with hour and minute zeroed, everything else as in [e]. *)
Definition at_midnight (e t : datetime) : Prop :=
  ordinal t = ordinal e /\ hour t = 0%Z /\ minute t = 0%Z /\
  second t = second e /\ microsecond t = microsecond e /\ tzinfo t = tzinfo e.

(** The interval and the end a meter in mode [opt] asks for when it is
    called with the end [endTime]. *)
Definition mode_request (opt : json) (endTime : datetime) (interval : string)
    (toDate : datetime) : Prop :=
  (opt = JStr "OptMiddle" /\ interval = "Daily" /\ at_midnight endTime toDate) \/
  (opt = JStr "OptIn" /\ interval = "QuarterHourly" /\ toDate = endTime).

(** Microseconds of the wall time of [d] since the start of day 0. *)
Definition wall_micros {T : Type} (d : datetime_of T) : Z :=
  ((ordinal d * 86400 + hour d * 3600 + minute d * 60 + second d) * 1000000
   + microsecond d)%Z.

(** The offset the tzinfo named [tz] gives at the wall time of [d]. *)
Definition offset_at (tzdb : offsets) (tz : zone) (d : datetime) : Z :=
  tzdb tz (ordinal d) (hour d) (minute d) (second d) (microsecond d).

(** [a < b] as Python orders datetimes: by the wall times when both are
    naive or share their tzinfo object, by the UTC instants when their
    tzinfo objects differ. *)
Definition precedes (tzdb : offsets) (a b : datetime) : Prop :=
  match tzinfo a, tzinfo b with
  | None, None => (wall_micros a < wall_micros b)%Z
  | Some za, Some zb =>
      (za = zb -> (wall_micros a < wall_micros b)%Z) /\
      (za <> zb ->
       (wall_micros a - 1000000 * offset_at tzdb za a
        < wall_micros b - 1000000 * offset_at tzdb zb b)%Z)
  | _, _ => False
  end.

(** Both naive or both aware: the datetimes Python can order. *)
Definition comparable (a b : datetime) : Prop :=
  tzinfo a = None <-> tzinfo b = None.

(** The start asked for: the first reading date when [startTime] is before
    it, else [startTime]. *)
Definition clamped (tzdb : offsets) (startTime fr fromDate : datetime) : Prop :=
  comparable startTime fr /\
  ((precedes tzdb startTime fr /\ fromDate = fr) \/
   (~ precedes tzdb startTime fr /\ fromDate = startTime)).

(** The payload of a request for readings. *)
Definition carries_reading (tzdb : offsets) (interval : string) (id : json)
    (fromDate toDate : datetime) (r : request) : Prop :=
  data r = JDict [("unitOfConsump", JStr "KWH");
                  ("interval", JStr interval);
                  ("meterPointId", id);
                  ("fromDate", JStr (isoformat_ms tzdb fromDate));
                  ("toDate", JStr (isoformat_ms tzdb toDate))].

(** The time of day of [d] is one of a day, and its day one of the years 1
    to 9999: what every datetime object satisfies. *)
Definition valid_time {T : Type} (d : datetime_of T) : Prop :=
  (0 <= hour d < 24)%Z /\ (0 <= minute d < 60)%Z /\ (0 <= second d < 60)%Z /\
  (0 <= microsecond d < 1000000)%Z.

Definition valid_dt {T : Type} (d : datetime_of T) : Prop :=
  (1 <= ordinal d <= 3652059)%Z /\ valid_time d.

(** *** ISO 8601 with milliseconds, read back

    [YYYY-MM-DDTHH:MM:SS.mmm], followed for an aware datetime by the offset
    [+HH:MM] or [-HH:MM], with [:SS] when the offset has seconds. *)

Definition digit_val (a : ascii) : option Z :=
  let n := Z.of_nat (nat_of_ascii a) in
  if ((48 <=? n) && (n <=? 57))%Z then Some (n - 48)%Z else None.

(** [w] decimal digits, most significant first. *)
Fixpoint read_digits (w : nat) (acc : Z) (s : string) : option (Z * string) :=
  match w with
  | O => Some (acc, s)
  | S w' =>
      match s with
      | String a rest =>
          match digit_val a with
          | Some v => read_digits w' (acc * 10 + v) rest
          | None => None
          end
      | EmptyString => None
      end
  end.

Definition expect (c : ascii) (s : string) : option string :=
  match s with
  | String a rest => if Ascii.eqb a c then Some rest else None
  | EmptyString => None
  end.

Definition read_sign (s : string) : option (Z * string) :=
  match s with
  | String a rest =>
      if Ascii.eqb a "+" then Some (1%Z, rest)
      else if Ascii.eqb a "-" then Some ((-1)%Z, rest)
      else None
  | EmptyString => None
  end.

(** The offset at the end of the string, in seconds; [None] when there is
    none. *)
Definition read_offset (s : string) : option (option Z) :=
  match s with
  | EmptyString => Some None
  | _ =>
      '(sign, s) ← read_sign s;
      '(hh, s) ← read_digits 2 0 s;
      s ← expect ":" s;
      '(mm, s) ← read_digits 2 0 s;
      match s with
      | EmptyString => Some (Some (sign * (hh * 3600 + mm * 60))%Z)
      | _ =>
          s ← expect ":" s;
          '(ss, s) ← read_digits 2 0 s;
          match s with
          | EmptyString => Some (Some (sign * (hh * 3600 + mm * 60 + ss))%Z)
          | _ => None
          end
      end
  end.

Record iso_parts : Type := mkParts {
  p_year : Z;
  p_month : Z;
  p_day : Z;
  p_hour : Z;
  p_minute : Z;
  p_second : Z;
  p_millisecond : Z;
  p_offset : option Z
}.

Definition iso_decode (s : string) : option iso_parts :=
  '(y, s) ← read_digits 4 0 s;
  s ← expect "-" s;
  '(m, s) ← read_digits 2 0 s;
  s ← expect "-" s;
  '(d, s) ← read_digits 2 0 s;
  s ← expect "T" s;
  '(hh, s) ← read_digits 2 0 s;
  s ← expect ":" s;
  '(mm, s) ← read_digits 2 0 s;
  s ← expect ":" s;
  '(ss, s) ← read_digits 2 0 s;
  s ← expect "." s;
  '(ms, s) ← read_digits 3 0 s;
  off ← read_offset s;
  Some (mkParts y m d hh mm ss ms off).

(** The Gregorian calendar: [date(y, m, d).toordinal()]. *)
Definition is_leap (y : Z) : bool :=
  ((y mod 4 =? 0) && (negb (y mod 100 =? 0) || (y mod 400 =? 0)))%Z.

Definition days_in_month (y m : Z) : Z :=
  if (m =? 2)%Z then (if is_leap y then 29 else 28)%Z
  else if ((m =? 4) || (m =? 6) || (m =? 9) || (m =? 11))%Z then 30%Z
  else 31%Z.

Definition days_before_year (y : Z) : Z :=
  ((y - 1) * 365 + (y - 1) / 4 - (y - 1) / 100 + (y - 1) / 400)%Z.

Definition days_before_month (y m : Z) : Z :=
  (nth (Z.to_nat (m - 1)) [0; 31; 59; 90; 120; 151; 181; 212; 243; 273; 304; 334] 0
   + (if (2 <? m) && is_leap y then 1 else 0))%Z.

Definition ordinal_of_ymd (y m d : Z) : Z :=
  (days_before_year y + days_before_month y m + d)%Z.

(** The date [ymd_of_ordinal] gives for [o] is a date of the calendar, and
    the date of [o]. *)
Definition ymd_check (o : Z) : bool :=
  let '(y, m, d) := ymd_of_ordinal o in
  ((1 <=? m) && (m <=? 12) && (1 <=? d) && (d <=? days_in_month y m) &&
   (ordinal_of_ymd y m d =? o))%Z.

(** [f] holds of the [n] integers from [o] on. *)
Fixpoint all_from (n : nat) (o : Z) (f : Z -> bool) : bool :=
  match n with
  | O => true
  | S k => f o && all_from k (o + 1) f
  end.

(** [s] is the ISO 8601 form of [d] with milliseconds. *)
Definition iso_ms_of (tzdb : offsets) (d : datetime) (s : string) : Prop :=
  exists p,
    iso_decode s = Some p /\
    (1 <= p_year p <= 9999)%Z /\ (1 <= p_month p <= 12)%Z /\
    (1 <= p_day p <= days_in_month (p_year p) (p_month p))%Z /\
    ordinal_of_ymd (p_year p) (p_month p) (p_day p) = ordinal d /\
    p_hour p = hour d /\ p_minute p = minute d /\ p_second p = second d /\
    p_millisecond p = (microsecond d / 1000)%Z /\
    p_offset p = match tzinfo d with
                 | None => None
                 | Some tz => Some (offset_at tzdb tz d)
                 end.

(** One meter has one first reading slot: [m'] is [m] with [v] in it. *)
Definition caches_first_reading (v : pyval) (m m' : SNGrazMeter) : Prop :=
  _first_reading m' = v /\
  _meter_id m' = _meter_id m /\ _name m' = _name m /\ _short_name m' = _short_name m /\
  _opt_state m' = _opt_state m /\ _data m' = _data m /\
  _first_reading_date m' = _first_reading_date m /\
  _last_consumption_date m' = _last_consumption_date m /\
  _last_consumption m' = _last_consumption m /\
  _last_reading_date m' = _last_reading_date m /\
  _last_reading m' = _last_reading m.

Section EnterVocabulary.

Variable W : Externals.

(** The first two lines of [query]: the login when the token is not valid. *)
Definition login_if_needed : M Client bool :=
  let* valid := ok W in
  if negb valid then authenticate W else ret true.

End EnterVocabulary.

(** ** A sample world and sample states, for the worked examples *)

(** A transport that answers the n-th POST with the n-th entry of a script. *)
Definition scripted (script : list attempt) : nat -> request -> attempt :=
  fun n _ => nth n script (PostRaises ClientError).

(** 2023-11-14 22:13:20 UTC, and a microsecond more at each reading. *)
Definition sample_clock (n : nat) : Z := (1700000000000000 + Z.of_nat n)%Z.

Definition sample_jwt (tok : string) : option (option Z) :=
  if String.eqb tok "tok" then Some (Some 4102444800%Z)
  else if String.eqb tok "old" then Some (Some 1000%Z)
  else if String.eqb tok "noexp" then Some None
  else None.

Definition sample_iso (d : string) : option parsed_datetime :=
  if String.eqb d "2023-11-01T00:30:00" then Some (mkDt 738825 0 30 0 0 None)
  else if String.eqb d "2023-11-02T00:00:00+00:00" then Some (mkDt 738826 0 0 0 0 (Some 0%Z))
  else if String.eqb d "2023-11-03T00:00:00+00:00" then Some (mkDt 738827 0 0 0 0 (Some 0%Z))
  else if String.eqb d "2023-11-20T00:00:00+00:00" then Some (mkDt 738844 0 0 0 0 (Some 0%Z))
  else if String.eqb d "2023-01-01T00:00:00" then Some (mkDt 738521 0 0 0 0 None)
  else if String.eqb d "9999-12-20T00:00:00" then Some (mkDt 3652048 0 0 0 0 None)
  else if String.eqb d "9999-12-21T00:00:00+00:00"
       then Some (mkDt 3652049 0 0 0 0 (Some 0%Z))
  else None.

(** The offsets of UTC, of Europe/Vienna by the rules of 2023 (summer time
    from 26 March 03:00 to 29 October 03:00, wall time) and of a zone 1 h
    30 min 5 s behind UTC. *)
Definition sample_tzdata : offsets :=
  fun tz o h _ _ _ =>
    if String.eqb tz "Europe/Vienna" then
      if ((738605 * 24 + 3 <=? o * 24 + h) && (o * 24 + h <? 738822 * 24 + 3))%Z
      then 7200%Z else 3600%Z
    else if String.eqb tz "-01:30:05" then (-5405)%Z
    else 0%Z.

Definition sample_world (script : list attempt) : Externals :=
  mkExternals sample_clock (scripted script) sample_jwt sample_iso sample_tzdata.

Definition sample_account (tz : zone) (tok : json) : Client :=
  mkClient (mkEnv 0 []) (mkSN 10 "u" "p" tz ∅ tok "pySNGraz/1").

Definition sample_client (tok : json) : Client := sample_account "UTC" tok.

Definition sample_meter (opt_state : string) : SNGrazMeter :=
  mkMeter (JNum 7) (JStr "Meter") (JStr "M") (JStr opt_state)
          None PyNone None None PyNone None PyNone.

Definition sample_ctx (opt_state : string) : MeterCtx :=
  mkCtx (sample_client (JStr "tok")) (sample_meter opt_state).

(** A meter of an account whose time zone is Europe/Vienna. *)
Definition vienna_ctx (opt_state : string) : MeterCtx :=
  mkCtx (sample_account "Europe/Vienna" (JStr "tok")) (sample_meter opt_state).

Definition ok200 (j : json) : attempt := Responded 200 (Return j).

Definition sample_rv (ty state : string) (v : Z) : json :=
  JDict [("readingType", JStr ty); ("value", JNum v); ("readingState", JStr state)].

Definition sample_reading (t : string) (rvs : list json) : json :=
  JDict [("readTime", JStr t); ("readingValues", JList rvs)].

Definition sample_metadata : attempt :=
  ok200 (JDict [("readingsAvailableSince", JStr "2023-11-01T00:30:00")]).

Definition sample_readings (l : list json) : attempt :=
  ok200 (JDict [("readings", JList l)]).

(** The batch of the specification's example, and a reading with no valid
    sub-value. *)
Definition sample_batch : list json :=
  [sample_reading "2023-11-02T00:00:00Z"
     [sample_rv "A" "Valid" 5; sample_rv "B" "Estimated" 9];
   sample_reading "2023-11-03T00:00:00Z"
     [sample_rv "A" "Estimated" 1; sample_rv "B" "Invalid" 2]].

(** A server with one reading at 2023-11-03 and, asked again, an older one. *)
Definition two_fetches : Externals :=
  sample_world
    [sample_metadata;
     sample_readings [sample_reading "2023-11-03T00:00:00Z"
                        [sample_rv "MR" "Valid" 120; sample_rv "CONSUMP" "Valid" 4]];
     sample_readings [sample_reading "2023-11-02T00:00:00Z"
                        [sample_rv "MR" "Valid" 110; sample_rv "CONSUMP" "Valid" 3]]].

(** A meter with readings since the start of 2023. *)
Definition early_meter : Externals :=
  sample_world
    [ok200 (JDict [("readingsAvailableSince", JStr "2023-01-01T00:00:00")]);
     sample_readings [sample_reading "2023-11-03T00:00:00Z" [sample_rv "MR" "Valid" 120]]].

(** A meter whose readings start on 20 December 9999, with a reading the
    day after. *)
Definition last_days : Externals :=
  sample_world
    [ok200 (JDict [("readingsAvailableSince", JStr "9999-12-20T00:00:00")]);
     sample_readings [sample_reading "9999-12-21T00:00:00Z" [sample_rv "MR" "Valid" 42]]].

Definition last_days_date : datetime := mkDt 3652048 0 0 0 0 (Some "UTC").

(** A new meter: its first absolute reading is 0, and 5 when asked again. *)
Definition zero_reading : Externals :=
  sample_world
    [sample_metadata;
     sample_readings [sample_reading "2023-11-02T00:00:00Z" [sample_rv "MR" "Valid" 0]];
     sample_readings [sample_reading "2023-11-02T00:00:00Z" [sample_rv "MR" "Valid" 5]]].

(** A new meter whose first absolute reading is 0, and null when asked
    again. *)
Definition null_reading : Externals :=
  sample_world
    [sample_metadata;
     sample_readings [sample_reading "2023-11-02T00:00:00Z" [sample_rv "MR" "Valid" 0]];
     sample_readings
       [sample_reading "2023-11-02T00:00:00Z"
          [JDict [("readingType", JStr "MR"); ("value", JNull);
                  ("readingState", JStr "Valid")]]]].

(** Two weeks of estimated values only, then a reading. *)
Definition late_reading : Externals :=
  sample_world
    [sample_metadata;
     sample_readings [sample_reading "2023-11-02T00:00:00Z" [sample_rv "MR" "Estimated" 1]];
     sample_readings [sample_reading "2023-11-03T00:00:00Z" [sample_rv "MR" "Estimated" 2]];
     sample_readings [sample_reading "2023-11-20T00:00:00Z" [sample_rv "MR" "Valid" 42]]].

Definition late_first_date : datetime := mkDt 738825 0 0 0 0 (Some "UTC").

Fixpoint late_states (k : nat) : MeterCtx :=
  match k with
  | O => snd (_get_first_reading_date late_reading (sample_ctx "OptIn"))
  | S k' =>
      snd (_fetch_data late_reading
             (days_later late_first_date (7 * Z.of_nat k'))
             (days_later late_first_date (7 * Z.of_nat k' + 7))
             (late_states k'))
  end.

(** An account with an installation without id, one with id 0 and one with
    id 5 that has a meter point with id 0 and one with id 9. *)
Definition sample_point (id : json) : json :=
  JDict [("meterPointID", id); ("name", JStr "Meter"); ("shortName", JStr "M");
         ("optState", JDict [("currentOptState", JStr "OptIn")])].

Definition sample_installations : Externals :=
  sample_world
    [ok200 (JList
       [JDict [("customerID", JNum 1); ("meterPoints", JList [])];
        JDict [("installationID", JNum 0); ("meterPoints", JList [sample_point (JNum 3)])];
        JDict [("installationID", JNum 5); ("address", JStr "Graz");
               ("meterPoints", JList [sample_point (JNum 0); sample_point (JNum 9)])]])].

(** Reading off an outcome that is known to be a value. *)
Definition returned {A : Type} (o : outcome A) : bool :=
  match o with
  | Return _ => true
  | Raise _ => false
  end.

Definition value_of {A : Type} (d : A) (o : outcome A) : A :=
  match o with
  | Return a => a
  | Raise _ => d
  end.

Definition sample_result : list (gmap pykey pyval) :=
  value_of [] (fst (process_readings (sample_world []) sample_batch [] (sample_ctx "OptIn"))).

Definition sample_calls : list meter_call :=
  [CallHistoric 30;
   CallFetch (mkDt 738826 0 0 0 0 (Some "UTC")) (mkDt 738827 0 0 0 0 (Some "UTC"))].


(** ** The vocabulary of the further properties *)

(** The headers of a request: the two fixed ones and, with a token, the
    bearer authorization. *)
Definition request_headers (ua : string) (tok : option string) : list (string * string) :=
  [("User-Agent", ua); ("Content-Type", "application/json; charset=utf-8")] ++
  match tok with
  | Some t => [("Authorization", ("Bearer " ++ t)%string)]
  | None => []
  end.

(** The token [_query] puts in the header: the one held, when [ok] finds
    it valid. *)
Definition bearer_token (valid : outcome bool) (tok : json) : option string :=
  match valid, tok with
  | Return true, JStr t => Some t
  | _, _ => None
  end.

(** No installation is dropped. *)
Definition keys_kept (c c' : Client) : Prop :=
  forall k, is_Some (_installations (sn c) !! k) -> is_Some (_installations (sn c') !! k).

(** A meter as [SNGrazMeter.__init__] leaves it: nothing fetched, nothing
    tracked, nothing resolved. *)
Definition fresh_meter (m : SNGrazMeter) : Prop :=
  _data m = None /\ _first_reading m = PyNone /\ _first_reading_date m = None /\
  _last_consumption_date m = None /\ _last_consumption m = PyNone /\
  _last_reading_date m = None /\ _last_reading m = PyNone.

(** What holds of every meter of a meter mapping built from [points]. *)
Definition built_from (points : list json) (mk : pykey) (m : SNGrazMeter) : Prop :=
  fresh_meter m /\ truthy (_meter_id m) = true /\ hash_key (_meter_id m) = Return mk /\
  exists p, p ∈ points /\ py_get p "meterPointID" = Return (_meter_id m) /\
            new_meter (_meter_id m) p = Return m.

(** The ids of the records of a response do not give the key [k]. *)
Definition not_listed (k : pykey) (records : list json) : Prop :=
  Forall (fun inst => forall id, py_get inst "installationID" = Return id ->
                                 hash_key id <> Return k) records.

(** The cached first reading stays while it is truthy. *)
Definition first_reading_kept (m m' : SNGrazMeter) : Prop :=
  val_truthy (_first_reading m) = true -> _first_reading m' = _first_reading m.

(** The cached first reading is the same. *)
Definition first_reading_same (m m' : SNGrazMeter) : Prop :=
  _first_reading m = _first_reading m'.

(** * Properties *)

(** ** One attempt of [_query] *)

Section SessionFacts.

Variable W : Externals.

Lemma jwt_decode_str tok now : jwt_decode W tok now = true -> exists s, tok = JStr s.
Proof. destruct tok; simpl; try discriminate. eauto. Qed.

Lemma ok_cases c :
  exists b c1, ok W c = (Return b, c1) /\
    sent (env c1) = sent (env c) /\
    _installations (sn c1) = _installations (sn c) /\
    (b = true -> sn c1 = sn c /\ exists s, _jwt (sn c) = JStr s).
Proof.
  unfold ok. destruct (_jwt (sn c)) eqn:E;
    try (eexists _, _; split; [reflexivity|]; repeat split; eauto; discriminate).
  all: destruct (jwt_decode W _ _) eqn:D;
    eexists _, _; (split; [reflexivity|]); simpl; repeat split; eauto; try discriminate.
  all: apply jwt_decode_str in D; destruct D; discriminate.
Qed.

Lemma _query_step path payload retry c :
  exists req c1,
    url req = API_ENDPOINT ++ path /\ data req = payload /\
    sn c1 = sn (snd (ok W c)) /\
    sent (env c1) = (sent (env c) ++ [req])%list /\
    _query W path payload retry c =
      match settle (transport W (length (sent (env c))) req) with
      | Some o => (o, c1)
      | None =>
          match retry with
          | S r => _query W path payload r c1
          | O => (Raise ClientError, c1)
          end
      end.
Proof.
  destruct (ok_cases c) as (b & c0 & Hok & Hsent & _ & Hb).
  assert (Hq : forall r, _query W path payload r c =
     bind (if b then bearer else ret [])
       (fun auth => bind (fun c => (Return (user_agent (sn c)), c))
         (fun ua =>
            let post_args := mkRequest (API_ENDPOINT ++ path)
              ([("User-Agent", ua); ("Content-Type", "application/json; charset=utf-8")] ++ auth)
              payload in
            bind (post W post_args)
              (fun resp =>
                 match settle resp with
                 | Some o => lift_o o
                 | None => match r with
                           | S r' => _query W path payload r'
                           | O => raise ClientError
                           end
                 end))) c0).
  { intros r. destruct r; simpl; unfold bind at 1; rewrite Hok; unfold bind;
      destruct ((if b then bearer else ret []) c0) as [[auth|e] c'] eqn:Ha; try reflexivity;
      unfold post; cbn;
      match goal with |- context [transport W ?n ?r] => destruct (transport W n r) as [e|st body] end;
      cbn; try (destruct e; reflexivity);
      destruct (st =? 200)%Z; cbn; try reflexivity;
      destruct body as [j|e]; cbn; try reflexivity; destruct e; reflexivity. }
  assert (Ha : exists auth, (if b then bearer else ret []) c0 = (Return auth, c0)).
  { destruct b.
    - destruct (Hb eq_refl) as [Hsn [s Hs]]. unfold bearer. rewrite Hsn, Hs. eauto.
    - eexists; reflexivity. }
  destruct Ha as [auth Ha].
  exists (mkRequest (API_ENDPOINT ++ path)
            ([("User-Agent", user_agent (sn c0));
              ("Content-Type", "application/json; charset=utf-8")] ++ auth) payload).
  eexists (log_request _ c0).
  split; [reflexivity|]. split; [reflexivity|].
  split; [rewrite Hok; reflexivity|].
  split; [simpl; rewrite Hsent; reflexivity|].
  rewrite Hq. unfold bind at 1. rewrite Ha. unfold bind, post. cbn.
  rewrite Hsent.
  destruct (settle _); [reflexivity | destruct retry; reflexivity].
Qed.

End SessionFacts.

(** ** The raw request and the token check *)

Section RetryPolicy.

Variable W : Externals.

Lemma _query_settled path payload retry c o :
  (forall req, settle (transport W (length (sent (env c))) req) = Some o) ->
  fst (_query W path payload retry c) = o /\
  length (sent (env (snd (_query W path payload retry c)))) = S (length (sent (env c))).
Proof.
  intros H. destruct (_query_step W path payload retry c) as (req & c1 & _ & _ & _ & Hs & ->).
  rewrite H. simpl. split; [reflexivity|]. rewrite Hs, length_app. simpl. lia.
Qed.

Lemma _query_exhausted path payload c :
  (forall req, transport W (length (sent (env c))) req = PostRaises ClientError) ->
  fst (_query W path payload 0 c) = Raise ClientError /\
  length (sent (env (snd (_query W path payload 0 c)))) = S (length (sent (env c))).
Proof.
  intros H. destruct (_query_step W path payload 0 c) as (req & c1 & _ & _ & _ & Hs & ->).
  rewrite H. simpl. split; [reflexivity|]. rewrite Hs, length_app. simpl. lia.
Qed.

Lemma _query_after_errors path payload k :
  forall retry c,
    k <= retry ->
    (forall i req, i < k ->
       transport W (length (sent (env c)) + i) req = PostRaises ClientError) ->
    exists c',
      _query W path payload retry c = _query W path payload (retry - k) c' /\
      length (sent (env c')) = length (sent (env c)) + k.
Proof.
  induction k as [|k IH]; intros retry c Hk H.
  - exists c. rewrite Nat.sub_0_r, Nat.add_0_r. auto.
  - destruct retry as [|retry]; [lia|].
    destruct (_query_step W path payload (S retry) c) as (req & c1 & _ & _ & _ & Hs & Hq).
    rewrite Hq. specialize (H 0 req ltac:(lia)) as H0. rewrite Nat.add_0_r in H0.
    rewrite H0. simpl settle. cbv iota.
    assert (Hlen : length (sent (env c1)) = S (length (sent (env c)))).
    { rewrite Hs, length_app. simpl. lia. }
    destruct (IH retry c1 ltac:(lia)) as (c' & Hq' & Hl').
    { intros i r Hi. rewrite Hlen. replace (S (length (sent (env c))) + i) with (length (sent (env c)) + S i) by lia.
      apply H. lia. }
    exists c'. split; [exact Hq'|]. lia.
Qed.

(** C1. [_query] with its default budget: connection errors are retried at
    once, two extra attempts at most, and the third one is raised to the
    caller; a timeout is raised after the one attempt; a status other than
    200 gives None after the one attempt. *)
Theorem query_retry_policy (path : string) (payload : json) (c : Client) :
  let n := length (sent (env c)) in
  let r := _query W path payload 2 c in
  let attempts := length (sent (env (snd r))) - n in
  ((forall i req, i < 3 -> transport W (n + i) req = PostRaises ClientError) ->
     fst r = Raise ClientError /\ attempts = 3) /\
  (forall k o, k <= 2 ->
     (forall i req, i < k -> transport W (n + i) req = PostRaises ClientError) ->
     (forall req, settle (transport W (n + k) req) = Some o) ->
     fst r = o /\ attempts = S k) /\
  ((forall req, transport W n req = PostRaises TimeoutError) ->
     fst r = Raise TimeoutError /\ attempts = 1) /\
  (forall status body, status <> 200%Z ->
     (forall req, transport W n req = Responded status body) ->
     fst r = Return JNull /\ attempts = 1).
Proof.
  intros n r attempts.
  assert (Hk : forall k o, k <= 2 ->
     (forall i req, i < k -> transport W (n + i) req = PostRaises ClientError) ->
     (forall req, settle (transport W (n + k) req) = Some o) ->
     fst r = o /\ attempts = S k).
  { intros k o Hk Herr Hset.
    destruct (_query_after_errors path payload k 2 c Hk Herr) as (c' & Hq & Hl).
    subst r attempts. rewrite Hq.
    destruct (_query_settled path payload (2 - k) c' o) as [Hr Hlen].
    { intros req. rewrite Hl. apply Hset. }
    split; [exact Hr|]. rewrite Hlen, Hl. subst n. lia. }
  split; [|split; [exact Hk|split]].
  - intros Herr.
    destruct (_query_after_errors path payload 2 2 c (le_n 2)) as (c' & Hq & Hl).
    { intros i req Hi. apply Herr. lia. }
    subst r attempts. rewrite Hq. change (2 - 2) with 0.
    destruct (_query_exhausted path payload c') as [Hr Hlen].
    { intros req. rewrite Hl. apply Herr. lia. }
    split; [exact Hr|]. rewrite Hlen, Hl. subst n. lia.
  - intros Ht. apply (Hk 0 (Raise TimeoutError)); [lia| intros; lia |].
    intros req. rewrite Nat.add_0_r, Ht. reflexivity.
  - intros status body Hst Hresp. apply (Hk 0 (Return JNull)); [lia| intros; lia |].
    intros req. rewrite Nat.add_0_r, Hresp. simpl.
    destruct (status =? 200)%Z eqn:E; [apply Z.eqb_eq in E; contradiction | reflexivity].
Qed.

(** C2. The [ok] property: without a token it is False and nothing
    changes; with a token that does not decode, or whose [exp] claim is
    past, it is False and the token is cleared; with any other token it is
    True and the account is as before.  The decoding looks at the token
    and the clock only, never at a key. *)
Theorem ok_token_validity (c : Client) :
  let now := wall_clock W (clock_reads (env c)) in
  (_jwt (sn c) = JNull -> ok W c = (Return false, c)) /\
  (_jwt (sn c) <> JNull -> jwt_decode W (_jwt (sn c)) now = false ->
     fst (ok W c) = Return false /\ _jwt (sn (snd (ok W c))) = JNull) /\
  (jwt_decode W (_jwt (sn c)) now = true ->
     fst (ok W c) = Return true /\ sn (snd (ok W c)) = sn c) /\
  (forall tok e, _jwt (sn c) = JStr tok -> jwt_unverified W tok = Some (Some e) ->
     (e * 1000000 < now)%Z ->
     fst (ok W c) = Return false /\ _jwt (sn (snd (ok W c))) = JNull) /\
  (forall tok e, _jwt (sn c) = JStr tok -> jwt_unverified W tok = Some (Some e) ->
     (now < e * 1000000)%Z ->
     fst (ok W c) = Return true /\ sn (snd (ok W c)) = sn c).
Proof.
  intros now.
  assert (Hdead : _jwt (sn c) <> JNull -> jwt_decode W (_jwt (sn c)) now = false ->
     fst (ok W c) = Return false /\ _jwt (sn (snd (ok W c))) = JNull).
  { intros Hne Hd. unfold ok. fold now. destruct (_jwt (sn c)) eqn:E; try congruence;
      rewrite Hd; split; reflexivity. }
  assert (Hlive : jwt_decode W (_jwt (sn c)) now = true ->
     fst (ok W c) = Return true /\ sn (snd (ok W c)) = sn c).
  { intros Hd. unfold ok. fold now. destruct (_jwt (sn c)) eqn:E; try discriminate;
      rewrite Hd; split; reflexivity. }
  split; [|split; [exact Hdead|split; [exact Hlive|split]]].
  - intros H. unfold ok. rewrite H. reflexivity.
  - intros tok e Htok He Hpast. apply Hdead; [congruence|].
    rewrite Htok. simpl. rewrite He.
    destruct (e * 1000000 <=? now)%Z eqn:E; [reflexivity|]. apply Z.leb_gt in E. lia.
  - intros tok e Htok He Hfut. apply Hlive.
    rewrite Htok. simpl. rewrite He.
    destruct (e * 1000000 <=? now)%Z eqn:E; [|reflexivity]. apply Z.leb_le in E. lia.
Qed.

End RetryPolicy.

(** ** Authentication *)

Section Authentication.

Variable W : Externals.

Lemma ok_total c : exists b, ok W c = (Return b, snd (ok W c)).
Proof.
  unfold ok. destruct (_jwt (sn c)); eauto; destruct (jwt_decode W _ _); eauto.
Qed.

(** C6. [authenticate] on a login response that is a JSON object: an
    error field other than the empty string raises InvalidLogin; else a
    falsy success field or a missing or falsy token raises ValueError;
    else the token is stored and [ok] is asked again: a token found
    invalid raises Exception("login failed"), a valid one gives True. *)
Theorem authenticate_outcomes (c c1 : Client) (kvs : list (string * json)) :
  _query W "login" (login_payload (sn c)) 2 c = (Return (JDict kvs), c1) ->
  let error := assoc "error" kvs in
  let rejected := match error with Some e => negb (is_str "" e) | None => false end in
  let unsuccessful :=
    match assoc "success" kvs with Some s => negb (truthy s) | None => false end in
  let token := default JNull (assoc "token" kvs) in
  let c2 := set_jwt token c1 in
  (rejected = true ->
     authenticate W c = (Raise (InvalidLogin (default JNull error)), c1)) /\
  (rejected = false -> unsuccessful || negb (truthy token) = true ->
     authenticate W c = (Raise (ValueError "no token returned"), c1)) /\
  (rejected = false -> unsuccessful = false -> truthy token = true ->
     _jwt (sn c2) = token /\
     (fst (ok W c2) = Return false ->
        authenticate W c = (Raise (PyException "login failed"), snd (ok W c2))) /\
     (fst (ok W c2) = Return true ->
        authenticate W c = (Return true, snd (ok W c2)))).
Proof.
  intros Hq error rejected unsuccessful token c2.
  unfold login_payload in Hq.
  assert (Hauth : authenticate W c =
    (if rejected then (Raise (InvalidLogin (default JNull error)), c1)
     else if unsuccessful || negb (truthy token)
          then (Raise (ValueError "no token returned"), c1)
          else match fst (ok W c2) with
               | Return true => (Return true, snd (ok W c2))
               | _ => (Raise (PyException "login failed"), snd (ok W c2))
               end)).
  { unfold authenticate. unfold bind at 1. cbn beta iota.
    unfold bind at 1. cbn [fst snd]. rewrite Hq. cbn beta iota.
    subst rejected unsuccessful token c2 error.
    unfold bind, lift_o, ret, raise, py_in, py_get. cbn beta iota.
    destruct (assoc "error" kvs) as [e|]; cbn.
    - destruct (is_str "" e); cbn; [|reflexivity].
      destruct (assoc "success" kvs) as [s|]; cbn.
      + destruct (truthy s); cbn; [|reflexivity].
        destruct (truthy (default JNull (assoc "token" kvs))) eqn:Ht; cbn; [|reflexivity].
        destruct (ok_total (set_jwt (default JNull (assoc "token" kvs)) c1)) as [b ->].
        destruct b; reflexivity.
      + destruct (truthy (default JNull (assoc "token" kvs))) eqn:Ht; cbn; [|reflexivity].
        destruct (ok_total (set_jwt (default JNull (assoc "token" kvs)) c1)) as [b ->].
        destruct b; reflexivity.
    - destruct (assoc "success" kvs) as [s|]; cbn.
      + destruct (truthy s); cbn; [|reflexivity].
        destruct (truthy (default JNull (assoc "token" kvs))) eqn:Ht; cbn; [|reflexivity].
        destruct (ok_total (set_jwt (default JNull (assoc "token" kvs)) c1)) as [b ->].
        destruct b; reflexivity.
      + destruct (truthy (default JNull (assoc "token" kvs))) eqn:Ht; cbn; [|reflexivity].
        destruct (ok_total (set_jwt (default JNull (assoc "token" kvs)) c1)) as [b ->].
        destruct b; reflexivity. }
  rewrite Hauth. split; [|split].
  - intros ->. reflexivity.
  - intros -> ->. reflexivity.
  - intros -> -> ->. cbn. split; [reflexivity|]. split; intros ->; reflexivity.
Qed.

End Authentication.

(** ** Rules for [keeps] *)

Section Keeps.

Context {S : Type} (R : S -> S -> Prop) `{!Reflexive R} `{!Transitive R}.

Lemma keeps_ret {A} (a : A) : keeps R (ret a).
Proof. intros s. reflexivity. Qed.

Lemma keeps_raise {A} (e : exn) : keeps R (@raise S A e).
Proof. intros s. reflexivity. Qed.

Lemma keeps_lift_o {A} (o : outcome A) : keeps R (lift_o o).
Proof. intros s. reflexivity. Qed.

Lemma keeps_read {A} (f : S -> A) : keeps R (fun s => (Return (f s), s)).
Proof. intros s. reflexivity. Qed.

Lemma keeps_bind {A B} (m : M S A) (k : A -> M S B) :
  keeps R m -> (forall a, keeps R (k a)) -> keeps R (bind m k).
Proof.
  intros Hm Hk s. unfold bind. specialize (Hm s).
  destruct (m s) as [[a|e] s1]; simpl in *; [|exact Hm].
  etransitivity; [exact Hm | apply Hk].
Qed.

Lemma keeps_for_each {A} (l : list A) (body : A -> M S unit) :
  (forall a, keeps R (body a)) -> keeps R (for_each l body).
Proof.
  intros Hb. induction l as [|a l IH]; simpl.
  - apply keeps_ret.
  - apply keeps_bind; [apply Hb | intros _; exact IH].
Qed.

End Keeps.

Ltac keeps_with leaf :=
  repeat first
    [ solve [typeclasses eauto]
    | apply keeps_ret | apply keeps_raise | apply keeps_lift_o | apply keeps_read
    | solve [leaf]
    | apply keeps_bind; [try solve [typeclasses eauto] .. | | intros ?]
    | match goal with
      | |- keeps _ (if ?b then _ else _) => destruct b
      | |- keeps _ (match ?x with _ => _ end) => destruct x
      end ].

#[local] Instance same_installations_refl : Reflexive same_installations.
Proof. intros c. reflexivity. Qed.

#[local] Instance same_installations_trans : Transitive same_installations.
Proof. intros a b c. unfold same_installations. congruence. Qed.

#[local] Instance ids_kept_refl : Reflexive ids_kept.
Proof. intros c H. exact H. Qed.

#[local] Instance ids_kept_trans : Transitive ids_kept.
Proof. intros a b c Hab Hbc H. auto. Qed.

Lemma hash_key_truthy j k : truthy j = true -> hash_key j = Return k -> ~ falsy_key k.
Proof.
  intros Ht Hk [F|[F|F]]; subst k; destruct j; simpl in *; try discriminate.
  - destruct b; discriminate.
  - injection Hk as ->. discriminate.
  - injection Hk as ->. discriminate.
Qed.

Lemma add_meters_skip _meter id rest ms :
  py_get _meter "meterPointID" = Return id -> truthy id = false ->
  add_meters (_meter :: rest) ms = add_meters rest ms.
Proof. intros Hg Ht. simpl. rewrite Hg. simpl. rewrite Ht. reflexivity. Qed.

Lemma add_meters_ids points : forall ms ms',
  add_meters points ms = Return ms' ->
  (forall mk m, ms !! mk = Some m -> ~ falsy_key mk) ->
  forall mk m, ms' !! mk = Some m -> ~ falsy_key mk.
Proof.
  induction points as [|p points IH]; intros ms ms' H Hms; simpl in H.
  - injection H as <-. exact Hms.
  - destruct (py_get p "meterPointID") as [id|] eqn:Hid; simpl in H; [|discriminate].
    destruct (truthy id) eqn:Ht; simpl in H; [|eapply IH; eauto].
    destruct (new_meter id p) as [m0|]; simpl in H; [|discriminate].
    destruct (hash_key id) as [k|] eqn:Hk; simpl in H; [|discriminate].
    eapply IH; [exact H|].
    intros mk m Hl. destruct (decide (k = mk)) as [<-|Hne].
    + eapply hash_key_truthy; eauto.
    + rewrite lookup_insert_ne in Hl by exact Hne. eauto.
Qed.

Lemma new_installation_ids id info i :
  new_installation id info = Return i -> meter_ids_truthy i.
Proof.
  unfold new_installation. intros H.
  repeat match type of H with
  | obind ?o _ = _ => let E := fresh "E" in destruct o eqn:E; simpl in H; [|discriminate]
  end.
  injection H as <-. unfold meter_ids_truthy. simpl.
  eapply add_meters_ids; [eassumption|]. intros mk m Hl. rewrite lookup_empty in Hl. discriminate.
Qed.

(** ** The ids of installations and meters *)

Section AccountFacts.

Variable W : Externals.

Lemma ok_same_installations : keeps same_installations (ok W).
Proof.
  intros c. destruct (ok_cases W c) as (b & c1 & -> & _ & Hi & _). simpl.
  unfold same_installations. congruence.
Qed.

Lemma _query_same_installations path payload retry :
  keeps same_installations (_query W path payload retry).
Proof.
  induction retry as [|r IH]; intros c;
    [destruct (_query_step W path payload 0 c) as (req & c1 & _ & _ & Hsn & _ & ->)
    |destruct (_query_step W path payload (S r) c) as (req & c1 & _ & _ & Hsn & _ & ->)];
    assert (H1 : same_installations c c1)
      by (unfold same_installations; rewrite Hsn; apply ok_same_installations).
  - destruct (settle _); exact H1.
  - destruct (settle _); [exact H1|]. etransitivity; [exact H1 | apply IH].
Qed.

Lemma set_jwt_same_installations t : keeps same_installations (fun c => (Return tt, set_jwt t c)).
Proof. intros c. reflexivity. Qed.

Lemma authenticate_same_installations : keeps same_installations (authenticate W).
Proof.
  unfold authenticate.
  keeps_with ltac:(first [ apply _query_same_installations | apply ok_same_installations
                         | apply set_jwt_same_installations ]).
Qed.

Lemma query_same_installations path payload :
  keeps same_installations (query W path payload).
Proof.
  unfold query.
  keeps_with ltac:(first [ apply _query_same_installations | apply ok_same_installations
                         | apply authenticate_same_installations ]).
Qed.

Lemma update_one_skip _inst id c :
  py_get _inst "installationID" = Return id -> truthy id = false ->
  update_one _inst c = (Return tt, c).
Proof.
  intros Hg Ht. unfold update_one, bind, lift_o. rewrite Hg, Ht. reflexivity.
Qed.

Lemma update_one_ids _inst : keeps ids_kept (update_one _inst).
Proof.
  intros c Hc. unfold update_one, bind, lift_o.
  destruct (py_get _inst "installationID") as [id|]; simpl; [|exact Hc].
  destruct (truthy id) eqn:Ht; simpl; [|exact Hc].
  destruct (new_installation id _inst) as [i|] eqn:Hi; simpl; [|exact Hc].
  destruct (hash_key id) as [k|] eqn:Hk; simpl; [|exact Hc].
  intros k' i' Hl. simpl in Hl.
  destruct (decide (k = k')) as [<-|Hne].
  - rewrite lookup_insert_eq in Hl. injection Hl as <-. split.
    + eapply hash_key_truthy; eauto.
    + eapply new_installation_ids; eauto.
  - rewrite lookup_insert_ne in Hl by exact Hne. eauto.
Qed.

Lemma same_installations_ids c c' : same_installations c c' -> ids_kept c c'.
Proof. unfold same_installations, ids_kept, ids_truthy. intros -> H. exact H. Qed.

Lemma query_ids path payload : keeps ids_kept (query W path payload).
Proof. intros c. apply same_installations_ids, query_same_installations. Qed.

Lemma update_info_ids : keeps ids_kept (update_info W).
Proof.
  unfold update_info.
  keeps_with ltac:(first [ apply query_ids
                         | apply keeps_for_each;
                           [try solve [typeclasses eauto] .. | apply update_one_ids] ]).
Qed.

(** C10. Records and meter points with a falsy id are skipped, so no key of
    [_installations] or of a [_meters] is 0 (nor None nor the empty string),
    and id 0 is never found. *)
Theorem update_info_ids_nonzero (c : Client) :
  ids_truthy (sn c) ->
  let c' := snd (update_info W c) in
  (forall _inst id c0, py_get _inst "installationID" = Return id -> truthy id = false ->
     update_one _inst c0 = (Return tt, c0)) /\
  (forall _meter id rest ms, py_get _meter "meterPointID" = Return id -> truthy id = false ->
     add_meters (_meter :: rest) ms = add_meters rest ms) /\
  ids_truthy (sn c') /\
  (forall k i, _installations (sn c') !! k = Some i ->
     k <> KInt 0 /\ forall mk, is_Some (_meters i !! mk) -> mk <> KInt 0) /\
  get_installation (sn c') (KInt 0) = Raise (ValueError "Could not find installation id") /\
  (forall k i, _installations (sn c') !! k = Some i ->
     get_meter i (KInt 0) = Raise (ValueError "Could not find meter id")).
Proof.
  intros Hc c'.
  assert (Hc' : ids_truthy (sn c')) by (apply update_info_ids; exact Hc).
  split; [intros; eapply update_one_skip; eauto|].
  split; [intros; eapply add_meters_skip; eauto|].
  split; [exact Hc'|].
  assert (Hz : forall k i, _installations (sn c') !! k = Some i ->
     k <> KInt 0 /\ forall mk, is_Some (_meters i !! mk) -> mk <> KInt 0).
  { intros k i Hl. destruct (Hc' k i Hl) as [Hk Hm]. split.
    - intros ->. apply Hk. right; left; reflexivity.
    - intros mk [m Hmk] ->. apply (Hm _ _ Hmk). right; left; reflexivity. }
  split; [exact Hz|]. split.
  - unfold get_installation. destruct (_installations (sn c') !! KInt 0) as [i|] eqn:E; [|reflexivity].
    destruct (Hz _ _ E) as [F _]. contradiction.
  - intros k i Hl. unfold get_meter. destruct (_meters i !! KInt 0) as [m|] eqn:E; [|reflexivity].
    destruct (Hz _ _ Hl) as [_ F]. exfalso. apply (F (KInt 0)); eauto.
Qed.

End AccountFacts.

Lemma valid_values_lookup rvs : forall res m,
  valid_values rvs res = Return m ->
  forall k, m !! k = match last_valid k rvs with
                     | Some v => Some (VJson v)
                     | None => res !! k
                     end.
Proof.
  induction rvs as [|rv rvs IH]; intros res m H k; simpl in H.
  - injection H as <-. reflexivity.
  - simpl. unfold rv_valid, rv_entry.
    destruct (py_get rv "readingState") as [state|]; simpl in H; [|discriminate].
    destruct (is_str "Valid" state); simpl in H.
    + destruct (py_get rv "value") as [v|]; simpl in H; [|discriminate].
      destruct (py_get rv "readingType") as [ty|]; simpl in H; [|discriminate].
      destruct (hash_key ty) as [k'|]; simpl in H; [|discriminate].
      rewrite (IH _ _ H k). destruct (last_valid k rvs); [reflexivity|].
      destruct (decide (k' = k)) as [->|Hne].
      * rewrite lookup_insert_eq. reflexivity.
      * rewrite lookup_insert_ne by exact Hne. reflexivity.
    + rewrite (IH _ _ H k). destruct (last_valid k rvs); reflexivity.
Qed.

Lemma valid_values_none rvs : forall res m,
  valid_values rvs res = Return m ->
  Forall (fun rv => rv_valid rv = false) rvs -> m = res.
Proof.
  induction rvs as [|rv rvs IH]; intros res m H Hall; simpl in H.
  - congruence.
  - inversion Hall as [|? ? Hrv Hrest]; subst. unfold rv_valid in Hrv.
    destruct (py_get rv "readingState") as [state|]; simpl in H; [|discriminate].
    rewrite Hrv in H. simpl in H. eauto.
Qed.

Lemma valid_values_some rvs : forall res m,
  valid_values rvs res = Return m ->
  ~ Forall (fun rv => rv_valid rv = false) rvs ->
  exists k, last_valid k rvs <> None.
Proof.
  induction rvs as [|rv rvs IH]; intros res m H Hn; simpl in H.
  - exfalso. apply Hn. constructor.
  - simpl. destruct (rv_valid rv) eqn:Hrv.
    + unfold rv_valid in Hrv. unfold rv_entry.
      destruct (py_get rv "readingState") as [state|]; simpl in H; [|discriminate].
      rewrite Hrv in H. simpl in H.
      destruct (py_get rv "value") as [v|]; simpl in H; [|discriminate].
      destruct (py_get rv "readingType") as [ty|]; simpl in H; [|discriminate].
      destruct (hash_key ty) as [k'|]; simpl in H; [|discriminate].
      exists k'. destruct (last_valid k' rvs); [discriminate|].
      rewrite decide_True by reflexivity. discriminate.
    + assert (Hrest : valid_values rvs res = Return m).
      { unfold rv_valid in Hrv.
        destruct (py_get rv "readingState") as [state|]; simpl in H; [|discriminate].
        rewrite Hrv in H. exact H. }
      destruct (IH _ _ Hrest) as [k Hk].
      { intros Hall. apply Hn. constructor; [exact Hrv | exact Hall]. }
      exists k. destruct (last_valid k rvs); [discriminate | contradiction].
Qed.

Lemma valid_values_empty_iff items m :
  valid_values items ∅ = Return m ->
  (m = ∅ <-> Forall (fun rv => rv_valid rv = false) items).
Proof.
  intros H. split.
  - intros ->.
    destruct (Forall_dec (fun rv => rv_valid rv = false) items) as [Hall|Hn]; [exact Hall|].
    destruct (valid_values_some _ _ _ H Hn) as [k Hk].
    pose proof (valid_values_lookup _ _ _ H k) as Hl.
    rewrite lookup_empty in Hl. destruct (last_valid k items); [discriminate | contradiction].
  - intros Hall. eapply valid_values_none; eauto.
Qed.

(** ** The records of a batch *)

Section ReadingFacts.

Variable W : Externals.

Lemma process_reading_outcome reading s out s' :
  process_reading W reading s = (Return out, s') -> reading_outcome reading out.
Proof.
  unfold process_reading, bind, lift_o. intros H.
  destruct (py_get reading "readingValues") as [rvs|] eqn:Hrvs; [|discriminate].
  destruct (py_iter rvs) as [items|] eqn:Hitems; [|discriminate].
  destruct (valid_values items ∅) as [m|] eqn:Hm; [|discriminate].
  exists rvs, items, m. split; [exact Hrvs|]. split; [exact Hitems|]. split; [exact Hm|].
  split.
  { intros k. rewrite (valid_values_lookup _ _ _ Hm k), lookup_empty.
    destruct (last_valid k items); reflexivity. }
  split; [apply valid_values_empty_iff; exact Hm|].
  revert H. destruct (decide (m = ∅)) as [He|Hne]; intros H.
  - split; [|contradiction]. intros _. unfold ret in H. congruence.
  - split; [contradiction|]. intros _.
    destruct (py_get reading "readTime") as [d|]; [|discriminate].
    destruct (parse_iso W _ AttributeError s) as [[t|] s1]; [|discriminate].
    destruct (track_consumption _ t s1) as [[[]|] s2]; [|discriminate].
    destruct (track_reading _ t s2) as [[[]|] s3]; [|discriminate].
    unfold ret in H. injection H as <- <-.
    eexists. split; [reflexivity|]. split.
    + apply lookup_insert_eq.
    + intros k Hk1 Hk2. rewrite !lookup_insert_ne by congruence. reflexivity.
Qed.

Lemma process_readings_outcomes readings : forall acc s result s',
  process_readings W readings acc s = (Return result, s') ->
  exists outs, result = (acc ++ omap id outs)%list /\ Forall2 reading_outcome readings outs.
Proof.
  induction readings as [|reading rest IH]; intros acc s result s' H; simpl in H.
  - unfold ret in H. injection H as <- <-. exists []. simpl. rewrite app_nil_r. auto.
  - unfold bind in H.
    destruct (process_reading W reading s) as [[out|] s1] eqn:Hp; [|discriminate].
    destruct (IH _ _ _ _ H) as (outs & -> & Hall).
    exists (out :: outs). split.
    + destruct out; simpl; [rewrite <- app_assoc|]; reflexivity.
    + constructor; [eapply process_reading_outcome; eauto | exact Hall].
Qed.

(** C3. The loop of [_fetch_data] over a batch of readings: each reading
    either is skipped or gives its enriched record, in order; its mapping
    holds the "Valid" sub-values and no other; it is skipped exactly when
    the mapping is empty; a kept record carries the raw sub-value list. *)
Theorem fetch_keeps_valid_values (readings : list json) (s s' : MeterCtx)
    (result : list (gmap pykey pyval)) :
  process_readings W readings [] s = (Return result, s') ->
  exists outs,
    result = omap id outs /\ Forall2 reading_outcome readings outs.
Proof.
  intros H. destruct (process_readings_outcomes _ _ _ _ _ H) as (outs & -> & Hall).
  exists outs. split; [reflexivity | exact Hall].
Qed.

End ReadingFacts.

#[local] Instance on_meter_refl Rm `{!Reflexive Rm} : Reflexive (on_meter Rm).
Proof. intros s. unfold on_meter. reflexivity. Qed.

#[local] Instance on_meter_trans Rm `{!Transitive Rm} : Transitive (on_meter Rm).
Proof. intros a b c. unfold on_meter. apply transitivity. Qed.

#[local] Instance on_client_refl Rc `{!Reflexive Rc} : Reflexive (on_client Rc).
Proof. intros s. unfold on_client. reflexivity. Qed.

#[local] Instance on_client_trans Rc `{!Transitive Rc} : Transitive (on_client Rc).
Proof. intros a b c. unfold on_client. apply transitivity. Qed.

Lemma keeps_read_self {A} R `{!Reflexive R} (f : SNGrazMeter -> A) : keeps R (read_self f).
Proof. intros s. reflexivity. Qed.

Lemma keeps_in_client_meter {A} Rm `{!Reflexive Rm} (m : M Client A) :
  keeps (on_meter Rm) (in_client m).
Proof.
  intros s. unfold in_client, on_meter. destruct (m (client s)). simpl. reflexivity.
Qed.

Lemma keeps_in_client_client {A} Rc (m : M Client A) :
  keeps Rc m -> keeps (on_client Rc) (in_client m).
Proof.
  intros H s. unfold in_client, on_client. specialize (H (client s)).
  destruct (m (client s)). exact H.
Qed.

Lemma keeps_on_self_meter (Rm : SNGrazMeter -> SNGrazMeter -> Prop) f :
  (forall m, Rm m (f m)) -> keeps (on_meter Rm) (on_self f).
Proof. intros H s. apply H. Qed.

Lemma keeps_on_self_client Rc `{!Reflexive Rc} f : keeps (on_client Rc) (on_self f).
Proof. intros s. unfold on_client. simpl. reflexivity. Qed.

Lemma same_kind_refl {T} (a : datetime_of T) : same_kind a a = true.
Proof. unfold same_kind. destruct (tzinfo a); reflexivity. Qed.

Lemma same_kind_sym {T} (a b : datetime_of T) : same_kind a b = true -> same_kind b a = true.
Proof. unfold same_kind. destruct (tzinfo a), (tzinfo b); auto. Qed.

Lemma same_kind_trans {T} (a b c : datetime_of T) :
  same_kind a b = true -> same_kind b c = true -> same_kind a c = true.
Proof. unfold same_kind. destruct (tzinfo a), (tzinfo b), (tzinfo c); auto. Qed.

#[local] Instance dt_le_refl : Reflexive dt_le.
Proof. intros a. split; [apply same_kind_refl | lia]. Qed.

#[local] Instance dt_le_trans : Transitive dt_le.
Proof.
  intros a b c [K1 L1] [K2 L2]. split; [eapply same_kind_trans; eauto | lia].
Qed.

#[local] Instance tracker_le_refl : Reflexive tracker_le.
Proof. intros [a|]; simpl; [|exact I]. exists a. split; reflexivity. Qed.

#[local] Instance tracker_le_trans : Transitive tracker_le.
Proof.
  intros [a|] y z; simpl; [|auto]. intros (b & -> & Hab). simpl.
  intros (c & -> & Hbc). exists c. split; [reflexivity | etransitivity; eauto].
Qed.

#[local] Instance trackers_le_refl : Reflexive trackers_le.
Proof. intros m. split; reflexivity. Qed.

#[local] Instance trackers_le_trans : Transitive trackers_le.
Proof. intros a b c [H1 H2] [H3 H4]. split; etransitivity; eauto. Qed.

#[local] Instance cache_kept_refl : Reflexive cache_kept.
Proof. intros m. split; reflexivity. Qed.

#[local] Instance cache_kept_trans : Transitive cache_kept.
Proof. intros a b c [H1 H2] [H3 H4]. split; congruence. Qed.

#[local] Instance first_date_kept_refl : Reflexive first_date_kept.
Proof. intros m d H. exact H. Qed.

#[local] Instance first_date_kept_trans : Transitive first_date_kept.
Proof. intros a b c H1 H2 d H. auto. Qed.



Lemma newer_spec t cached b :
  newer t cached = Return b ->
  match cached with
  | None => b = true
  | Some c => same_kind c t = true /\ b = (order_key c <? order_key t)%Z
  end.
Proof.
  destruct cached as [c|]; simpl.
  - unfold dt_gt. destruct (same_kind t c) eqn:K; [|discriminate].
    intros [= <-]. split; [apply same_kind_sym, K | reflexivity].
  - intros [= <-]. reflexivity.
Qed.

(** ** The two tracker updates *)

Lemma track_consumption_cases res t s :
  let s' := snd (track_consumption res t s) in
  s' = s \/
  exists v, res !! KStr "CONSUMP" = Some v /\
    s' = mkCtx (client s) (set_last_consumption t v (self s)) /\
    match _last_consumption_date (self s) with
    | None => True
    | Some c => same_kind c t = true /\ (order_key c < order_key t)%Z
    end.
Proof.
  unfold track_consumption. destruct (res !! KStr "CONSUMP") as [v|]; [|left; reflexivity].
  unfold bind, read_self, lift_o. simpl.
  destruct (newer t (_last_consumption_date (self s))) as [b|] eqn:Hn; [|left; reflexivity].
  apply newer_spec in Hn. destruct b; [|left; reflexivity].
  right. exists v. split; [reflexivity|]. split; [reflexivity|].
  destruct (_last_consumption_date (self s)); [|exact I].
  destruct Hn as [K Hb]. split; [exact K|]. symmetry in Hb. apply Z.ltb_lt in Hb. exact Hb.
Qed.

Lemma track_reading_cases res t s :
  let s' := snd (track_reading res t s) in
  s' = s \/
  exists v, res !! KStr "MR" = Some v /\
    s' = mkCtx (client s) (set_last_reading t v (self s)) /\
    match _last_reading_date (self s) with
    | None => True
    | Some c => same_kind c t = true /\ (order_key c < order_key t)%Z
    end.
Proof.
  unfold track_reading. destruct (res !! KStr "MR") as [v|]; [|left; reflexivity].
  unfold bind, read_self, lift_o. simpl.
  destruct (newer t (_last_reading_date (self s))) as [b|] eqn:Hn; [|left; reflexivity].
  apply newer_spec in Hn. destruct b; [|left; reflexivity].
  right. exists v. split; [reflexivity|]. split; [reflexivity|].
  destruct (_last_reading_date (self s)); [|exact I].
  destruct Hn as [K Hb]. split; [exact K|]. symmetry in Hb. apply Z.ltb_lt in Hb. exact Hb.
Qed.

Lemma track_consumption_le res t : keeps (on_meter trackers_le) (track_consumption res t).
Proof.
  intros s. destruct (track_consumption_cases res t s) as [->|(v & _ & -> & H)]; [reflexivity|].
  unfold on_meter. simpl. split; simpl; [|reflexivity].
  destruct (_last_consumption_date (self s)) as [c|]; simpl; [|exact I].
  exists t. split; [reflexivity|]. destruct H. split; [assumption | lia].
Qed.

Lemma track_reading_le res t : keeps (on_meter trackers_le) (track_reading res t).
Proof.
  intros s. destruct (track_reading_cases res t s) as [->|(v & _ & -> & H)]; [reflexivity|].
  unfold on_meter. simpl. split; simpl; [reflexivity|].
  destruct (_last_reading_date (self s)) as [c|]; simpl; [|exact I].
  exists t. split; [reflexivity|]. destruct H. split; [assumption | lia].
Qed.



Ltac keeps_meter leaf :=
  repeat first
    [ solve [typeclasses eauto]
    | apply keeps_ret | apply keeps_raise | apply keeps_lift_o
    | apply keeps_read_self | apply keeps_read
    | solve [leaf]
    | apply keeps_bind; [try solve [typeclasses eauto] .. | | intros ?]
    | match goal with
      | |- keeps _ (if ?b then _ else _) => destruct b
      | |- keeps _ (match ?x with _ => _ end) => destruct x
      end ].

(** ** What every fetch keeps, given that the tracker updates, the
       first-reading-date memo and the queries keep it *)

Section MeterKeeps.

Variable W : Externals.

Variable R : MeterCtx -> MeterCtx -> Prop.

Context `{!Reflexive R} `{!Transitive R}.

Hypothesis Htc : forall res t, keeps R (track_consumption res t).

Hypothesis Htr : forall res t, keeps R (track_reading res t).

Hypothesis Hfrd : keeps R (_get_first_reading_date W).

Hypothesis Hquery : forall path payload, keeps R (in_client (query W path payload)).

Hypothesis Hwindow : forall days, keeps R (window W days).

Hypothesis Hdata : forall l, keeps R (on_self (set_data l)).

Hypothesis Hfirst : forall v, keeps R (on_self (set_first_reading v)).

Lemma parse_iso_keeps j e : keeps R (parse_iso W j e).
Proof. unfold parse_iso. keeps_meter fail. Qed.

Lemma process_reading_keeps reading : keeps R (process_reading W reading).
Proof.
  unfold process_reading.
  keeps_meter ltac:(first [ apply Htc | apply Htr | apply parse_iso_keeps ]).
Qed.

Lemma process_readings_keeps readings : forall acc, keeps R (process_readings W readings acc).
Proof.
  induction readings as [|reading rest IH]; intros acc; simpl.
  - apply keeps_ret; typeclasses eauto.
  - apply keeps_bind; [typeclasses eauto | apply process_reading_keeps | intros r; apply IH].
Qed.

Lemma _fetch_data_keeps a b : keeps R (_fetch_data W a b).
Proof.
  unfold _fetch_data.
  apply keeps_bind; [typeclasses eauto | apply keeps_read_self; typeclasses eauto |].
  intros opt. destruct (interval_of opt b) as [[iv e]|]; [|apply keeps_ret; typeclasses eauto].
  keeps_meter ltac:(first [ apply Hfrd | apply Hquery | apply process_readings_keeps ]).
Qed.

Lemma get_historic_data_keeps days : keeps R (get_historic_data W days).
Proof.
  unfold get_historic_data.
  keeps_meter ltac:(first [ apply Hwindow | apply _fetch_data_keeps ]).
Qed.

Lemma fetch_consumption_data_keeps days : keeps R (fetch_consumption_data W days).
Proof.
  unfold fetch_consumption_data.
  keeps_meter ltac:(first [ apply Hwindow | apply _fetch_data_keeps | apply Hdata ]).
Qed.

Lemma scan_keeps fuel : forall a b s r s',
  scan W fuel a b s = Some (r, s') -> R s s'.
Proof.
  induction fuel as [|fuel IH]; intros a b s r s' H; simpl in H; [discriminate|].
  pose proof (_fetch_data_keeps a b s) as Hf.
  destruct (_fetch_data W a b s) as [[[l|]|e] s1]; simpl in Hf.
  - destruct (add_days a 7) as [a'|e1]; [|injection H as <- <-; exact Hf].
    destruct (add_days a' 7) as [b'|e2]; [|injection H as <- <-; exact Hf].
    destruct l.
    + etransitivity; [exact Hf | eapply IH; exact H].
    + injection H as <- <-. exact Hf.
  - injection H as <- <-. exact Hf.
  - injection H as <- <-. exact Hf.
Qed.

Lemma get_first_reading_keeps fuel s r s' :
  get_first_reading W fuel s = Some (r, s') -> R s s'.
Proof.
  unfold get_first_reading. intros H.
  destruct (val_truthy (_first_reading (self s))).
  { injection H as <- <-. reflexivity. }
  pose proof (Hfrd s) as Hd.
  destruct (_get_first_reading_date W s) as [[[d|]|e] s1]; simpl in Hd;
    try (injection H as <- <-; exact Hd).
  destruct (add_days d 7) as [d7|e]; [|injection H as <- <-; exact Hd].
  destruct (scan W fuel d d7 s1) as [[o s2]|] eqn:Hs; [|discriminate].
  apply scan_keeps in Hs.
  assert (R s s2) by (etransitivity; eauto).
  destruct o as [[l|]|e]; try (injection H as <- <-; assumption).
  destruct l as [|first rest]; [injection H as <- <-; assumption|].
  destruct (first !! KStr "MR") as [v|]; injection H as <- <-; [|assumption].
  etransitivity; [eassumption|]. apply (Hfirst v s2).
Qed.

End MeterKeeps.

(** ** The trackers *)

Section MeterFacts.

Variable W : Externals.

Lemma first_date_keeps_meter Rm `{!Reflexive Rm} `{!Transitive Rm} :
  (forall d m, Rm m (set_first_reading_date d m)) ->
  keeps (on_meter Rm) (_get_first_reading_date W).
Proof.
  intros H. unfold _get_first_reading_date, parse_iso.
  keeps_meter ltac:(first [ apply keeps_in_client_meter; typeclasses eauto
                          | apply keeps_on_self_meter; intros; apply H ]).
Qed.

Lemma window_keeps_meter Rm `{!Reflexive Rm} days : keeps (on_meter Rm) (window W days).
Proof.
  intros s. unfold on_meter, window. destruct (add_days _ (- days)); simpl; reflexivity.
Qed.

Lemma query_keeps_meter Rm `{!Reflexive Rm} path payload :
  keeps (on_meter Rm) (in_client (query W path payload)).
Proof. apply keeps_in_client_meter. typeclasses eauto. Qed.

(** *** The trackers only move forward *)

Lemma first_date_le : keeps (on_meter trackers_le) (_get_first_reading_date W).
Proof. apply first_date_keeps_meter; try typeclasses eauto. intros d m. split; reflexivity. Qed.


Lemma get_historic_data_le days : keeps (on_meter trackers_le) (get_historic_data W days).
Proof.
  apply get_historic_data_keeps; try typeclasses eauto.
  - apply track_consumption_le.
  - apply track_reading_le.
  - apply first_date_le.
  - intros. apply query_keeps_meter. typeclasses eauto.
  - intros. apply window_keeps_meter. typeclasses eauto.
Qed.



(** *** The trackers are at or after every record handed out *)



(** The way through [_fetch_data] that ends in a list of records. *)
Lemma _fetch_data_inv a b s l s' :
  _fetch_data W a b s = (Return (Some l), s') ->
  exists iv e fr s1 before resp s2 readings items,
    interval_of (_opt_state (self s)) b = Some (iv, e) /\
    _get_first_reading_date W s = (Return (Some fr), s1) /\
    dt_lt (tzdata W) a fr = Return before /\
    in_client (query W "getMeterReading"
                 (reading_payload W iv (_meter_id (self s1)) (if before then fr else a) e)) s1
      = (Return resp, s2) /\
    resp <> JNull /\
    py_get resp "readings" = Return readings /\
    truthy readings = true /\
    py_iter readings = Return items /\
    process_readings W items [] s2 = (Return l, s').
Proof.
  unfold _fetch_data. unfold bind at 1. unfold read_self at 1. cbn beta iota.
  destruct (interval_of (_opt_state (self s)) b) as [[iv e]|] eqn:Hiv; [|discriminate].
  unfold bind at 1.
  destruct (_get_first_reading_date W s) as [[[fr|]|] s1] eqn:Hfr; try discriminate.
  unfold bind at 1. unfold lift_o at 1.
  destruct (dt_lt (tzdata W) a fr) as [before|] eqn:Hlt; [|discriminate].
  unfold bind at 1. unfold read_self at 1. cbn beta iota.
  unfold bind at 1.
  destruct (in_client _ s1) as [[resp|] s2] eqn:Hq; [|discriminate].
  intros H.
  assert (Hresp : resp <> JNull) by (intros ->; discriminate).
  assert (H' : (let* readings := lift_o (py_get resp "readings") in
                if negb (truthy readings) then ret None
                else let* items := lift_o (py_iter readings) in
                     let* result := process_readings W items [] in
                     ret (Some result)) s2 = (Return (Some l), s'))
    by (destruct resp; [contradiction | exact H ..]).
  clear H. unfold bind, lift_o in H'.
  destruct (py_get resp "readings") as [readings|] eqn:Hrd; [|discriminate].
  destruct (truthy readings) eqn:Ht; simpl in H'; [|discriminate].
  destruct (py_iter readings) as [items|] eqn:Hit; [|discriminate].
  destruct (process_readings W items [] s2) as [[result|] s3] eqn:Hp; [|discriminate].
  unfold ret in H'. injection H' as <- <-.
  exists iv, e, fr, s1, before, resp, s2, readings, items. repeat split; assumption.
Qed.


Lemma get_historic_data_eq days s :
  get_historic_data W days s =
  (let* w := window W days in _fetch_data W (fst w) (snd w)) s.
Proof.
  unfold get_historic_data, bind. destruct (window W days s) as [[w|] s1]; [|reflexivity].
  destruct (_fetch_data W (fst w) (snd w) s1) as [[[l|]|] s2]; reflexivity.
Qed.





End MeterFacts.

Lemma bind_eq {S A B : Type} (m : M S A) (k : A -> M S B) s :
  bind m k s = match m s with
               | (Return a, s') => k a s'
               | (Raise e, s') => (Raise e, s')
               end.
Proof. reflexivity. Qed.

(** ** The requests a computation sends *)

#[local] Instance sends_refl P : Reflexive (sends P).
Proof. intros c. exists []. rewrite app_nil_r. split; [reflexivity | constructor]. Qed.

#[local] Instance sends_trans P : Transitive (sends P).
Proof.
  intros a b c (e1 & H1 & F1) (e2 & H2 & F2). exists (e1 ++ e2)%list.
  rewrite H2, H1, app_assoc. split; [reflexivity | apply Forall_app; auto].
Qed.

Lemma sends_weaken (P Q : request -> Prop) c c' :
  (forall r, P r -> Q r) -> sends P c c' -> sends Q c c'.
Proof.
  intros H (e & He & F). exists e. split; [exact He|]. eapply Forall_impl; eauto.
Qed.

Lemma new_requests_sends P s s' :
  on_client (sends P) s s' -> Forall P (new_requests s s').
Proof.
  intros (e & He & F). unfold new_requests. rewrite He, drop_app_length. exact F.
Qed.

Section Requests.

Variable W : Externals.

Lemma ok_sends P : keeps (sends P) (ok W).
Proof.
  intros c. destruct (ok_cases W c) as (b & c1 & -> & Hs & _). simpl.
  exists []. rewrite app_nil_r. split; [exact Hs | constructor].
Qed.

Lemma set_jwt_sends P t : keeps (sends P) (fun c => (Return tt, set_jwt t c)).
Proof.
  intros c. exists []. simpl. rewrite app_nil_r. split; [reflexivity | constructor].
Qed.

Lemma _query_sends P path payload retry :
  (forall r, to_path path payload r -> P r) ->
  keeps (sends P) (_query W path payload retry).
Proof.
  intros HP. induction retry as [|r IH]; intros c;
    [destruct (_query_step W path payload 0 c) as (req & c1 & Hu & Hd & _ & Hs & ->)
    |destruct (_query_step W path payload (S r) c) as (req & c1 & Hu & Hd & _ & Hs & ->)];
    assert (H1 : sends P c c1)
      by (exists [req]; split; [exact Hs | constructor; [apply HP; split; assumption | constructor]]).
  - destruct (settle _); exact H1.
  - destruct (settle _); [exact H1|]. etransitivity; [exact H1 | apply IH].
Qed.

Lemma authenticate_sends P :
  (forall r, login_request r -> P r) -> keeps (sends P) (authenticate W).
Proof.
  intros HP. unfold authenticate.
  keeps_with ltac:(first [ apply _query_sends; intros r [Hu _]; apply HP; exact Hu
                         | apply ok_sends | apply set_jwt_sends ]).
Qed.

Lemma query_sends P path payload :
  (forall r, login_request r -> P r) ->
  (forall r, to_path path payload r -> P r) ->
  keeps (sends P) (query W path payload).
Proof.
  intros HL HP. unfold query.
  keeps_with ltac:(first [ apply _query_sends; exact HP | apply ok_sends
                         | apply authenticate_sends; exact HL ]).
Qed.

(** A query that returns has sent its request. *)
Lemma query_returns_sent path payload c j c' :
  query W path payload c = (Return j, c') ->
  exists req, req ∈ drop (length (sent (env c))) (sent (env c')) /\ to_path path payload req.
Proof.
  unfold query. unfold bind at 1.
  destruct (ok_cases W c) as (b & c1 & Hok & Hs1 & _). rewrite Hok.
  unfold bind at 1.
  assert (Hauth : keeps (sends (fun _ => True))
                    (if negb b then authenticate W else ret true)).
  { destruct (negb b); [apply authenticate_sends; auto | apply keeps_ret; typeclasses eauto]. }
  specialize (Hauth c1).
  destruct ((if negb b then authenticate W else ret true) c1) as [[x|] c2] eqn:Ha; [|discriminate].
  destruct Hauth as (e2 & Hs2 & _).
  simpl in Hs2. intros Hq.
  destruct (_query_step W path payload 2 c2) as (req & c3 & Hu & Hd & _ & Hs3 & Heq).
  assert (Hs4 : sends (fun _ => True) c3 c').
  { rewrite Hq in Heq. destruct (settle _).
    - injection Heq as _ ->. reflexivity.
    - pose proof (_query_sends (fun _ => True) path payload 1 (fun _ _ => I) c3) as H.
      rewrite <- Heq in H. exact H. }
  destruct Hs4 as (e4 & Hs4 & _).
  exists req. split; [|split; assumption].
  rewrite Hs4, Hs3, Hs2, Hs1, <- !app_assoc, drop_app_length.
  rewrite !elem_of_app. right. left. apply list_elem_of_singleton. reflexivity.
Qed.

Lemma query_eq path payload c :
  query W path payload c =
  (let* _ := login_if_needed W in _query W path payload 2) c.
Proof.
  unfold query, login_if_needed. rewrite !bind_eq.
  destruct (ok W c) as [[valid|e] c1]; reflexivity.
Qed.

(** Once the token is valid or the login went through, the request of a
    query is sent, however the query ends. *)
Lemma query_posts path payload c :
  returned (fst (login_if_needed W c)) = true ->
  exists req, req ∈ drop (length (sent (env c))) (sent (env (snd (query W path payload c)))) /\
              to_path path payload req.
Proof.
  intros Hl. rewrite query_eq, bind_eq.
  assert (Hs1 : keeps (sends (fun _ => True)) (login_if_needed W)).
  { unfold login_if_needed.
    keeps_with ltac:(first [ apply ok_sends | apply authenticate_sends; auto ]). }
  specialize (Hs1 c).
  destruct (login_if_needed W c) as [[b|e] c1]; [|discriminate]. simpl in Hs1.
  destruct Hs1 as (e1 & He1 & _).
  destruct (_query_step W path payload 2 c1) as (req & c2 & Hu & Hd & _ & Hs2 & Heq).
  assert (Hs3 : sends (fun _ => True) c2 (snd (_query W path payload 2 c1))).
  { rewrite Heq. destruct (settle _); [reflexivity|].
    apply (_query_sends (fun _ => True) path payload 1 (fun _ _ => I) c2). }
  destruct Hs3 as (e3 & He3 & _).
  exists req. split; [|split; assumption].
  rewrite He3, Hs2, He1, <- !app_assoc, drop_app_length.
  rewrite !elem_of_app. right. left. apply list_elem_of_singleton. reflexivity.
Qed.

(** The response a query returns is the body of the answer, with status
    200, to the last request sent, which is the request of the query. *)
Lemma _query_response path payload retry : forall c resp c',
  _query W path payload retry c = (Return resp, c') -> resp <> JNull ->
  exists pre req,
    sent (env c') = (pre ++ [req])%list /\ to_path path payload req /\
    transport W (length pre) req = Responded 200 (Return resp).
Proof.
  assert (Hsettle : forall a resp, settle a = Some (Return resp) -> resp <> JNull ->
                      a = Responded 200 (Return resp)).
  { intros a resp Ha Hn. destruct a as [e|status body]; simpl in Ha.
    - destruct e; discriminate.
    - destruct (status =? 200)%Z eqn:Es; simpl in Ha;
        [|injection Ha as <-; contradiction].
      apply Z.eqb_eq in Es. subst status.
      destruct body as [j|e]; [injection Ha as ->; reflexivity|].
      destruct e; discriminate. }
  induction retry as [|r IH]; intros c resp c' H Hn.
  - destruct (_query_step W path payload 0 c) as (req & c1 & Hu & Hd & _ & Hs & Heq).
    rewrite H in Heq. destruct (settle _) as [o|] eqn:E; [|discriminate].
    injection Heq as <- ->. exists (sent (env c)), req.
    split; [exact Hs|]. split; [split; assumption|]. apply Hsettle; assumption.
  - destruct (_query_step W path payload (S r) c) as (req & c1 & Hu & Hd & _ & Hs & Heq).
    rewrite H in Heq. destruct (settle _) as [o|] eqn:E.
    + injection Heq as <- ->. exists (sent (env c)), req.
      split; [exact Hs|]. split; [split; assumption|]. apply Hsettle; assumption.
    + symmetry in Heq. exact (IH _ _ _ Heq Hn).
Qed.

Lemma query_response path payload c resp c' :
  query W path payload c = (Return resp, c') -> resp <> JNull ->
  exists pre req,
    sent (env c') = (pre ++ [req])%list /\ to_path path payload req /\
    transport W (length pre) req = Responded 200 (Return resp).
Proof.
  rewrite query_eq, bind_eq.
  destruct (login_if_needed W c) as [[b|e] c1]; [|discriminate].
  apply _query_response.
Qed.

End Requests.

#[local] Instance static_kept_refl : Reflexive static_kept.
Proof. intros m. repeat split; reflexivity. Qed.

#[local] Instance static_kept_trans : Transitive static_kept.
Proof.
  intros a b c (H1 & H2 & H3) (H4 & H5 & H6).
  repeat split; try congruence. etransitivity; eauto.
Qed.

Lemma login_not_reading r : login_request r -> url r <> reading_url.
Proof. unfold login_request. intros -> H. vm_compute in H. discriminate. Qed.

Lemma metadata_not_reading payload r :
  to_path "getMeterReadingMetaData" payload r -> url r <> reading_url.
Proof. intros [-> _] H. vm_compute in H. discriminate. Qed.

(** ** ISO 8601, printed and read back *)

Lemma digit_val_digit n : digit_val (digit n) = Some (n mod 10)%Z.
Proof.
  unfold digit. pose proof (Z.mod_pos_bound n 10 ltac:(lia)) as B.
  set (k := (n mod 10)%Z) in *.
  assert (K : (k = 0 \/ k = 1 \/ k = 2 \/ k = 3 \/ k = 4 \/ k = 5 \/ k = 6 \/ k = 7 \/
               k = 8 \/ k = 9)%Z) by lia.
  destruct K as [-> | [-> | [-> | [-> | [-> | [-> | [-> | [-> | [-> | ->]]]]]]]]];
    reflexivity.
Qed.

Lemma read_digits_app w1 : forall w2 acc s,
  read_digits (w1 + w2) acc s =
  match read_digits w1 acc s with
  | Some (v, s') => read_digits w2 v s'
  | None => None
  end.
Proof.
  induction w1 as [|w1 IH]; intros w2 acc s; [reflexivity|].
  simpl. destruct s as [|a rest]; [reflexivity|].
  destruct (digit_val a); [apply IH | reflexivity].
Qed.

Lemma append_String a s t : (String a s ++ t)%string = String a (s ++ t)%string.
Proof. reflexivity. Qed.

Lemma append_empty_l (s : string) : ("" ++ s)%string = s.
Proof. reflexivity. Qed.

Lemma append_nil_r (s : string) : (s ++ "")%string = s.
Proof. induction s as [|a s IH]; [reflexivity|]. rewrite append_String, IH. reflexivity. Qed.

Lemma append_assoc (a b c : string) : ((a ++ b) ++ c)%string = (a ++ (b ++ c))%string.
Proof. induction a as [|x a IH]; [reflexivity|]. rewrite !append_String, IH. reflexivity. Qed.

Lemma read_digits_zfill w : forall n acc rest,
  (0 <= n < 10 ^ Z.of_nat w)%Z ->
  read_digits w acc (zfill w n ++ rest) = Some ((acc * 10 ^ Z.of_nat w + n)%Z, rest).
Proof.
  induction w as [|w IH]; intros n acc rest Hn.
  - simpl in *. f_equal. f_equal. lia.
  - change (zfill (S w) n) with (zfill w (n / 10) ++ String (digit n) EmptyString).
    assert (Hp : (10 ^ Z.of_nat (S w) = 10 * 10 ^ Z.of_nat w)%Z).
    { rewrite Nat2Z.inj_succ, Z.pow_succ_r by lia. reflexivity. }
    rewrite Hp in Hn. rewrite Hp.
    rewrite append_assoc. replace (S w) with (w + 1) by lia.
    rewrite read_digits_app.
    assert (Hq : (0 <= n / 10 < 10 ^ Z.of_nat w)%Z).
    { split; [apply Z.div_pos; lia | apply Z.div_lt_upper_bound; lia]. }
    rewrite (IH _ _ _ Hq). rewrite append_String, append_empty_l. cbn [read_digits].
    rewrite digit_val_digit.
    f_equal. f_equal. pose proof (Z.div_mod n 10 ltac:(lia)). lia.
Qed.

Lemma read2 n rest :
  (0 <= n < 100)%Z -> read_digits 2 0 (zfill 2 n ++ rest) = Some (n, rest).
Proof. intros H. rewrite (read_digits_zfill 2 n 0 rest); [reflexivity | simpl; lia]. Qed.

Lemma read_offset_format off :
  (-86400 < off < 86400)%Z -> read_offset (format_offset off) = Some (Some off).
Proof.
  intros H. unfold format_offset.
  set (a := Z.abs off).
  assert (Ha : (0 <= a < 86400)%Z) by (subst a; lia).
  assert (Hh : (0 <= a / 3600 < 100)%Z).
  { split; [apply Z.div_pos; lia | apply Z.div_lt_upper_bound; lia]. }
  assert (Hm : (0 <= (a / 60) mod 60 < 100)%Z).
  { pose proof (Z.mod_pos_bound (a / 60) 60 ltac:(lia)). lia. }
  assert (Hs : (0 <= a mod 60 < 100)%Z).
  { pose proof (Z.mod_pos_bound a 60 ltac:(lia)). lia. }
  assert (Hdec : (a = a / 3600 * 3600 + (a / 60) mod 60 * 60 + a mod 60)%Z).
  { pose proof (Z.div_mod a 60 ltac:(lia)).
    pose proof (Z.div_mod (a / 60) 60 ltac:(lia)).
    assert (a / 3600 = a / 60 / 60)%Z by (rewrite Z.div_div by lia; reflexivity).
    lia. }
  set (body := zfill 2 (a / 3600) ++ ":" ++ zfill 2 ((a / 60) mod 60) ++
               (if (a mod 60 =? 0)%Z then "" else ":" ++ zfill 2 (a mod 60))).
  assert (Hrest : forall c sg,
    read_sign (String c body) = Some (sg, body) -> (sg * a = off)%Z ->
    read_offset (String c body) = Some (Some off)).
  { intros c sg Hsg Hoff. unfold read_offset. rewrite Hsg. cbn [mbind option_bind].
    subst body. rewrite read2 by exact Hh. cbn [mbind option_bind].
    rewrite append_String, append_empty_l.
    cbn [expect Ascii.eqb Bool.eqb]. cbn [mbind option_bind].
    destruct (a mod 60 =? 0)%Z eqn:Ez.
    - rewrite read2 by exact Hm. cbn [mbind option_bind].
      apply Z.eqb_eq in Ez. f_equal. f_equal. lia.
    - rewrite read2 by exact Hm. cbn [mbind option_bind].
      rewrite append_String, append_empty_l.
      cbn [expect Ascii.eqb Bool.eqb mbind option_bind].
      rewrite <- (append_nil_r (zfill 2 (a mod 60))).
      rewrite read2 by exact Hs. cbn [mbind option_bind]. f_equal. f_equal. lia. }
  destruct (off <? 0)%Z eqn:En.
  - change ("-" ++ body) with (String "-" body).
    apply (Hrest "-"%char (-1)%Z); [reflexivity|]. apply Z.ltb_lt in En. subst a. lia.
  - change ("+" ++ body) with (String "+" body).
    apply (Hrest "+"%char 1%Z); [reflexivity|]. apply Z.ltb_ge in En. subst a. lia.
Qed.

(** ** The calendar: the date printed is the date of the ordinal *)

Lemma ymd_period o :
  ymd_of_ordinal (o + 146097) =
  let '(y, m, d) := ymd_of_ordinal o in ((y + 400)%Z, m, d).
Proof.
  unfold ymd_of_ordinal. cbv zeta.
  replace (o + 146097 - 719163 + 719468)%Z with ((o - 719163 + 719468) + 1 * 146097)%Z by lia.
  rewrite Z.div_add by lia.
  set (z := (o - 719163 + 719468)%Z).
  replace (z + 1 * 146097 - (z / 146097 + 1) * 146097)%Z with (z - z / 146097 * 146097)%Z
    by lia.
  f_equal. f_equal. lia.
Qed.

Lemma is_leap_period y : is_leap (y + 400) = is_leap y.
Proof.
  unfold is_leap.
  replace (y + 400)%Z with (y + 100 * 4)%Z at 1 by lia. rewrite Z.mod_add by lia.
  replace (y + 400)%Z with (y + 4 * 100)%Z at 1 by lia. rewrite Z.mod_add by lia.
  replace (y + 400)%Z with (y + 1 * 400)%Z by lia. rewrite Z.mod_add by lia.
  reflexivity.
Qed.

Lemma days_in_month_period y m : days_in_month (y + 400) m = days_in_month y m.
Proof. unfold days_in_month. rewrite is_leap_period. reflexivity. Qed.

Lemma ordinal_of_ymd_period y m d :
  ordinal_of_ymd (y + 400) m d = (ordinal_of_ymd y m d + 146097)%Z.
Proof.
  unfold ordinal_of_ymd, days_before_year, days_before_month. rewrite is_leap_period.
  replace (y + 400 - 1)%Z with (y - 1 + 400)%Z by lia.
  replace ((y - 1 + 400) / 4)%Z with ((y - 1) / 4 + 100)%Z
    by (replace (y - 1 + 400)%Z with (y - 1 + 100 * 4)%Z by lia; rewrite Z.div_add by lia;
        reflexivity).
  replace ((y - 1 + 400) / 100)%Z with ((y - 1) / 100 + 4)%Z
    by (replace (y - 1 + 400)%Z with (y - 1 + 4 * 100)%Z by lia; rewrite Z.div_add by lia;
        reflexivity).
  replace ((y - 1 + 400) / 400)%Z with ((y - 1) / 400 + 1)%Z
    by (replace (y - 1 + 400)%Z with (y - 1 + 1 * 400)%Z by lia; rewrite Z.div_add by lia;
        reflexivity).
  lia.
Qed.

Lemma ymd_check_period o : ymd_check o = true -> ymd_check (o + 146097) = true.
Proof.
  unfold ymd_check. rewrite ymd_period.
  destruct (ymd_of_ordinal o) as [[y m] d].
  rewrite days_in_month_period, ordinal_of_ymd_period.
  rewrite !andb_true_iff, !Z.leb_le, !Z.eqb_eq. lia.
Qed.

Lemma all_from_spec n f : forall o x,
  all_from n o f = true -> (o <= x < o + Z.of_nat n)%Z -> f x = true.
Proof.
  induction n as [|n IH]; intros o x H Hx; [lia|].
  simpl in H. apply andb_true_iff in H. destruct H as [H0 H1].
  destruct (Z.eq_dec x o) as [->|Hne]; [exact H0|].
  apply (IH (o + 1)%Z); [exact H1 | lia].
Qed.

Lemma ymd_check_era : all_from (Z.to_nat 146097) 1 ymd_check = true.
Proof. vm_compute. reflexivity. Qed.

Lemma ymd_check_first o : (1 <= o <= 146097)%Z -> ymd_check o = true.
Proof.
  intros H. apply (all_from_spec _ _ 1%Z o ymd_check_era). lia.
Qed.

Lemma ymd_check_all o : (1 <= o)%Z -> ymd_check o = true.
Proof.
  intros H.
  assert (G : forall k : nat, forall o, (1 <= o <= 146097)%Z ->
                ymd_check (o + 146097 * Z.of_nat k) = true).
  { induction k as [|k IH]; intros o0 H0.
    - replace (o0 + 146097 * Z.of_nat 0)%Z with o0 by lia. apply ymd_check_first, H0.
    - replace (o0 + 146097 * Z.of_nat (S k))%Z with (o0 + 146097 * Z.of_nat k + 146097)%Z
        by lia.
      apply ymd_check_period, IH, H0. }
  pose proof (Z.div_mod (o - 1) 146097 ltac:(lia)) as E.
  pose proof (Z.mod_pos_bound (o - 1) 146097 ltac:(lia)) as B.
  assert (Hq : (0 <= (o - 1) / 146097)%Z) by (apply Z.div_pos; lia).
  replace o with (((o - 1) mod 146097 + 1) + 146097 * Z.of_nat (Z.to_nat ((o - 1) / 146097)))%Z
    by (rewrite Z2Nat.id by exact Hq; lia).
  apply G. lia.
Qed.

(** Year, month and day of an ordinal of the years 1 to 9999 are a date of
    the calendar, and the date of that ordinal. *)
Lemma ymd_of_ordinal_date o y m d :
  (1 <= o <= 3652059)%Z -> ymd_of_ordinal o = (y, m, d) ->
  (1 <= y <= 9999)%Z /\ (1 <= m <= 12)%Z /\ (1 <= d <= days_in_month y m)%Z /\
  ordinal_of_ymd y m d = o.
Proof.
  intros Ho E. pose proof (ymd_check_all o ltac:(lia)) as C.
  unfold ymd_check in C. rewrite E in C.
  rewrite !andb_true_iff, !Z.leb_le, Z.eqb_eq in C.
  destruct C as ((((M1 & M2) & D1) & D2) & O).
  split; [|auto].
  assert (Hb : (0 <= days_before_month y m <= 335)%Z).
  { unfold days_before_month.
    assert (K : (m = 1 \/ m = 2 \/ m = 3 \/ m = 4 \/ m = 5 \/ m = 6 \/ m = 7 \/ m = 8 \/
                 m = 9 \/ m = 10 \/ m = 11 \/ m = 12)%Z) by lia.
    destruct K as [-> | [-> | [-> | [-> | [-> | [-> | [-> | [-> | [-> | [-> | [-> | ->]]]]]]]]]]];
      simpl; destruct (is_leap y); simpl; lia. }
  assert (Hd : (d <= 31)%Z).
  { unfold days_in_month in D2.
    destruct (m =? 2)%Z; [destruct (is_leap y); lia|].
    destruct ((m =? 4) || (m =? 6) || (m =? 9) || (m =? 11))%Z; lia. }
  unfold ordinal_of_ymd, days_before_year in O.
  pose proof (Z.div_mod (y - 1) 4 ltac:(lia)).
  pose proof (Z.mod_pos_bound (y - 1) 4 ltac:(lia)).
  pose proof (Z.div_mod (y - 1) 100 ltac:(lia)).
  pose proof (Z.mod_pos_bound (y - 1) 100 ltac:(lia)).
  pose proof (Z.div_mod (y - 1) 400 ltac:(lia)).
  pose proof (Z.mod_pos_bound (y - 1) 400 ltac:(lia)).
  lia.
Qed.

Lemma read4 n rest :
  (0 <= n < 10000)%Z -> read_digits 4 0 (zfill 4 n ++ rest) = Some (n, rest).
Proof. intros H. rewrite (read_digits_zfill 4 n 0 rest); [reflexivity | simpl; lia]. Qed.

Lemma read3 n rest :
  (0 <= n < 1000)%Z -> read_digits 3 0 (zfill 3 n ++ rest) = Some (n, rest).
Proof. intros H. rewrite (read_digits_zfill 3 n 0 rest); [reflexivity | simpl; lia]. Qed.

Lemma read_offset_none : read_offset "" = Some None.
Proof. reflexivity. Qed.

(** What [isoformat_ms] prints is the ISO 8601 form of the datetime: read
    back, it gives the date of the ordinal, the time of day with the
    microseconds cut to milliseconds, and the offset of the tzinfo at that
    wall time. *)
Lemma isoformat_ms_decodes tzdb (d : datetime) :
  valid_dt d ->
  (forall tz, tzinfo d = Some tz -> (-86400 < offset_at tzdb tz d < 86400)%Z) ->
  iso_ms_of tzdb d (isoformat_ms tzdb d).
Proof.
  intros (Ho & Hh & Hm & Hs & Hu) Hoff. unfold isoformat_ms.
  destruct (ymd_of_ordinal (ordinal d)) as [[y m] dd] eqn:E.
  destruct (ymd_of_ordinal_date _ _ _ _ Ho E) as (Hy & Hmo & Hd & Hord).
  assert (Hd31 : (dd <= 31)%Z).
  { unfold days_in_month in Hd.
    destruct (m =? 2)%Z; [destruct (is_leap y); lia|].
    destruct ((m =? 4) || (m =? 6) || (m =? 9) || (m =? 11))%Z; lia. }
  assert (Hms : (0 <= microsecond d / 1000 < 1000)%Z).
  { split; [apply Z.div_pos; lia | apply Z.div_lt_upper_bound; lia]. }
  exists (mkParts y m dd (hour d) (minute d) (second d) (microsecond d / 1000)
            (match tzinfo d with
             | None => None
             | Some tz => Some (offset_at tzdb tz d)
             end)).
  split; [|simpl; auto 12].
  unfold iso_decode.
  rewrite read4 by lia. cbn [mbind option_bind].
  rewrite append_String, append_empty_l. cbn [expect Ascii.eqb Bool.eqb mbind option_bind].
  rewrite read2 by lia. cbn [mbind option_bind].
  rewrite append_String, append_empty_l. cbn [expect Ascii.eqb Bool.eqb mbind option_bind].
  rewrite read2 by lia. cbn [mbind option_bind].
  rewrite append_String, append_empty_l. cbn [expect Ascii.eqb Bool.eqb mbind option_bind].
  rewrite read2 by lia. cbn [mbind option_bind].
  rewrite append_String, append_empty_l. cbn [expect Ascii.eqb Bool.eqb mbind option_bind].
  rewrite read2 by lia. cbn [mbind option_bind].
  rewrite append_String, append_empty_l. cbn [expect Ascii.eqb Bool.eqb mbind option_bind].
  rewrite read2 by lia. cbn [mbind option_bind].
  rewrite append_String, append_empty_l. cbn [expect Ascii.eqb Bool.eqb mbind option_bind].
  rewrite read3 by lia. cbn [mbind option_bind].
  unfold utcoffset. destruct (tzinfo d) as [tz|] eqn:Etz.
  - fold (offset_at tzdb tz d). rewrite read_offset_format by (apply Hoff; reflexivity).
    reflexivity.
  - rewrite read_offset_none. reflexivity.
Qed.

(** ** The request of [_fetch_data] *)

Section FetchRequest.

Variable W : Externals.

Lemma _fetch_data_eq a b s :
  _fetch_data W a b s =
  match interval_of (_opt_state (self s)) b with
  | None => (Return None, s)
  | Some (iv, e) =>
      (let* fr := _get_first_reading_date W in
       match fr with
       | None => ret None
       | Some first_reading =>
           let* before := lift_o (dt_lt (tzdata W) a first_reading) in
           let* id := read_self _meter_id in
           let* resp := in_client (query W "getMeterReading"
                          (reading_payload W iv id (if before then first_reading else a) e)) in
           fetch_tail W resp
       end) s
  end.
Proof.
  unfold _fetch_data. unfold bind at 1. unfold read_self at 1. cbn beta iota.
  destruct (interval_of (_opt_state (self s)) b) as [[iv e]|]; reflexivity.
Qed.

Lemma fetch_tail_keeps R `{!Reflexive R} `{!Transitive R} :
  (forall res t, keeps R (track_consumption res t)) ->
  (forall res t, keeps R (track_reading res t)) ->
  forall resp, keeps R (fetch_tail W resp).
Proof.
  intros Htc Htr resp. unfold fetch_tail.
  keeps_meter ltac:(apply process_readings_keeps; assumption).
Qed.

Lemma track_consumption_client Rc `{!Reflexive Rc} res t :
  keeps (on_client Rc) (track_consumption res t).
Proof.
  intros s. destruct (track_consumption_cases res t s) as [->|(v & _ & -> & _)];
    unfold on_client; simpl; reflexivity.
Qed.

Lemma track_reading_client Rc `{!Reflexive Rc} res t :
  keeps (on_client Rc) (track_reading res t).
Proof.
  intros s. destruct (track_reading_cases res t s) as [->|(v & _ & -> & _)];
    unfold on_client; simpl; reflexivity.
Qed.

Lemma track_consumption_static res t : keeps (on_meter static_kept) (track_consumption res t).
Proof.
  intros s. destruct (track_consumption_cases res t s) as [->|(v & _ & -> & _)];
    [reflexivity|]. unfold on_meter. simpl. repeat split; try reflexivity. intros d H; exact H.
Qed.

Lemma track_reading_static res t : keeps (on_meter static_kept) (track_reading res t).
Proof.
  intros s. destruct (track_reading_cases res t s) as [->|(v & _ & -> & _)];
    [reflexivity|]. unfold on_meter. simpl. repeat split; try reflexivity. intros d H; exact H.
Qed.

Lemma in_client_self {A} (m : M Client A) s : self (snd (in_client m s)) = self s.
Proof. unfold in_client. destruct (m (client s)). reflexivity. Qed.

(** The memo of the first reading date: a resolved date is returned as it
    is and nothing is sent. *)
Lemma first_date_memo s d :
  _first_reading_date (self s) = Some d ->
  _get_first_reading_date W s = (Return (Some d), s).
Proof.
  intros H. unfold _get_first_reading_date, bind, read_self. simpl. rewrite H. reflexivity.
Qed.

Lemma first_date_inv s o s1 :
  _get_first_reading_date W s = (o, s1) ->
  (self s1 = self s /\
   forall d, o = Return (Some d) -> _first_reading_date (self s) = Some d) \/
  (_first_reading_date (self s) = None /\
   exists d, self s1 = set_first_reading_date d (self s) /\ o = Return (Some d)).
Proof.
  unfold _get_first_reading_date. unfold bind at 1. unfold read_self at 1. cbn beta iota.
  destruct (_first_reading_date (self s)) as [d|] eqn:E.
  { unfold ret. intros [= <- <-]. left. split; [reflexivity|]. intros d0 [= ->]. reflexivity. }
  unfold bind at 1. unfold read_self at 1. cbn beta iota.
  unfold bind at 1.
  pose proof (in_client_self
                (query W "getMeterReadingMetaData" (JDict [("meterPointId", _meter_id (self s))])) s)
    as Hself.
  destruct (in_client _ s) as [[resp|] s2]; simpl in Hself;
    [|intros [= <- <-]; left; split; [exact Hself | discriminate]].
  intros H.
  assert (Hrest :
    resp = JNull /\ (o, s1) = (Return None, s2) \/
    (let* since := lift_o (py_get resp "readingsAvailableSince") in
     let* d := parse_iso W since TypeError in
     let* tz := (fun s => (Return (time_zone (sn (client s))), s)) in
     let first := replace_minute d 0 (Some tz) in
     let* _ := on_self (set_first_reading_date first) in
     ret (Some first)) s2 = (o, s1)).
  { destruct resp; [left; split; [reflexivity | symmetry; exact H] | right; exact H ..]. }
  clear H. destruct Hrest as [[_ [= -> ->]]|H].
  { left. split; [exact Hself | discriminate]. }
  unfold bind, lift_o, parse_iso, ret, raise, on_self in H.
  destruct (py_get resp "readingsAvailableSince") as [since|];
    [|injection H as <- <-; left; split; [exact Hself | discriminate]].
  destruct since; try (injection H as <- <-; left; split; [exact Hself | discriminate]).
  destruct (fromisoformat W s0);
    [|injection H as <- <-; left; split; [exact Hself | discriminate]].
  injection H as <- <-. right. split; [reflexivity|]. eexists. simpl. rewrite Hself.
  split; reflexivity.
Qed.

Lemma first_date_static : keeps (on_meter static_kept) (_get_first_reading_date W).
Proof.
  intros s. unfold on_meter.
  destruct (_get_first_reading_date W s) as [o s1] eqn:H. simpl.
  destruct (first_date_inv _ _ _ H) as [[-> _]|(Hn & d & -> & _)]; [reflexivity|].
  repeat split; try reflexivity. intros d' H'. congruence.
Qed.

Lemma first_date_result s fr s1 :
  _get_first_reading_date W s = (Return (Some fr), s1) ->
  _first_reading_date (self s1) = Some fr.
Proof.
  intros H. destruct (first_date_inv _ _ _ H) as [[-> Hd]|(_ & d & -> & Hd)].
  - apply Hd. reflexivity.
  - simpl. congruence.
Qed.

Lemma first_date_sends P :
  (forall r, login_request r -> P r) ->
  (forall payload r, to_path "getMeterReadingMetaData" payload r -> P r) ->
  keeps (on_client (sends P)) (_get_first_reading_date W).
Proof.
  intros HL HM. unfold _get_first_reading_date, parse_iso.
  keeps_meter ltac:(first
    [ apply keeps_in_client_client, query_sends; [exact HL | apply HM]
    | apply keeps_on_self_client; typeclasses eauto ]).
Qed.

Lemma _fetch_data_static a b : keeps (on_meter static_kept) (_fetch_data W a b).
Proof.
  apply _fetch_data_keeps; try typeclasses eauto.
  - apply track_consumption_static.
  - apply track_reading_static.
  - apply first_date_static.
  - intros. apply query_keeps_meter. typeclasses eauto.
Qed.

Lemma wall_micros_eq {T} (d : datetime_of T) : wall_micros d = naive_us d.
Proof. unfold wall_micros, naive_us. lia. Qed.

(** What [<] returns is the order of the specification. *)
Lemma dt_lt_precedes a b before :
  dt_lt (tzdata W) a b = Return before ->
  comparable a b /\ (before = true <-> precedes (tzdata W) a b).
Proof.
  unfold dt_lt, precedes, comparable, utcoffset, offset_at. rewrite !wall_micros_eq.
  destruct (tzinfo a) as [za|], (tzinfo b) as [zb|]; try discriminate.
  - destruct (String.eqb za zb) eqn:E.
    + apply String.eqb_eq in E. subst zb. intros [= <-].
      split; [split; discriminate|]. rewrite Z.ltb_lt.
      split; [intros H; split; [intros _; exact H | intros N; contradiction]|].
      intros [H _]. apply H. reflexivity.
    + apply String.eqb_neq in E. intros [= <-].
      split; [split; discriminate|]. rewrite Z.ltb_lt.
      split; [intros H; split; [intros N; contradiction | intros _; lia]|].
      intros [_ H]. specialize (H E). lia.
  - intros [= <-]. split; [split; reflexivity|]. rewrite Z.ltb_lt. reflexivity.
Qed.

Lemma dt_lt_comparable a b :
  comparable a b -> exists before, dt_lt (tzdata W) a b = Return before.
Proof.
  unfold comparable, dt_lt, utcoffset. intros [H1 H2].
  destruct (tzinfo a) as [za|], (tzinfo b) as [zb|].
  - destruct (String.eqb za zb); eauto.
  - specialize (H2 eq_refl). discriminate.
  - specialize (H1 eq_refl). discriminate.
  - eauto.
Qed.

Lemma clamped_of_lt a fr before :
  dt_lt (tzdata W) a fr = Return before ->
  clamped (tzdata W) a fr (if before then fr else a).
Proof.
  intros H. destruct (dt_lt_precedes _ _ _ H) as [Hc Hp]. split; [exact Hc|].
  destruct before.
  - left. split; [apply Hp; reflexivity | reflexivity].
  - right. split; [|reflexivity]. intros N. apply Hp in N. discriminate.
Qed.

Lemma _fetch_data_requests a b s iv e :
  interval_of (_opt_state (self s)) b = Some (iv, e) ->
  forall req, req ∈ new_requests s (snd (_fetch_data W a b s)) ->
    url req = reading_url ->
    exists fr before,
      _first_reading_date (self (snd (_fetch_data W a b s))) = Some fr /\
      dt_lt (tzdata W) a fr = Return before /\
      data req = reading_payload W iv (_meter_id (self s)) (if before then fr else a) e.
Proof.
  intros Hiv req. rewrite _fetch_data_eq, Hiv. rewrite bind_eq.
  pose proof (first_date_sends (fun r => url r <> reading_url) login_not_reading
                metadata_not_reading s) as Hs1.
  pose proof (first_date_static s) as Hst1.
  destruct (_get_first_reading_date W s) as [[[fr|]|] s1] eqn:Hfr; simpl in Hs1, Hst1;
    try (simpl; intros Hin Hu; apply new_requests_sends in Hs1;
         rewrite Forall_forall in Hs1; exfalso; exact (Hs1 _ Hin Hu)).
  rewrite bind_eq. unfold lift_o at 1 2.
  destruct (dt_lt (tzdata W) a fr) as [before|] eqn:Hlt;
    [|simpl; intros Hin Hu; apply new_requests_sends in Hs1;
      rewrite Forall_forall in Hs1; exfalso; exact (Hs1 _ Hin Hu)].
  rewrite bind_eq. unfold read_self at 1 2. cbn beta iota.
  set (payload := reading_payload W iv (_meter_id (self s1)) (if before then fr else a) e).
  assert (Hall : keeps (on_client (sends (reading_carries payload)))
            (let* resp := in_client (query W "getMeterReading" payload) in fetch_tail W resp)).
  { apply keeps_bind; [typeclasses eauto | |].
    - apply keeps_in_client_client, query_sends.
      + intros r Hr Hu. exfalso. exact (login_not_reading r Hr Hu).
      + intros r [_ Hd] _. exact Hd.
    - intros resp. apply fetch_tail_keeps; try typeclasses eauto.
      + intros. apply track_consumption_client. typeclasses eauto.
      + intros. apply track_reading_client. typeclasses eauto. }
  assert (Hstat : keeps (on_meter static_kept)
            (let* resp := in_client (query W "getMeterReading" payload) in fetch_tail W resp)).
  { apply keeps_bind; [typeclasses eauto | |].
    - apply query_keeps_meter. typeclasses eauto.
    - intros resp. apply fetch_tail_keeps; try typeclasses eauto.
      + apply track_consumption_static.
      + apply track_reading_static. }
  specialize (Hall s1). specialize (Hstat s1).
  set (s' := snd ((let* resp := in_client (query W "getMeterReading" payload) in
                   fetch_tail W resp) s1)) in *.
  intros Hin Hu.
  assert (Hs : on_client (sends (reading_carries payload)) s s').
  { etransitivity; [|exact Hall]. unfold on_client in *.
    eapply sends_weaken; [|exact Hs1]. intros r Hr Hr'. contradiction. }
  apply new_requests_sends in Hs. rewrite Forall_forall in Hs.
  exists fr, before. split; [|split; [exact Hlt|]].
  - destruct Hstat as (_ & _ & Hk). apply Hk. eapply first_date_result; eauto.
  - rewrite (Hs _ Hin Hu). subst payload. destruct Hst1 as (-> & _). reflexivity.
Qed.

Lemma _fetch_data_sent a b s l s' :
  _fetch_data W a b s = (Return (Some l), s') ->
  exists req, req ∈ new_requests s s' /\ url req = reading_url.
Proof.
  intros H.
  assert (Hs' : s' = snd (_fetch_data W a b s)) by (rewrite H; reflexivity).
  apply _fetch_data_inv in H.
  destruct H as (iv & e & fr & s1 & before & resp & s2 & readings & items & H).
  destruct H as (_ & Hfr & _ & Hq & _ & _ & _ & _ & Hp).
  pose proof (first_date_sends (fun _ => True) (fun _ _ => I) (fun _ _ _ => I) s) as H1.
  rewrite Hfr in H1. destruct H1 as (e1 & He1 & _). simpl in He1.
  pose proof (process_readings_keeps W (on_client (sends (fun _ => True)))
                (fun res t => track_consumption_client _ res t)
                (fun res t => track_reading_client _ res t) items [] s2) as H3.
  rewrite Hp in H3. destruct H3 as (e3 & He3 & _). simpl in He3.
  unfold in_client in Hq.
  destruct (query W "getMeterReading" _ (client s1)) as [o c2] eqn:Hq'.
  injection Hq as -> <-. simpl in He3.
  apply query_returns_sent in Hq'. destruct Hq' as (req & Hin & Hu & _).
  exists req. split; [|exact Hu]. unfold new_requests.
  rewrite He3. rewrite He1 in Hin. rewrite length_app in Hin.
  apply list_elem_of_lookup in Hin. destruct Hin as [i Hi]. rewrite lookup_drop in Hi.
  apply list_elem_of_lookup. exists (length e1 + i). rewrite lookup_drop.
  rewrite lookup_app_l; [|apply lookup_lt_Some in Hi; lia].
  rewrite <- Hi. f_equal. lia.
Qed.

(** A request sent between two states is among those sent between an
    earlier and a later one. *)
Lemma new_requests_widen s s1 s2 s3 req :
  on_client (sends (fun _ => True)) s s1 ->
  on_client (sends (fun _ => True)) s2 s3 ->
  req ∈ drop (length (sent (env (client s1)))) (sent (env (client s2))) ->
  req ∈ new_requests s s3.
Proof.
  intros (e1 & He1 & _) (e3 & He3 & _) Hin. unfold new_requests.
  rewrite He3. rewrite He1, length_app in Hin.
  apply list_elem_of_lookup in Hin. destruct Hin as [i Hi]. rewrite lookup_drop in Hi.
  apply list_elem_of_lookup. exists (length e1 + i). rewrite lookup_drop.
  rewrite lookup_app_l; [|apply lookup_lt_Some in Hi; lia].
  rewrite <- Hi. f_equal. lia.
Qed.

(** With a first reading date to compare with and the login out of the
    way, the request for the readings is sent. *)
Lemma _fetch_data_posts a b s iv e fr s1 before :
  interval_of (_opt_state (self s)) b = Some (iv, e) ->
  _get_first_reading_date W s = (Return (Some fr), s1) ->
  dt_lt (tzdata W) a fr = Return before ->
  returned (fst (login_if_needed W (client s1))) = true ->
  exists req,
    req ∈ new_requests s (snd (_fetch_data W a b s)) /\
    to_path "getMeterReading"
      (reading_payload W iv (_meter_id (self s)) (if before then fr else a) e) req.
Proof.
  intros Hiv Hfr Hlt Hlogin.
  pose proof (first_date_sends (fun _ => True) (fun _ _ => I) (fun _ _ _ => I) s) as Hs1.
  pose proof (first_date_static s) as Hst1.
  rewrite Hfr in Hs1, Hst1. simpl in Hs1, Hst1. destruct Hst1 as (Hid & _).
  rewrite _fetch_data_eq, Hiv, bind_eq, Hfr, bind_eq. unfold lift_o at 1. rewrite Hlt.
  rewrite bind_eq. unfold read_self at 1. cbn beta iota. rewrite bind_eq.
  rewrite <- Hid.
  set (payload := reading_payload W iv (_meter_id (self s)) (if before then fr else a) e).
  destruct (query_posts W "getMeterReading" payload (client s1) Hlogin) as (req & Hin & Hreq).
  exists req. split; [|exact Hreq].
  unfold in_client at 1.
  destruct (query W "getMeterReading" payload (client s1)) as [[resp|e0] c2]; simpl in Hin.
  - pose proof (fetch_tail_keeps (on_client (sends (fun _ => True)))
                  (fun res t => track_consumption_client _ res t)
                  (fun res t => track_reading_client _ res t) resp
                  (mkCtx c2 (self s1))) as H3.
    eapply new_requests_widen; [exact Hs1 | exact H3 | exact Hin].
  - simpl. eapply new_requests_widen; [exact Hs1 | reflexivity | exact Hin].
Qed.

Lemma is_str_ne s j : j <> JStr s -> is_str s j = false.
Proof.
  intros H. destruct j; try reflexivity. simpl. apply String.eqb_neq. congruence.
Qed.

Lemma interval_of_mode opt endTime interval toDate :
  mode_request opt endTime interval toDate ->
  interval_of opt endTime = Some (interval, toDate).
Proof.
  intros [(-> & -> & Hm)|(-> & -> & ->)]; [|reflexivity].
  destruct Hm as (H1 & H2 & H3 & H4 & H5 & H6). unfold interval_of, replace_hm. simpl.
  destruct toDate. simpl in *. subst. reflexivity.
Qed.

(** C5. A meter in mode OptMiddle asks for the interval Daily up to the
    end with hour and minute zeroed, one in mode OptIn for QuarterHourly up
    to the end as given; in any other mode nothing comes back and nothing
    is sent.  Every request to getMeterReading carries the unit KWH, that
    interval, the meter id, the start clamped to the first reading date
    and that end; with a first reading date that compares with the start,
    and the login out of the way, such a request is sent.  The two dates
    are printed in ISO 8601 with milliseconds, with the offset the tzinfo
    gives at each wall time. *)
Theorem fetch_request (startTime endTime : datetime) (s : MeterCtx) :
  let opt := _opt_state (self s) in
  let r := _fetch_data W startTime endTime s in
  (opt <> JStr "OptMiddle" -> opt <> JStr "OptIn" -> r = (Return None, s)) /\
  (forall interval toDate,
     mode_request opt endTime interval toDate ->
     (forall req, req ∈ new_requests s (snd r) ->
        url req = API_ENDPOINT ++ "getMeterReading" ->
        exists fr fromDate,
          _first_reading_date (self (snd r)) = Some fr /\
          clamped (tzdata W) startTime fr fromDate /\
          carries_reading (tzdata W) interval (_meter_id (self s)) fromDate toDate req) /\
     (forall fr s1,
        _get_first_reading_date W s = (Return (Some fr), s1) ->
        comparable startTime fr ->
        returned (fst (login_if_needed W (client s1))) = true ->
        exists req fromDate,
          req ∈ new_requests s (snd r) /\
          url req = API_ENDPOINT ++ "getMeterReading" /\
          clamped (tzdata W) startTime fr fromDate /\
          carries_reading (tzdata W) interval (_meter_id (self s)) fromDate toDate req)) /\
  (forall d : datetime,
     valid_dt d ->
     (forall tz, tzinfo d = Some tz -> (-86400 < offset_at (tzdata W) tz d < 86400)%Z) ->
     iso_ms_of (tzdata W) d (isoformat_ms (tzdata W) d)).
Proof.
  intros opt r. split; [|split].
  - intros H1 H2. subst r. rewrite _fetch_data_eq. fold opt. unfold interval_of.
    rewrite (is_str_ne _ _ H1), (is_str_ne _ _ H2). reflexivity.
  - intros interval toDate Hm. apply interval_of_mode in Hm. split.
    + intros req Hin Hu.
      destruct (_fetch_data_requests startTime endTime s _ _ Hm req Hin Hu)
        as (fr & before & Hfr & Hlt & Hd).
      exists fr, (if before then fr else startTime).
      split; [exact Hfr|]. split; [apply clamped_of_lt, Hlt | exact Hd].
    + intros fr s1 Hfr Hc Hl.
      destruct (dt_lt_comparable _ _ Hc) as [before Hlt].
      destruct (_fetch_data_posts startTime endTime s _ _ fr s1 before Hm Hfr Hlt Hl)
        as (req & Hin & Hu & Hd).
      exists req, (if before then fr else startTime).
      split; [exact Hin|]. split; [exact Hu|].
      split; [apply clamped_of_lt, Hlt | exact Hd].
  - intros d Hv Hoff. apply isoformat_ms_decodes; assumption.
Qed.

End FetchRequest.

(** ** [get_historic_data] and [get_first_reading] *)

Section HistoricAndFirst.

Variable W : Externals.

Lemma track_consumption_cache res t : keeps (on_meter cache_kept) (track_consumption res t).
Proof.
  intros s. destruct (track_consumption_cases res t s) as [->|(v & _ & -> & _)];
    [reflexivity|]. split; reflexivity.
Qed.

Lemma track_reading_cache res t : keeps (on_meter cache_kept) (track_reading res t).
Proof.
  intros s. destruct (track_reading_cases res t s) as [->|(v & _ & -> & _)];
    [reflexivity|]. split; reflexivity.
Qed.

Lemma get_historic_data_cache days : keeps (on_meter cache_kept) (get_historic_data W days).
Proof.
  apply get_historic_data_keeps; try typeclasses eauto.
  - apply track_consumption_cache.
  - apply track_reading_cache.
  - apply first_date_keeps_meter; try typeclasses eauto. intros d m. split; reflexivity.
  - intros. apply query_keeps_meter. typeclasses eauto.
  - intros. apply window_keeps_meter. typeclasses eauto.
Qed.

(** C7, as the code has it. [get_historic_data] returns what the fetch
    primitive returns for its window and leaves [_data] (and the cached
    first reading) as they were; the two trackers are those the fetch
    primitive leaves, which only move forward. *)
Theorem get_historic_data_frame (days : Z) (s : MeterCtx) :
  let r := get_historic_data W days s in
  r = (let* w := window W days in _fetch_data W (fst w) (snd w)) s /\
  _data (self (snd r)) = _data (self s) /\
  _first_reading (self (snd r)) = _first_reading (self s) /\
  tracker_le (_last_consumption_date (self s)) (_last_consumption_date (self (snd r))) /\
  tracker_le (_last_reading_date (self s)) (_last_reading_date (self (snd r))).
Proof.
  intros r. split; [apply get_historic_data_eq|].
  destruct (get_historic_data_cache days s) as [Hd Hf].
  destruct (get_historic_data_le W days s) as [Hc Hr].
  subst r. repeat split; auto.
Qed.

(** *** The two memo slots *)

Lemma get_first_reading_memo fuel s :
  val_truthy (_first_reading (self s)) = true ->
  get_first_reading W fuel s = Some (Return (_first_reading (self s)), s).
Proof. intros H. unfold get_first_reading. rewrite H. reflexivity. Qed.

Lemma run_call_static c s seen s' :
  run_call W c s = Some (seen, s') -> static_kept (self s) (self s').
Proof.
  assert (Hset : forall v, keeps (on_meter static_kept) (on_self (set_first_reading v))).
  { intros v. apply keeps_on_self_meter. intros m. repeat split; try reflexivity.
    intros d H. exact H. }
  assert (Hdata : forall l, keeps (on_meter static_kept) (on_self (set_data l))).
  { intros l. apply keeps_on_self_meter. intros m. repeat split; try reflexivity.
    intros d H. exact H. }
  assert (Hq : forall path payload,
             keeps (on_meter static_kept) (in_client (query W path payload))).
  { intros. apply query_keeps_meter. typeclasses eauto. }
  assert (Hw : forall days, keeps (on_meter static_kept) (window W days)).
  { intros. apply window_keeps_meter. typeclasses eauto. }
  destruct c as [a b|days|days|fuel]; simpl; intros H.
  - injection H as _ <-. apply _fetch_data_static.
  - injection H as _ <-.
    apply (fetch_consumption_data_keeps W (on_meter static_kept)
             track_consumption_static track_reading_static (first_date_static W) Hq Hw Hdata).
  - injection H as _ <-.
    apply (get_historic_data_keeps W (on_meter static_kept)
             track_consumption_static track_reading_static (first_date_static W) Hq Hw).
  - destruct (get_first_reading W fuel s) as [[r s1]|] eqn:Hg; [|discriminate].
    injection H as _ <-.
    apply (get_first_reading_keeps W (on_meter static_kept)
             track_consumption_static track_reading_static (first_date_static W) Hq Hset
             fuel s r s1 Hg).
Qed.

(** Once resolved, the first reading date stays as it is through any
    sequence of calls. *)
Lemma first_date_never_reverts calls : forall s seen s' d,
  run_calls W calls s = Some (seen, s') ->
  _first_reading_date (self s) = Some d -> _first_reading_date (self s') = Some d.
Proof.
  induction calls as [|c rest IH]; intros s seen s' d H Hd; simpl in H.
  - injection H as _ <-. exact Hd.
  - destruct (run_call W c s) as [[l s1]|] eqn:Hc; [|discriminate].
    destruct (run_calls W rest s1) as [[l' s2]|] eqn:Hr; [|discriminate].
    injection H as _ <-. eapply IH; [exact Hr|].
    apply run_call_static in Hc. destruct Hc as (_ & _ & Hk). apply Hk, Hd.
Qed.

(** *** The scan of [get_first_reading] *)

Lemma days_later_add d a b : days_later (days_later d a) b = days_later d (a + b).
Proof. unfold days_later. simpl. f_equal. lia. Qed.

Lemma days_later_0 d : days_later d 0 = d.
Proof. destruct d. unfold days_later. simpl. f_equal. lia. Qed.

(** [d + timedelta(days=n)] is the wall time [n] days later when that day
    is one of the years 1 to 9999, and OverflowError otherwise. *)
Lemma add_days_in d n :
  (1 <= ordinal d + n <= 3652059)%Z -> add_days d n = Return (days_later d n).
Proof.
  intros H. unfold add_days, MAXORDINAL.
  destruct (1 <=? ordinal d + n)%Z eqn:E1; [|apply Z.leb_gt in E1; lia].
  destruct (ordinal d + n <=? 3652059)%Z eqn:E2; [|apply Z.leb_gt in E2; lia].
  reflexivity.
Qed.

Lemma add_days_out d n :
  ~ (1 <= ordinal d + n <= 3652059)%Z -> add_days d n = Raise OverflowError.
Proof.
  intros H. unfold add_days, MAXORDINAL.
  destruct (1 <=? ordinal d + n)%Z eqn:E1; [|reflexivity].
  destruct (ordinal d + n <=? 3652059)%Z eqn:E2; [|reflexivity].
  apply Z.leb_le in E1, E2. lia.
Qed.

Lemma add_days_inv d n d' :
  add_days d n = Return d' -> d' = days_later d n /\ (1 <= ordinal d + n <= 3652059)%Z.
Proof.
  intros H. destruct (decide (1 <= ordinal d + n <= 3652059)%Z) as [Hr|Hr].
  - rewrite (add_days_in _ _ Hr) in H. injection H as <-. auto.
  - rewrite (add_days_out _ _ Hr) in H. discriminate.
Qed.

Lemma scan_S fuel a b s :
  scan W (S fuel) a b s =
  match _fetch_data W a b s with
  | (Raise e, s1) => Some (Raise e, s1)
  | (Return None, s1) => Some (Return None, s1)
  | (Return (Some resp), s1) =>
      match add_days a 7 with
      | Raise e => Some (Raise e, s1)
      | Return a' =>
          match add_days a' 7 with
          | Raise e => Some (Raise e, s1)
          | Return b' =>
              match resp with
              | [] => scan W fuel a' b' s1
              | _ :: _ => Some (Return (Some resp), s1)
              end
          end
      end
  end.
Proof. reflexivity. Qed.

(** The scan is bounded by the calendar: it ends, at the latest with
    OverflowError, before its window leaves the year 9999. *)
Lemma scan_bounded fuel : forall a b s,
  (ordinal a <= 3652059)%Z -> (3652059 - ordinal a < 7 * Z.of_nat fuel)%Z ->
  scan W fuel a b s <> None.
Proof.
  induction fuel as [|fuel IH]; intros a b s Ha Hf; [lia|].
  rewrite scan_S. destruct (_fetch_data W a b s) as [[[resp|]|e] s1]; try discriminate.
  destruct (add_days a 7) as [a'|e1] eqn:E1; [|discriminate].
  destruct (add_days a' 7) as [b'|e2] eqn:E2; [|discriminate].
  destruct resp; [|discriminate].
  apply add_days_inv in E1. destruct E1 as [-> Hr]. apply IH; simpl; lia.
Qed.

Lemma get_first_reading_bounded fuel s d0 s0 :
  _get_first_reading_date W s = (Return (Some d0), s0) ->
  (3652059 - ordinal d0 < 7 * Z.of_nat fuel)%Z ->
  get_first_reading W fuel s <> None.
Proof.
  intros Hd Hf. unfold get_first_reading.
  destruct (val_truthy (_first_reading (self s))); [discriminate|]. rewrite Hd.
  destruct (add_days d0 7) as [d7|e] eqn:E; [|discriminate].
  apply add_days_inv in E. destruct E as [_ Hr].
  pose proof (scan_bounded fuel d0 d7 s0 ltac:(lia) Hf) as Hs.
  destruct (scan W fuel d0 d7 s0) as [[[[[|first rest]|]|e] s2]|]; try discriminate.
  - destruct (first !! KStr "MR"); discriminate.
  - contradiction.
Qed.

Section Scan.

Variables (d0 : datetime) (states : nat -> MeterCtx) (n : nat).

Variables (first : gmap pykey pyval) (rest : list (gmap pykey pyval)) (s' : MeterCtx).

Let win_start (k : nat) : datetime := days_later d0 (7 * Z.of_nat k).

Let win_end (k : nat) : datetime := days_later d0 (7 * Z.of_nat k + 7).

Hypothesis Hd0 : (1 <= ordinal d0)%Z.

Hypothesis Hempty : forall k, k < n ->
  _fetch_data W (win_start k) (win_end k) (states k) = (Return (Some []), states (S k)).

Hypothesis Hfound :
  _fetch_data W (win_start n) (win_end n) (states n) = (Return (Some (first :: rest)), s').

Lemma win_next k :
  (ordinal d0 + 7 * Z.of_nat k + 14 <= 3652059)%Z ->
  add_days (win_start k) 7 = Return (win_start (S k)) /\
  add_days (win_start (S k)) 7 = Return (win_end (S k)).
Proof.
  intros H. unfold win_start, win_end. split.
  - rewrite add_days_in by (simpl; lia). rewrite days_later_add. f_equal; f_equal; lia.
  - rewrite add_days_in by (simpl; lia). rewrite days_later_add. f_equal; f_equal; lia.
Qed.

Lemma win_last k :
  (ordinal d0 + 7 * Z.of_nat k + 7 <= 3652059 < ordinal d0 + 7 * Z.of_nat k + 14)%Z ->
  add_days (win_start k) 7 = Return (win_start (S k)) /\
  add_days (win_start (S k)) 7 = Raise OverflowError.
Proof.
  intros H. unfold win_start. split.
  - rewrite add_days_in by (simpl; lia). rewrite days_later_add. f_equal; f_equal; lia.
  - apply add_days_out. simpl. lia.
Qed.

Lemma scan_windows j : forall k, k + j = n ->
  (ordinal d0 + 7 * Z.of_nat n + 14 <= 3652059)%Z ->
  (forall fuel, fuel <= j -> scan W fuel (win_start k) (win_end k) (states k) = None) /\
  (forall fuel, j < fuel ->
     scan W fuel (win_start k) (win_end k) (states k)
     = Some (Return (Some (first :: rest)), s')).
Proof.
  induction j as [|j IH]; intros k Hk Hr.
  - assert (k = n) by lia. subst k. split.
    + intros fuel Hf. assert (fuel = 0) by lia. subst. reflexivity.
    + intros fuel Hf. destruct fuel as [|fuel]; [lia|].
      destruct (win_next n Hr) as [E1 E2]. rewrite scan_S, Hfound, E1, E2. reflexivity.
  - assert (Hlt : k < n) by lia.
    destruct (win_next k ltac:(lia)) as [E1 E2].
    destruct (IH (S k) ltac:(lia) Hr) as [IH1 IH2]. split.
    + intros fuel Hf. destruct fuel as [|fuel]; [reflexivity|].
      rewrite scan_S, (Hempty k Hlt), E1, E2. apply IH1. lia.
    + intros fuel Hf. destruct fuel as [|fuel]; [lia|].
      rewrite scan_S, (Hempty k Hlt), E1, E2. apply IH2. lia.
Qed.

Lemma scan_overflow m j : forall k, k + j = m -> m <= n ->
  (ordinal d0 + 7 * Z.of_nat m + 7 <= 3652059 < ordinal d0 + 7 * Z.of_nat m + 14)%Z ->
  forall fuel, j < fuel ->
    scan W fuel (win_start k) (win_end k) (states k)
    = Some (Raise OverflowError, if (m <? n)%nat then states (S m) else s').
Proof.
  induction j as [|j IH]; intros k Hk Hm Hr fuel Hf.
  - assert (k = m) by lia. subst k. destruct fuel as [|fuel]; [lia|].
    destruct (win_last m Hr) as [E1 E2]. rewrite scan_S.
    destruct (m <? n)%nat eqn:E.
    + apply Nat.ltb_lt in E. rewrite (Hempty m E), E1, E2. reflexivity.
    + apply Nat.ltb_ge in E. assert (m = n) by lia. subst m.
      rewrite Hfound, E1, E2. reflexivity.
  - assert (Hlt : k < n) by lia. destruct fuel as [|fuel]; [lia|].
    destruct (win_next k ltac:(lia)) as [E1 E2].
    rewrite scan_S, (Hempty k Hlt), E1, E2. apply (IH (S k)); lia.
Qed.

End Scan.

(** C9, as the code has it.  With no first reading cached,
    [get_first_reading] fetches the 7-day window at the first reading date
    and moves the window on by 7 days after every fetch that gives a list,
    before it looks whether the list is empty.  While the window stays in
    the years up to 9999, [n] empty windows take [n + 1] fetches, whatever
    [n], and the first record of the first non-empty list decides: None
    without an "MR" entry, else its value, which is put in the first reading
    slot and nothing else.  When moving the window on would leave the year
    9999 the call raises OverflowError, also after a fetch that gave
    readings; so the scan always ends, within a number of fetches that the
    calendar bounds. *)
Theorem get_first_reading_scan (n : nat) (s s' : MeterCtx) (d0 : datetime)
    (states : nat -> MeterCtx) (first : gmap pykey pyval) (rest : list (gmap pykey pyval)) :
  val_truthy (_first_reading (self s)) = false ->
  _get_first_reading_date W s = (Return (Some d0), states 0) ->
  (1 <= ordinal d0)%Z ->
  (forall k, k < n ->
     _fetch_data W (days_later d0 (7 * Z.of_nat k)) (days_later d0 (7 * Z.of_nat k + 7))
                 (states k)
     = (Return (Some []), states (S k))) ->
  _fetch_data W (days_later d0 (7 * Z.of_nat n)) (days_later d0 (7 * Z.of_nat n + 7))
              (states n)
  = (Return (Some (first :: rest)), s') ->
  ((ordinal d0 + 7 * Z.of_nat n + 14 <= 3652059)%Z ->
     (forall fuel, fuel <= n -> get_first_reading W fuel s = None) /\
     (forall fuel, n < fuel ->
        match first !! KStr "MR" with
        | None => get_first_reading W fuel s = Some (Return PyNone, s')
        | Some v =>
            exists f,
              get_first_reading W fuel s = Some (Return v, f) /\
              client f = client s' /\ caches_first_reading v (self s') (self f)
        end)) /\
  (forall m, m <= n ->
     (ordinal d0 + 7 * Z.of_nat m + 7 <= 3652059 < ordinal d0 + 7 * Z.of_nat m + 14)%Z ->
     forall fuel, m < fuel ->
       get_first_reading W fuel s
       = Some (Raise OverflowError, if (m <? n)%nat then states (S m) else s')) /\
  ((3652059 < ordinal d0 + 7)%Z ->
     forall fuel, get_first_reading W fuel s = Some (Raise OverflowError, states 0)) /\
  (forall fuel, (3652059 - ordinal d0 < 7 * Z.of_nat fuel)%Z ->
     get_first_reading W fuel s <> None).
Proof.
  intros Hcache Hdate Hd0 Hempty Hfound.
  assert (H0 : days_later d0 (7 * Z.of_nat 0) = d0) by apply days_later_0.
  assert (H7 : days_later d0 (7 * Z.of_nat 0 + 7) = days_later d0 7) by reflexivity.
  split; [|split; [|split]].
  - intros Hr.
    destruct (scan_windows d0 states n first rest s' Hd0 Hempty Hfound n 0 eq_refl Hr)
      as [Hnone Hsome].
    rewrite H0, H7 in Hnone, Hsome.
    split; intros fuel Hf; unfold get_first_reading; rewrite Hcache, Hdate;
      rewrite add_days_in by lia.
    + rewrite (Hnone fuel Hf). reflexivity.
    + rewrite (Hsome fuel Hf). destruct (first !! KStr "MR") as [v|]; [|reflexivity].
      eexists. split; [reflexivity|]. split; [reflexivity|].
      unfold caches_first_reading. simpl. repeat split; reflexivity.
  - intros m Hm Hr fuel Hf.
    pose proof (scan_overflow d0 states n first rest s' Hd0 Hempty Hfound m m 0 eq_refl
                  Hm Hr fuel Hf) as Hs.
    cbv beta zeta in Hs. rewrite H0, H7 in Hs.
    unfold get_first_reading. rewrite Hcache, Hdate. rewrite add_days_in by lia.
    rewrite Hs. reflexivity.
  - intros Hr fuel. unfold get_first_reading. rewrite Hcache, Hdate.
    rewrite add_days_out by lia. reflexivity.
  - intros fuel Hf. eapply get_first_reading_bounded; eauto.
Qed.

End HistoricAndFirst.

(** ** Worked examples *)

Lemma returned_eq {A S : Type} (d : A) (r : outcome A * S) :
  returned (fst r) = true -> r = (Return (value_of d (fst r)), snd r).
Proof. destruct r as [[a|e] s]; [reflexivity | discriminate]. Qed.


Lemma fetched_eq (o : outcome (option (list (gmap pykey pyval)))) :
  match o with Return (Some _) => true | _ => false end = true ->
  o = Return (Some (records_of o)).
Proof. destruct o as [[l|]|e]; [reflexivity | discriminate | discriminate]. Qed.

Lemma empty_eq {S : Type} (r : outcome (option (list (gmap pykey pyval))) * S) :
  match fst r with Return (Some []) => true | _ => false end = true ->
  r = (Return (Some []), snd r).
Proof. destruct r as [[[[|x l]|]|e] s]; try discriminate. reflexivity. Qed.

Lemma pair_fst_eq {A B : Type} (r : A * B) (a : A) : fst r = a -> r = (a, snd r).
Proof. destruct r. simpl. intros ->. reflexivity. Qed.

Lemma returned_ex {A : Type} (o : outcome A) : returned o = true -> exists a, o = Return a.
Proof. destruct o as [a|e]; [eauto | discriminate]. Qed.

Lemma is_Some_ex {A : Type} (r : option A) :
  match r with Some _ => true | None => false end = true -> exists a, r = Some a.
Proof. destruct r as [a|]; [eauto | discriminate]. Qed.

Lemma fetched_pair_eq {S : Type} (r : outcome (option (list (gmap pykey pyval))) * S) :
  match fst r with Return (Some _) => true | _ => false end = true ->
  r = (Return (Some (records_of (fst r))), snd r).
Proof. destruct r as [[[l|]|e] s]; try discriminate. reflexivity. Qed.

Lemma nonempty_eq {S : Type} (r : outcome (option (list (gmap pykey pyval))) * S) :
  match fst r with Return (Some (_ :: _)) => true | _ => false end = true ->
  r = (Return (Some (default ∅ (head (records_of (fst r))) :: tail (records_of (fst r)))),
       snd r).
Proof. destruct r as [[[[|x l]|]|e] s]; try discriminate. reflexivity. Qed.

Example isoformat_ms_winter :
  isoformat_ms sample_tzdata (mkDt 738584 14 7 9 123456 (Some "Europe/Vienna"))
  = "2023-03-05T14:07:09.123+01:00".
Proof. vm_compute. reflexivity. Qed.

Example isoformat_ms_summer :
  isoformat_ms sample_tzdata (mkDt 738605 14 7 9 123999 (Some "Europe/Vienna"))
  = "2023-03-26T14:07:09.123+02:00".
Proof. vm_compute. reflexivity. Qed.

Example isoformat_ms_odd_offset :
  isoformat_ms sample_tzdata (mkDt 738945 0 0 0 999 (Some "-01:30:05"))
  = "2024-02-29T00:00:00.000-01:30:05".
Proof. vm_compute. reflexivity. Qed.

Example isoformat_ms_naive :
  isoformat_ms sample_tzdata (mkDt 1 23 59 59 999999 None) = "0001-01-01T23:59:59.999".
Proof. vm_compute. reflexivity. Qed.

Example patch_utc_suffix_Z :
  patch_utc_suffix "2023-11-02T00:00:00Z" = "2023-11-02T00:00:00+00:00".
Proof. reflexivity. Qed.

Lemma query_retry_policy_witness :
  (let W := sample_world [PostRaises ClientError; PostRaises ClientError; PostRaises ClientError] in
   let r := _query W "getInstallations" (JList []) 2 (sample_client JNull) in
   fst r = Raise ClientError /\ length (sent (env (snd r))) - 0 = 3) /\
  (let W := sample_world [PostRaises ClientError; PostRaises ClientError; ok200 (JNum 1)] in
   let r := _query W "getInstallations" (JList []) 2 (sample_client JNull) in
   fst r = Return (JNum 1) /\ length (sent (env (snd r))) - 0 = 3) /\
  (let W := sample_world [PostRaises TimeoutError; ok200 (JNum 1)] in
   let r := _query W "getInstallations" (JList []) 2 (sample_client JNull) in
   fst r = Raise TimeoutError /\ length (sent (env (snd r))) - 0 = 1) /\
  (let W := sample_world [Responded 500 (Return (JNum 1)); ok200 (JNum 1)] in
   let r := _query W "getInstallations" (JList []) 2 (sample_client JNull) in
   fst r = Return JNull /\ length (sent (env (snd r))) - 0 = 1).
Proof.
  split; [|split; [|split]].
  - apply (proj1 (query_retry_policy
             (sample_world [PostRaises ClientError; PostRaises ClientError; PostRaises ClientError])
             "getInstallations" (JList []) (sample_client JNull))).
    intros i req Hi. destruct i as [|[|[|i]]]; [reflexivity | reflexivity | reflexivity | lia].
  - apply (proj1 (proj2 (query_retry_policy
             (sample_world [PostRaises ClientError; PostRaises ClientError; ok200 (JNum 1)])
             "getInstallations" (JList []) (sample_client JNull))) 2 (Return (JNum 1))).
    + lia.
    + intros i req Hi. destruct i as [|[|i]]; [reflexivity | reflexivity | lia].
    + intros req. reflexivity.
  - apply (proj1 (proj2 (proj2 (query_retry_policy
             (sample_world [PostRaises TimeoutError; ok200 (JNum 1)])
             "getInstallations" (JList []) (sample_client JNull))))).
    intros req. reflexivity.
  - apply (proj2 (proj2 (proj2 (query_retry_policy
             (sample_world [Responded 500 (Return (JNum 1)); ok200 (JNum 1)])
             "getInstallations" (JList []) (sample_client JNull)))) 500%Z (Return (JNum 1))).
    + lia.
    + intros req. reflexivity.
Defined.

Lemma ok_token_validity_witness :
  fst (ok (sample_world []) (sample_client (JStr "old"))) = Return false /\
  _jwt (sn (snd (ok (sample_world []) (sample_client (JStr "old"))))) = JNull.
Proof.
  apply (proj1 (proj2 (proj2 (proj2 (ok_token_validity (sample_world [])
           (sample_client (JStr "old")))))) "old" 1000%Z).
  - reflexivity.
  - reflexivity.
  - vm_compute. reflexivity.
Defined.

Lemma fetch_keeps_valid_values_witness :
  exists outs, sample_result = omap id outs /\ Forall2 reading_outcome sample_batch outs.
Proof.
  apply (fetch_keeps_valid_values (sample_world []) sample_batch (sample_ctx "OptIn")
           (snd (process_readings (sample_world []) sample_batch [] (sample_ctx "OptIn")))).
  apply (returned_eq []). vm_compute. reflexivity.
Defined.

(** The example of the specification: A is kept with its value, B, which
    is estimated, is left out, and the reading without a valid sub-value
    gives no record. *)
Example estimated_value_omitted :
  length sample_result = 1 /\
  (head sample_result ≫= (fun res => res !! KStr "A")) = Some (VJson (JNum 5)) /\
  (head sample_result ≫= (fun res => res !! KStr "B")) = None /\
  (head sample_result ≫= (fun res => res !! KStr "readingValues")) =
    Some (VJson (JList [sample_rv "A" "Valid" 5; sample_rv "B" "Estimated" 9])).
Proof. vm_compute. auto. Qed.


Lemma fetch_request_witness :
  (let s := vienna_ctx "OptMiddle" in
   let r := _fetch_data two_fetches (mkDt 738808 22 0 0 0 (Some "Europe/Vienna"))
                        (mkDt 738838 22 0 0 0 (Some "Europe/Vienna")) s in
   exists req fromDate,
     req ∈ new_requests s (snd r) /\
     url req = API_ENDPOINT ++ "getMeterReading" /\
     clamped sample_tzdata (mkDt 738808 22 0 0 0 (Some "Europe/Vienna"))
             (mkDt 738825 0 0 0 0 (Some "Europe/Vienna")) fromDate /\
     carries_reading sample_tzdata "Daily" (JNum 7) fromDate
                     (mkDt 738838 0 0 0 0 (Some "Europe/Vienna")) req) /\
  (let s := vienna_ctx "OptIn" in
   let r := _fetch_data early_meter (mkDt 738808 22 0 0 0 (Some "Europe/Vienna"))
                        (mkDt 738838 22 0 0 0 (Some "Europe/Vienna")) s in
   exists req fromDate,
     req ∈ new_requests s (snd r) /\
     url req = API_ENDPOINT ++ "getMeterReading" /\
     clamped sample_tzdata (mkDt 738808 22 0 0 0 (Some "Europe/Vienna"))
             (mkDt 738521 0 0 0 0 (Some "Europe/Vienna")) fromDate /\
     carries_reading sample_tzdata "QuarterHourly" (JNum 7) fromDate
                     (mkDt 738838 22 0 0 0 (Some "Europe/Vienna")) req) /\
  (let s := vienna_ctx "OptOut" in
   _fetch_data two_fetches (mkDt 738808 22 0 0 0 (Some "Europe/Vienna"))
               (mkDt 738838 22 0 0 0 (Some "Europe/Vienna")) s = (Return None, s)) /\
  iso_ms_of sample_tzdata (mkDt 738808 22 0 0 0 (Some "Europe/Vienna"))
            "2023-10-15T22:00:00.000+02:00" /\
  iso_ms_of sample_tzdata (mkDt 738838 22 0 0 0 (Some "Europe/Vienna"))
            "2023-11-14T22:00:00.000+01:00".
Proof.
  split; [|split; [|split; [|split]]].
  - intros s r.
    apply (proj2 (proj1 (proj2 (fetch_request two_fetches
              (mkDt 738808 22 0 0 0 (Some "Europe/Vienna"))
              (mkDt 738838 22 0 0 0 (Some "Europe/Vienna")) s))
              "Daily" (mkDt 738838 0 0 0 0 (Some "Europe/Vienna"))
              ltac:(left; repeat split; reflexivity))
             (mkDt 738825 0 0 0 0 (Some "Europe/Vienna"))
             (snd (_get_first_reading_date two_fetches s))).
    + apply pair_fst_eq. vm_compute. reflexivity.
    + split; discriminate.
    + vm_compute. reflexivity.
  - intros s r.
    apply (proj2 (proj1 (proj2 (fetch_request early_meter
              (mkDt 738808 22 0 0 0 (Some "Europe/Vienna"))
              (mkDt 738838 22 0 0 0 (Some "Europe/Vienna")) s))
              "QuarterHourly" (mkDt 738838 22 0 0 0 (Some "Europe/Vienna"))
              ltac:(right; repeat split; reflexivity))
             (mkDt 738521 0 0 0 0 (Some "Europe/Vienna"))
             (snd (_get_first_reading_date early_meter s))).
    + apply pair_fst_eq. vm_compute. reflexivity.
    + split; discriminate.
    + vm_compute. reflexivity.
  - intros s.
    apply (proj1 (fetch_request two_fetches (mkDt 738808 22 0 0 0 (Some "Europe/Vienna"))
                    (mkDt 738838 22 0 0 0 (Some "Europe/Vienna")) s)); discriminate.
  - replace "2023-10-15T22:00:00.000+02:00"
      with (isoformat_ms (tzdata two_fetches) (mkDt 738808 22 0 0 0 (Some "Europe/Vienna")))
      by (vm_compute; reflexivity).
    apply (proj2 (proj2 (fetch_request two_fetches
              (mkDt 738808 22 0 0 0 (Some "Europe/Vienna"))
              (mkDt 738838 22 0 0 0 (Some "Europe/Vienna")) (vienna_ctx "OptIn")))).
    + repeat split; simpl; lia.
    + intros tz [= <-]. vm_compute. split; reflexivity.
  - replace "2023-11-14T22:00:00.000+01:00"
      with (isoformat_ms (tzdata two_fetches) (mkDt 738838 22 0 0 0 (Some "Europe/Vienna")))
      by (vm_compute; reflexivity).
    apply (proj2 (proj2 (fetch_request two_fetches
              (mkDt 738808 22 0 0 0 (Some "Europe/Vienna"))
              (mkDt 738838 22 0 0 0 (Some "Europe/Vienna")) (vienna_ctx "OptIn")))).
    + repeat split; simpl; lia.
    + intros tz [= <-]. vm_compute. split; reflexivity.
Defined.

(** The request of a daily meter asked for 2023-10-27 09:30 to 2023-11-06
    09:30 when readings start on 2023-11-01: the start is the first reading
    date, the end is at midnight. *)
Example daily_request :
  let s := sample_ctx "OptMiddle" in
  let r := _fetch_data two_fetches (mkDt 738820 9 30 0 0 (Some "UTC"))
                       (mkDt 738830 9 30 0 0 (Some "UTC")) s in
  data <$> last (sent (env (client (snd r)))) =
  Some (JDict [("unitOfConsump", JStr "KWH"); ("interval", JStr "Daily");
               ("meterPointId", JNum 7);
               ("fromDate", JStr "2023-11-01T00:00:00.000+00:00");
               ("toDate", JStr "2023-11-06T00:00:00.000+00:00")]).
Proof. vm_compute. reflexivity. Qed.

(** The request of a quarter-hour meter of an account in Europe/Vienna for
    the last 30 days, on 14 November 2023 at 22:13 UTC: the window ends at
    22:00 wall time, and its start, in October, is in summer time. *)
Example vienna_request :
  let r := get_historic_data early_meter 30 (vienna_ctx "OptIn") in
  data <$> last (sent (env (client (snd r)))) =
  Some (JDict [("unitOfConsump", JStr "KWH"); ("interval", JStr "QuarterHourly");
               ("meterPointId", JNum 7);
               ("fromDate", JStr "2023-10-15T22:00:00.000+02:00");
               ("toDate", JStr "2023-11-14T22:00:00.000+01:00")]).
Proof. vm_compute. reflexivity. Qed.

(** A meter that is neither OptIn nor OptMiddle: nothing comes back and
    nothing is sent. *)
Example unsupported_mode_sends_nothing :
  _fetch_data two_fetches (mkDt 738820 9 30 0 0 (Some "UTC"))
              (mkDt 738830 9 30 0 0 (Some "UTC")) (sample_ctx "OptOut")
  = (Return None, sample_ctx "OptOut").
Proof. vm_compute. reflexivity. Qed.

Lemma authenticate_outcomes_witness :
  (let W := sample_world [ok200 (JDict [("success", JBool true); ("token", JStr "tok")])] in
   fst (authenticate W (sample_client JNull)) = Return true /\
   _jwt (sn (snd (authenticate W (sample_client JNull)))) = JStr "tok") /\
  (let W := sample_world [ok200 (JDict [("error", JStr "wrong password")])] in
   fst (authenticate W (sample_client JNull)) = Raise (InvalidLogin (JStr "wrong password"))) /\
  (let W := sample_world [ok200 (JDict [("success", JBool false)])] in
   fst (authenticate W (sample_client JNull)) = Raise (ValueError "no token returned")) /\
  (let W := sample_world [ok200 (JDict [("token", JStr "old")])] in
   fst (authenticate W (sample_client JNull)) = Raise (PyException "login failed")).
Proof.
  split; [|split; [|split]]; intros W.
  - pose proof (authenticate_outcomes W (sample_client JNull)
                  (snd (_query W "login" (login_payload (sn (sample_client JNull))) 2
                          (sample_client JNull)))
                  [("success", JBool true); ("token", JStr "tok")] eq_refl) as H.
    destruct H as (_ & _ & H). destruct (H eq_refl eq_refl eq_refl) as (_ & _ & Hok).
    rewrite (Hok eq_refl). split; reflexivity.
  - pose proof (authenticate_outcomes W (sample_client JNull)
                  (snd (_query W "login" (login_payload (sn (sample_client JNull))) 2
                          (sample_client JNull)))
                  [("error", JStr "wrong password")] eq_refl) as H.
    destruct H as (H & _). rewrite (H eq_refl). reflexivity.
  - pose proof (authenticate_outcomes W (sample_client JNull)
                  (snd (_query W "login" (login_payload (sn (sample_client JNull))) 2
                          (sample_client JNull)))
                  [("success", JBool false)] eq_refl) as H.
    destruct H as (_ & H & _). rewrite (H eq_refl eq_refl). reflexivity.
  - pose proof (authenticate_outcomes W (sample_client JNull)
                  (snd (_query W "login" (login_payload (sn (sample_client JNull))) 2
                          (sample_client JNull)))
                  [("token", JStr "old")] eq_refl) as H.
    destruct H as (_ & _ & H). destruct (H eq_refl eq_refl eq_refl) as (_ & Hdead & _).
    rewrite (Hdead eq_refl). reflexivity.
Defined.

(** C7, as it is stated, fails: a reading fetched by [get_historic_data]
    moves both trackers of a fresh meter. *)
Lemma historic_moves_trackers :
  ~ (let s := sample_ctx "OptIn" in
     let s' := snd (get_historic_data two_fetches 30 s) in
     _data (self s') = _data (self s) /\
     _last_consumption (self s') = _last_consumption (self s) /\
     _last_reading (self s') = _last_reading (self s)).
Proof.
  intros (_ & _ & H). vm_compute in H. discriminate.
Qed.

Example historic_tracker_values :
  let s' := snd (get_historic_data two_fetches 30 (sample_ctx "OptIn")) in
  _last_consumption (self s') = VJson (JNum 4) /\ _last_reading (self s') = VJson (JNum 120) /\
  _data (self s') = None.
Proof. vm_compute. auto. Qed.

(** C8 at a meter whose first absolute reading is 0: the value is stored,
    yet the next call does not take it from the slot: it sends a request
    again and the slot gets the value that comes back. *)
Theorem first_reading_zero_refetched :
  let s0 := sample_ctx "OptIn" in
  let r1 := default (Raise IndexError, s0) (get_first_reading zero_reading 1 s0) in
  let r2 := default (Raise IndexError, s0) (get_first_reading zero_reading 1 (snd r1)) in
  fst r1 = Return (VJson (JNum 0)) /\
  _first_reading (self (snd r1)) = VJson (JNum 0) /\
  _first_reading_date (self (snd r1)) = Some (mkDt 738825 0 0 0 0 (Some "UTC")) /\
  fst r2 = Return (VJson (JNum 5)) /\
  _first_reading (self (snd r2)) = VJson (JNum 5) /\
  length (sent (env (client (snd r1)))) = 2 /\
  length (sent (env (client (snd r2)))) = 3.
Proof. vm_compute. repeat split; reflexivity. Qed.

Lemma get_first_reading_scan_witness :
  (forall fuel, fuel <= 2 -> get_first_reading late_reading fuel (sample_ctx "OptIn") = None) /\
  (exists f,
     get_first_reading late_reading 3 (sample_ctx "OptIn")
     = Some (Return (VJson (JNum 42)), f) /\
     _first_reading (self f) = VJson (JNum 42)).
Proof.
  set (r := _fetch_data late_reading (days_later late_first_date (7 * Z.of_nat 2))
              (days_later late_first_date (7 * Z.of_nat 2 + 7)) (late_states 2)).
  assert (Hlast : r = (Return (Some (default ∅ (head (records_of (fst r)))
                                     :: tail (records_of (fst r)))), snd r))
    by (apply nonempty_eq; vm_compute; reflexivity).
  assert (Hmr : default ∅ (head (records_of (fst r))) !! KStr "MR" = Some (VJson (JNum 42)))
    by (vm_compute; reflexivity).
  pose proof (get_first_reading_scan late_reading 2 (sample_ctx "OptIn") (snd r)
                late_first_date late_states (default ∅ (head (records_of (fst r))))
                (tail (records_of (fst r)))) as H.
  destruct H as [H _].
  - reflexivity.
  - apply (returned_eq None). vm_compute. reflexivity.
  - simpl. lia.
  - intros k Hk. destruct k as [|[|k]]; [| |lia].
    + exact (empty_eq (_fetch_data late_reading (days_later late_first_date (7 * Z.of_nat 0))
                         (days_later late_first_date (7 * Z.of_nat 0 + 7)) (late_states 0))
                      ltac:(vm_compute; reflexivity)).
    + exact (empty_eq (_fetch_data late_reading (days_later late_first_date (7 * Z.of_nat 1))
                         (days_later late_first_date (7 * Z.of_nat 1 + 7)) (late_states 1))
                      ltac:(vm_compute; reflexivity)).
  - exact Hlast.
  - destruct (H ltac:(simpl; lia)) as [Hnone Hsome].
    split; [exact Hnone|].
    specialize (Hsome 3 ltac:(lia)). rewrite Hmr in Hsome.
    destruct Hsome as (f & Hf & _ & Hc & _). exists f. split; [exact Hf | exact Hc].
Defined.

(** C9 at a meter whose readings start on 20 December 9999: the first
    window has a reading with an "MR" value, yet the call raises
    OverflowError, whatever the fuel, because the window is moved on before
    the list is looked at; nothing is cached. *)
Lemma first_reading_lost_at_year_end :
  let s := sample_ctx "OptIn" in
  let s1 := snd (_get_first_reading_date last_days s) in
  let r := _fetch_data last_days last_days_date (days_later last_days_date 7) s1 in
  fst (_get_first_reading_date last_days s) = Return (Some last_days_date) /\
  (exists first rest,
     fst r = Return (Some (first :: rest)) /\ first !! KStr "MR" = Some (VJson (JNum 42))) /\
  forall fuel, 0 < fuel ->
    get_first_reading last_days fuel s = Some (Raise OverflowError, snd r) /\
    _first_reading (self (snd r)) = PyNone.
Proof.
  intros s s1 r.
  assert (Hd : _get_first_reading_date last_days s = (Return (Some last_days_date), s1))
    by (apply pair_fst_eq; vm_compute; reflexivity).
  assert (Hr : r = (Return (Some (default ∅ (head (records_of (fst r)))
                                  :: tail (records_of (fst r)))), snd r))
    by (apply nonempty_eq; vm_compute; reflexivity).
  split; [rewrite Hd; reflexivity|]. split.
  - eexists _, _. split; [rewrite Hr at 1; reflexivity|]. vm_compute. reflexivity.
  - intros fuel Hf. destruct fuel as [|fuel]; [lia|]. split; [|vm_compute; reflexivity].
    unfold get_first_reading.
    change (val_truthy (_first_reading (self s))) with false. cbv iota.
    rewrite Hd. rewrite (add_days_in last_days_date 7) by (simpl; lia).
    rewrite scan_S. fold r. rewrite Hr at 1. cbv iota beta.
    rewrite (add_days_in last_days_date 7) by (simpl; lia).
    rewrite (add_days_out (days_later last_days_date 7) 7) by (simpl; lia).
    reflexivity.
Qed.

Lemma update_info_ids_nonzero_witness :
  let c' := snd (update_info sample_installations (sample_client (JStr "tok"))) in
  get_installation (sn c') (KInt 0) = Raise (ValueError "Could not find installation id") /\
  (forall k i, _installations (sn c') !! k = Some i ->
     k <> KInt 0 /\ forall mk, is_Some (_meters i !! mk) -> mk <> KInt 0) /\
  (_meters <$> (_installations (sn c') !! KInt 5)) ≫= (fun ms => _meter_id <$> ms !! KInt 9)
    = Some (JNum 9) /\
  size (_installations (sn c')) = 1.
Proof.
  intros c'.
  assert (H0 : ids_truthy (sn (sample_client (JStr "tok")))).
  { intros k i H. vm_compute in H. discriminate. }
  pose proof (update_info_ids_nonzero sample_installations (sample_client (JStr "tok")) H0) as H.
  destruct H as (_ & _ & _ & Hz & Hg & _).
  split; [exact Hg|]. split; [exact Hz|]. split; vm_compute; reflexivity.
Defined.

(** * Further properties of the session *)

Section SessionMore.

Variable W : Externals.

Lemma settle_not_client_error a o : settle a = Some o -> o <> Raise ClientError.
Proof.
  destruct a as [e|status body]; simpl.
  - destruct e; intros [= <-]; discriminate.
  - destruct (negb (status =? 200)%Z); [intros [= <-]; discriminate|].
    destruct body as [j|e]; [intros [= <-]; discriminate|].
    destruct e; intros [= <-]; discriminate.
Qed.

(** X1. Whatever the network does, [_query] with budget [retry] posts at
    least once and at most [retry + 1] times, always the same payload to the
    same path, and it raises ClientError only after [retry + 1] posts. *)
Theorem query_attempts_bounded (path : string) (payload : json) (retry : nat) (c : Client) :
  let r := _query W path payload retry c in
  exists extra,
    sent (env (snd r)) = (sent (env c) ++ extra)%list /\
    1 <= length extra <= S retry /\
    Forall (to_path path payload) extra /\
    (fst r = Raise ClientError -> length extra = S retry).
Proof.
  revert c. induction retry as [|retry IH]; intros c r; subst r.
  - destruct (_query_step W path payload 0 c) as (req & c1 & Hu & Hd & _ & Hs & ->).
    exists [req]. destruct (settle _) as [o|] eqn:E; simpl;
      (split; [exact Hs|]); (split; [lia|]);
      (split; [constructor; [split; assumption | constructor]|]); reflexivity.
  - destruct (_query_step W path payload (S retry) c) as (req & c1 & Hu & Hd & _ & Hs & ->).
    destruct (settle _) as [o|] eqn:E.
    + exists [req]. simpl. split; [exact Hs|]. split; [lia|].
      split; [constructor; [split; assumption | constructor]|].
      intros ->. exfalso. exact (settle_not_client_error _ _ E eq_refl).
    + destruct (IH c1) as (extra & He & Hl & Hf & Hc).
      exists (req :: extra). split.
      { rewrite He, Hs, <- app_assoc. reflexivity. }
      split; [simpl; lia|]. split; [constructor; [split; assumption | exact Hf]|].
      intros H. simpl. rewrite (Hc H). reflexivity.
Qed.

(** One attempt of [_query], with the headers of its request. *)
Lemma _query_step_headers path payload retry c :
  exists req c1,
    url req = API_ENDPOINT ++ path /\ data req = payload /\
    headers req =
      request_headers (user_agent (sn c)) (bearer_token (fst (ok W c)) (_jwt (sn c))) /\
    sn c1 = sn (snd (ok W c)) /\
    sent (env c1) = (sent (env c) ++ [req])%list /\
    _query W path payload retry c =
      match settle (transport W (length (sent (env c))) req) with
      | Some o => (o, c1)
      | None =>
          match retry with
          | S r => _query W path payload r c1
          | O => (Raise ClientError, c1)
          end
      end.
Proof.
  destruct (ok_cases W c) as (b & c0 & Hok & Hsent & _ & Hb).
  assert (Hq : forall r, _query W path payload r c =
     bind (if b then bearer else ret [])
       (fun auth => bind (fun c => (Return (user_agent (sn c)), c))
         (fun ua =>
            let post_args := mkRequest (API_ENDPOINT ++ path)
              ([("User-Agent", ua); ("Content-Type", "application/json; charset=utf-8")] ++ auth)
              payload in
            bind (post W post_args)
              (fun resp =>
                 match settle resp with
                 | Some o => lift_o o
                 | None => match r with
                           | S r' => _query W path payload r'
                           | O => raise ClientError
                           end
                 end))) c0).
  { intros r. destruct r; simpl; unfold bind at 1; rewrite Hok; unfold bind;
      destruct ((if b then bearer else ret []) c0) as [[auth|e] c'] eqn:Ha; try reflexivity;
      unfold post; cbn;
      match goal with |- context [transport W ?n ?r] => destruct (transport W n r) as [e|st body] end;
      cbn; try (destruct e; reflexivity);
      destruct (st =? 200)%Z; cbn; try reflexivity;
      destruct body as [j|e]; cbn; try reflexivity; destruct e; reflexivity. }
  assert (Hua : user_agent (sn c0) = user_agent (sn c)).
  { revert Hok. unfold ok. destruct (_jwt (sn c)); try (intros [= _ <-]; reflexivity);
      destruct (jwt_decode W _ _); intros [= _ <-]; reflexivity. }
  assert (Ha : (if b then bearer else ret []) c0 =
               (Return match bearer_token (fst (ok W c)) (_jwt (sn c)) with
                       | Some t => [("Authorization", "Bearer " ++ t)]
                       | None => []
                       end, c0)).
  { rewrite Hok. simpl. destruct b.
    - destruct (Hb eq_refl) as [Hsn [s Hs]]. unfold bearer. rewrite Hsn, Hs. reflexivity.
    - reflexivity. }
  eexists (mkRequest (API_ENDPOINT ++ path) _ payload), (log_request _ c0).
  split; [reflexivity|]. split; [reflexivity|].
  split; [simpl; unfold request_headers; rewrite <- Hua; reflexivity|].
  split; [rewrite Hok; reflexivity|].
  split; [simpl; rewrite Hsent; reflexivity|].
  rewrite Hq. unfold bind at 1. rewrite Ha. unfold bind, post. cbn.
  rewrite Hsent.
  destruct (settle _); [reflexivity | destruct retry; reflexivity].
Qed.

End SessionMore.

Section SessionMore2.

Variable W : Externals.

Ltac case_ok :=
  unfold ok;
  match goal with
  | |- context [_jwt (sn ?c)] => destruct (_jwt (sn c)) eqn:?
  end;
  try match goal with
  | |- context [jwt_decode ?W ?a ?b] => destruct (jwt_decode W a b) eqn:?
  end; simpl.

Lemma ok_state c :
  let c' := snd (ok W c) in
  user_agent (sn c') = user_agent (sn c) /\
  _username (sn c') = _username (sn c) /\
  _password (sn c') = _password (sn c) /\
  (_jwt (sn c') = _jwt (sn c) \/ _jwt (sn c') = JNull).
Proof.
  case_ok; repeat split; auto.
Qed.

Lemma ok_true c :
  fst (ok W c) = Return true ->
  jwt_decode W (_jwt (sn c)) (wall_clock W (clock_reads (env c))) = true /\
  snd (ok W c) = tick c.
Proof.
  case_ok; try discriminate; auto.
Qed.

Lemma ok_false c :
  fst (ok W c) = Return false -> _jwt (sn (snd (ok W c))) = JNull.
Proof.
  case_ok; try discriminate; auto.
Qed.

Lemma ok_null c : _jwt (sn c) = JNull -> ok W c = (Return false, c).
Proof. intros H. unfold ok. rewrite H. reflexivity. Qed.

(** X2. Every request of [_query] has the user agent and the content type;
    it has an Authorization header only with the token the account holds,
    as "Bearer <token>", and only when that token was found valid at the
    reading of the clock made for this attempt. *)
Theorem query_headers (path : string) (payload : json) (retry : nat) (c : Client) :
  exists extra,
    sent (env (snd (_query W path payload retry c))) = (sent (env c) ++ extra)%list /\
    Forall (fun req =>
              exists tok,
                headers req = request_headers (user_agent (sn c)) tok /\
                forall t, tok = Some t ->
                  _jwt (sn c) = JStr t /\
                  exists n, jwt_decode W (JStr t) (wall_clock W n) = true) extra.
Proof.
  revert c. induction retry as [|retry IH]; intros c.
  - destruct (_query_step_headers W path payload 0 c) as (req & c1 & _ & _ & Hh & _ & Hs & ->).
    exists [req]. split; [destruct (settle _); exact Hs|].
    constructor; [|constructor]. eexists. split; [exact Hh|].
    intros t Ht. unfold bearer_token in Ht.
    destruct (fst (ok W c)) as [[|]|] eqn:Hok; try discriminate.
    destruct (_jwt (sn c)) eqn:Hj; try discriminate. injection Ht as ->.
    split; [reflexivity|]. apply ok_true in Hok. destruct Hok as [Hd _].
    rewrite Hj in Hd. eauto.
  - destruct (_query_step_headers W path payload (S retry) c)
      as (req & c1 & _ & _ & Hh & Hsn & Hs & ->).
    assert (Hreq : exists tok,
              headers req = request_headers (user_agent (sn c)) tok /\
              forall t, tok = Some t ->
                _jwt (sn c) = JStr t /\ exists n, jwt_decode W (JStr t) (wall_clock W n) = true).
    { eexists. split; [exact Hh|].
      intros t Ht. unfold bearer_token in Ht.
      destruct (fst (ok W c)) as [[|]|] eqn:Hok; try discriminate.
      destruct (_jwt (sn c)) eqn:Hj; try discriminate. injection Ht as ->.
      split; [reflexivity|]. apply ok_true in Hok. destruct Hok as [Hd _].
      rewrite Hj in Hd. eauto. }
    destruct (settle _).
    + exists [req]. split; [exact Hs|]. constructor; [exact Hreq | constructor].
    + destruct (IH c1) as (extra & He & Hf). exists (req :: extra). split.
      { rewrite He, Hs, <- app_assoc. reflexivity. }
      constructor; [exact Hreq|].
      destruct (ok_state c) as (Hua & _ & _ & Hj). rewrite <- Hsn in Hua, Hj.
      eapply Forall_impl; [exact Hf|]. intros r (tok & Hr & Ht).
      exists tok. rewrite <- Hua. split; [exact Hr|].
      intros t Htok. destruct (Ht t Htok) as [Hjt Hn]. split; [|exact Hn].
      destruct Hj as [Hj|Hj]; congruence.
Qed.

(** X3. With a token that [ok] finds valid, [query] logs in no more: all
    it sends goes to the path asked for, with the payload given. *)
Theorem query_with_valid_token (path : string) (payload : json) (c : Client) :
  fst (ok W c) = Return true ->
  sends (to_path path payload) c (snd (query W path payload c)).
Proof.
  intros Hok. unfold query. rewrite bind_eq.
  pose proof (ok_sends W (to_path path payload) c) as H1.
  destruct (ok W c) as [[b|e] c1]; simpl in Hok; [|discriminate].
  injection Hok as ->. simpl negb. cbv iota. rewrite bind_eq. unfold ret at 1.
  etransitivity; [exact H1|]. apply _query_sends. auto.
Qed.

(** X4. Without a valid token [query] logs in first: the first request it
    sends is the login request, with the credentials of the account and no
    Authorization header. *)
Theorem query_logs_in_first (path : string) (payload : json) (c : Client) :
  fst (ok W c) = Return false ->
  exists req rest,
    sent (env (snd (query W path payload c))) = (sent (env c) ++ req :: rest)%list /\
    url req = API_ENDPOINT ++ "login" /\
    data req = login_payload (sn c) /\
    headers req = request_headers (user_agent (sn c)) None.
Proof.
  intros Hok. unfold query. rewrite bind_eq.
  pose proof (ok_false c Hok) as Hnull.
  destruct (ok_state c) as (Hua & Hu & Hp & _).
  destruct (ok_cases W c) as (b & c1 & Hc & Hs1 & _).
  rewrite Hc in Hok, Hnull, Hua, Hu, Hp |- *. simpl in Hok, Hnull, Hua, Hu, Hp.
  injection Hok as ->. simpl negb. cbv iota.
  assert (Hq : exists req c2,
             sent (env c2) = (sent (env c1) ++ [req])%list /\
             url req = API_ENDPOINT ++ "login" /\
             data req = login_payload (sn c) /\
             headers req = request_headers (user_agent (sn c)) None /\
             sends (fun _ => True) c2 (snd (authenticate W c1))).
  { unfold authenticate. rewrite bind_eq. cbn beta iota. rewrite bind_eq.
    destruct (_query_step_headers W "login"
                (JDict [("email", JStr (_username (sn c1)));
                        ("password", JStr (_password (sn c1)))]) 2 c1)
      as (req & c2 & Hur & Hd & Hh & _ & Hs & Hq).
    exists req, c2. split; [exact Hs|]. split; [exact Hur|].
    split; [rewrite Hd; unfold login_payload; rewrite Hu, Hp; reflexivity|].
    split; [rewrite Hh, (ok_null c1 Hnull), Hua; reflexivity|].
    assert (H2 : sends (fun _ => True) c2
                   (snd (_query W "login"
                           (JDict [("email", JStr (_username (sn c1)));
                                   ("password", JStr (_password (sn c1)))]) 2 c1))).
    { rewrite Hq. destruct (settle _); [reflexivity|].
      apply _query_sends. auto. }
    destruct (_query W "login" _ 2 c1) as [[resp|e] c3]; simpl in H2 |- *; [|exact H2].
    etransitivity; [exact H2|].
    assert (Hrest : forall r, keeps (sends (fun _ => True))
      (let* has_error := lift_o (py_in "error" r) in
        let* rejected :=
          (if has_error
           then let* e := lift_o (py_get r "error") in ret (negb (is_str "" e))
           else ret false) in
        if rejected
        then let* e := lift_o (py_get r "error") in raise (InvalidLogin e)
        else
          let* has_success := lift_o (py_in "success" r) in
          let* failed :=
            (if has_success
             then let* s := lift_o (py_get r "success") in ret (negb (truthy s))
             else ret false) in
          let* no_token :=
            (if failed then ret true
             else let* t := lift_o (py_get r "token") in ret (negb (truthy t))) in
          if no_token then raise (ValueError "no token returned")
          else
            let* t := lift_o (py_get r "token") in
            let* _ := (fun c => (Return tt, set_jwt t c)) in
            let* valid := ok W in
            if negb valid then raise (PyException "login failed")
            else ret true)).
    { intros r. keeps_with ltac:(first [ apply ok_sends | apply set_jwt_sends ]). }
    destruct resp; try apply Hrest. reflexivity. }
  destruct Hq as (req & c2 & Hs2 & Hur & Hd & Hh & Hrest).
  match goal with
  | |- context [sent (env (snd ?t))] =>
      assert (Hall : sends (fun _ => True) c2 (snd t))
  end.
  { rewrite bind_eq.
    destruct (authenticate W c1) as [[a|e] c3]; simpl in Hrest; cbv beta iota;
      [|exact Hrest].
    etransitivity; [exact Hrest|]. apply _query_sends. auto. }
  destruct Hall as (rest & Hr & _).
  exists req, rest. split; [|auto].
  rewrite Hr, Hs2, Hs1, <- app_assoc. reflexivity.
Qed.

(** X5. When the login fails with an exception, [query] fails with the
    same exception and has sent login requests only. *)
Theorem query_login_failure (path : string) (payload : json) (c c2 : Client) (e : exn) :
  fst (ok W c) = Return false ->
  authenticate W (snd (ok W c)) = (Raise e, c2) ->
  query W path payload c = (Raise e, c2) /\ sends login_request c c2.
Proof.
  intros Hok Ha. unfold query. rewrite bind_eq.
  pose proof (ok_sends W login_request c) as H1.
  pose proof (authenticate_sends W login_request (fun _ H => H) (snd (ok W c))) as H2.
  destruct (ok W c) as [[b|e0] c1]; simpl in *; [|discriminate].
  injection Hok as ->. simpl. rewrite bind_eq, Ha. split; [reflexivity|].
  rewrite Ha in H2. etransitivity; eauto.
Qed.

(** X6. A login that meets a status other than 200 is no error for
    [query]: [authenticate] returns False after its one request, no token is
    held, and [query] goes on to send its request without a token. *)
Theorem query_after_refused_login (path : string) (payload : json) (c : Client)
    (status : Z) (body : outcome json) :
  _jwt (sn c) = JNull ->
  status <> 200%Z ->
  (forall req, transport W (length (sent (env c))) req = Responded status body) ->
  exists c1,
    authenticate W c = (Return false, c1) /\
    _jwt (sn c1) = JNull /\
    length (sent (env c1)) = S (length (sent (env c))) /\
    query W path payload c = _query W path payload 2 c1.
Proof.
  intros Hnull Hst Ht.
  destruct (_query_step W "login" (login_payload (sn c)) 2 c)
    as (req & c1 & _ & _ & Hsn & Hs & Hq).
  assert (Hset : settle (Responded status body) = Some (Return JNull)).
  { simpl. destruct (status =? 200)%Z eqn:E; [apply Z.eqb_eq in E; contradiction|].
    reflexivity. }
  rewrite Ht, Hset in Hq.
  assert (Ha : authenticate W c = (Return false, c1)).
  { unfold authenticate. rewrite bind_eq. cbn beta iota. rewrite bind_eq.
    unfold login_payload in Hq. cbn [fst snd]. rewrite Hq. reflexivity. }
  exists c1. split; [exact Ha|].
  split; [rewrite Hsn, (ok_null c Hnull); exact Hnull|].
  split; [rewrite Hs, length_app; simpl; lia|].
  unfold query. rewrite bind_eq, (ok_null c Hnull). simpl. rewrite bind_eq, Ha. reflexivity.
Qed.

(** X7. [authenticate] returns True only with a token in hand: the account
    then holds a string token that decoded, unexpired, at the reading of
    the clock made for the check. *)
Theorem authenticate_true_holds_token (c c' : Client) :
  authenticate W c = (Return true, c') ->
  exists tok n,
    _jwt (sn c') = JStr tok /\
    jwt_decode W (JStr tok) (wall_clock W n) = true /\
    clock_reads (env c') = S n.
Proof.
  unfold authenticate. rewrite bind_eq. cbn beta iota. rewrite bind_eq.
  destruct (_query W "login" _ 2 c) as [[resp|e] c1]; [|discriminate].
  intros H.
  assert (H' :
    (let* has_error := lift_o (py_in "error" resp) in
      let* rejected :=
        (if has_error
         then let* e := lift_o (py_get resp "error") in ret (negb (is_str "" e))
         else ret false) in
      if rejected
      then let* e := lift_o (py_get resp "error") in raise (InvalidLogin e)
      else
        let* has_success := lift_o (py_in "success" resp) in
        let* failed :=
          (if has_success
           then let* s := lift_o (py_get resp "success") in ret (negb (truthy s))
           else ret false) in
        let* no_token :=
          (if failed then ret true
           else let* t := lift_o (py_get resp "token") in ret (negb (truthy t))) in
        if no_token then raise (ValueError "no token returned")
        else
          let* t := lift_o (py_get resp "token") in
          let* _ := (fun c => (Return tt, set_jwt t c)) in
          let* valid := ok W in
          if negb valid then raise (PyException "login failed")
          else ret true) c1 = (Return true, c')).
  { destruct resp; try exact H. discriminate. }
  clear H. unfold bind, lift_o, ret, raise in H'.
  destruct (py_in "error" resp) as [he|]; [|discriminate].
  assert (Hcont : forall rejected : bool,
    (if rejected
     then fun s : Client => match py_get resp "error" with
                   | Return a => (Raise (InvalidLogin a), s)
                   | Raise e => (Raise e, s)
                   end
     else fun s : Client =>
       match py_in "success" resp with
       | Return a =>
           let (o, s') :=
             (if a
              then fun s0 : Client => match py_get resp "success" with
                             | Return a0 => (Return (negb (truthy a0)), s0)
                             | Raise e => (Raise e, s0)
                             end
              else fun s0 : Client => (Return false, s0)) s in
           match o with
           | Return a0 =>
               let (o0, s'0) :=
                 (if a0 then fun s0 : Client => (Return true, s0)
                  else fun s0 : Client => match py_get resp "token" with
                                 | Return a1 => (Return (negb (truthy a1)), s0)
                                 | Raise e => (Raise e, s0)
                                 end) s' in
               match o0 with
               | Return a1 =>
                   (if a1 then fun s0 : Client => (Raise (ValueError "no token returned"), s0)
                    else fun s0 : Client =>
                      match py_get resp "token" with
                      | Return a2 =>
                          let (o1, s'1) := ok W (set_jwt a2 s0) in
                          match o1 with
                          | Return a3 =>
                              (if negb a3
                               then fun s1 : Client => (Raise (PyException "login failed"), s1)
                               else fun s1 : Client => (Return true, s1)) s'1
                          | Raise e => (Raise e, s'1)
                          end
                      | Raise e => (Raise e, s0)
                      end) s'0
               | Raise e => (Raise e, s'0)
               end
           | Raise e => (Raise e, s')
           end
       | Raise e => (Raise e, s)
       end) c1 = (Return true, c') ->
    exists t, ok W (set_jwt t c1) = (Return true, c')).
  { intros rejected Hr. destruct rejected.
    - destruct (py_get resp "error"); discriminate.
    - destruct (py_in "success" resp) as [hs|]; [|discriminate].
      destruct hs.
      + destruct (py_get resp "success") as [sv|]; [|discriminate].
        destruct (negb (truthy sv)); [discriminate|].
        destruct (py_get resp "token") as [t|]; [|discriminate].
        destruct (negb (truthy t)); [discriminate|].
        exists t. destruct (ok W (set_jwt t c1)) as [[[|]|] c3]; simpl in Hr; try discriminate.
        congruence.
      + destruct (py_get resp "token") as [t|]; [|discriminate].
        destruct (negb (truthy t)); [discriminate|].
        exists t. destruct (ok W (set_jwt t c1)) as [[[|]|] c3]; simpl in Hr; try discriminate.
        congruence. }
  assert (Hok : exists t, ok W (set_jwt t c1) = (Return true, c')).
  { destruct he.
    - destruct (py_get resp "error") as [ev|]; [|discriminate].
      apply (Hcont (negb (is_str "" ev))). exact H'.
    - apply (Hcont false). exact H'. }
  destruct Hok as [t Hok].
  pose proof (ok_true (set_jwt t c1)) as Ht. rewrite Hok in Ht.
  destruct (Ht eq_refl) as [Hd Hc']. simpl in Hd, Hc'. subst c'.
  destruct (jwt_decode_str W _ _ Hd) as [tok ->].
  exists tok, (clock_reads (env c1)). simpl. auto.
Qed.

End SessionMore2.

(** * Further properties of the account *)

#[local] Instance keys_kept_refl : Reflexive keys_kept.
Proof. intros c k H. exact H. Qed.

#[local] Instance keys_kept_trans : Transitive keys_kept.
Proof. intros a b c H1 H2 k H. auto. Qed.

Lemma new_meter_fresh id p m : new_meter id p = Return m -> fresh_meter m /\ _meter_id m = id.
Proof.
  unfold new_meter. intros H.
  repeat match type of H with
  | obind ?o _ = _ => destruct o; simpl in H; [|discriminate]
  end.
  injection H as <-. unfold fresh_meter. simpl. repeat split; reflexivity.
Qed.

Lemma built_from_mono points points' mk m :
  (forall p, p ∈ points -> p ∈ points') -> built_from points mk m -> built_from points' mk m.
Proof.
  intros Hsub (Hf & Ht & Hk & p & Hp & Hg & Hn).
  split; [exact Hf|]. split; [exact Ht|]. split; [exact Hk|]. exists p. auto.
Qed.

Lemma add_meters_built points : forall ms ms',
  add_meters points ms = Return ms' ->
  (forall mk m, ms' !! mk = Some m -> ms !! mk = Some m \/ built_from points mk m) /\
  (forall p mid, p ∈ points -> py_get p "meterPointID" = Return mid -> truthy mid = true ->
     exists mk, hash_key mid = Return mk /\ is_Some (ms' !! mk)) /\
  (forall mk, is_Some (ms !! mk) -> is_Some (ms' !! mk)).
Proof.
  induction points as [|p points IH]; intros ms ms' H; simpl in H.
  - injection H as <-. split; [auto|]. split; [|auto].
    intros p mid Hp. apply elem_of_nil in Hp. contradiction.
  - destruct (py_get p "meterPointID") as [id|] eqn:Hid; simpl in H; [|discriminate].
    destruct (truthy id) eqn:Ht; simpl in H.
    + destruct (new_meter id p) as [m0|] eqn:Hm; simpl in H; [|discriminate].
      destruct (hash_key id) as [k|] eqn:Hk; simpl in H; [|discriminate].
      destruct (IH _ _ H) as (H1 & H2 & H3).
      destruct (new_meter_fresh _ _ _ Hm) as [Hf Hmid].
      split; [|split].
      * intros mk m Hl. destruct (H1 mk m Hl) as [Hold|Hb].
        -- destruct (decide (k = mk)) as [<-|Hne].
           ++ rewrite lookup_insert_eq in Hold. injection Hold as <-. right.
              split; [exact Hf|]. rewrite Hmid. split; [exact Ht|]. split; [exact Hk|].
              exists p. split; [apply elem_of_cons; left; reflexivity|]. auto.
           ++ rewrite lookup_insert_ne in Hold by exact Hne. left. exact Hold.
        -- right. eapply built_from_mono; [|exact Hb].
           intros q Hq. apply elem_of_cons. right. exact Hq.
      * intros q mid Hq Hg Htr. apply elem_of_cons in Hq. destruct Hq as [->|Hq].
        -- rewrite Hid in Hg. injection Hg as <-. exists k. split; [exact Hk|].
           apply H3. rewrite lookup_insert_eq. eauto.
        -- eapply H2; eauto.
      * intros mk Hs. apply H3. destruct (decide (k = mk)) as [<-|Hne].
        -- rewrite lookup_insert_eq. eauto.
        -- rewrite lookup_insert_ne by exact Hne. exact Hs.
    + destruct (IH _ _ H) as (H1 & H2 & H3). split; [|split].
      * intros mk m Hl. destruct (H1 mk m Hl) as [Hold|Hb]; [left; exact Hold|].
        right. eapply built_from_mono; [|exact Hb].
        intros q Hq. apply elem_of_cons. right. exact Hq.
      * intros q mid Hq Hg Htr. apply elem_of_cons in Hq. destruct Hq as [->|Hq].
        -- rewrite Hid in Hg. injection Hg as <-. congruence.
        -- eapply H2; eauto.
      * exact H3.
Qed.

(** X8. An installation is built with its five attributes read off the
    record and one meter for each meter point with a truthy id: each meter
    is stored under its id, is built from a meter point with that id, and
    starts with nothing fetched, tracked or resolved. *)
Theorem new_installation_meters (id info : json) (i : SNGrazInstallation) :
  new_installation id info = Return i ->
  _installation_id i = id /\
  py_get info "customerID" = Return (_customer_id i) /\
  py_get info "customerNumber" = Return (_customer_number i) /\
  py_get info "installationNumber" = Return (_installation_number i) /\
  py_get info "address" = Return (_address i) /\
  exists mps points,
    py_get info "meterPoints" = Return mps /\ py_iter mps = Return points /\
    (forall mk m, _meters i !! mk = Some m -> built_from points mk m) /\
    (forall p mid, p ∈ points -> py_get p "meterPointID" = Return mid -> truthy mid = true ->
       exists mk, hash_key mid = Return mk /\ is_Some (_meters i !! mk)).
Proof.
  unfold new_installation. intros H.
  destruct (py_get info "customerID") as [cid|] eqn:Hcid; simpl in H; [|discriminate].
  destruct (py_get info "customerNumber") as [cn|]; simpl in H; [|discriminate].
  destruct (py_get info "installationNumber") as [inr|]; simpl in H; [|discriminate].
  destruct (py_get info "address") as [ad|] eqn:Had; simpl in H; [|discriminate].
  destruct (py_get info "meterPoints") as [mps|] eqn:Hmps; simpl in H; [|discriminate].
  destruct (py_iter mps) as [points|] eqn:Hpts; simpl in H; [|discriminate].
  destruct (add_meters points ∅) as [ms|] eqn:Ha; simpl in H; [|discriminate].
  injection H as <-. simpl. split; [reflexivity|]. split; [reflexivity|].
  split; [reflexivity|]. split; [reflexivity|]. split; [reflexivity|].
  exists mps, points. split; [reflexivity|]. split; [exact Hpts|].
  destruct (add_meters_built _ _ _ Ha) as (H1 & H2 & _). split; [|exact H2].
  intros mk m Hl. destruct (H1 mk m Hl) as [He|Hb]; [|exact Hb].
  rewrite lookup_empty in He. discriminate.
Qed.

Section AccountMore.

Variable W : Externals.

Lemma update_one_truthy _inst id c :
  py_get _inst "installationID" = Return id -> truthy id = true ->
  update_one _inst c =
  match new_installation id _inst with
  | Raise e => (Raise e, c)
  | Return i =>
      match hash_key id with
      | Raise e => (Raise e, c)
      | Return k => (Return tt, set_installation k i c)
      end
  end.
Proof.
  intros Hid Ht. unfold update_one, bind, lift_o. rewrite Hid. simpl. rewrite Ht. simpl.
  destruct (new_installation id _inst); [|reflexivity].
  destruct (hash_key id); reflexivity.
Qed.

(** X9. An installation record with a truthy id either is stored whole or
    leaves the account as it was: when [update_info]'s loop body returns,
    the installation built from the record is found under its id, every
    other installation, the token and the request log are untouched; when
    it raises, nothing has changed. *)
Theorem update_one_stores (_inst id : json) (c : Client) :
  py_get _inst "installationID" = Return id ->
  truthy id = true ->
  (forall c', update_one _inst c = (Return tt, c') ->
     exists k i,
       hash_key id = Return k /\ new_installation id _inst = Return i /\
       get_installation (sn c') k = Return i /\
       (forall k', k' <> k -> _installations (sn c') !! k' = _installations (sn c) !! k') /\
       env c' = env c /\ _jwt (sn c') = _jwt (sn c)) /\
  (forall e c', update_one _inst c = (Raise e, c') -> c' = c).
Proof.
  intros Hid Ht. rewrite (update_one_truthy _inst id c Hid Ht).
  destruct (new_installation id _inst) as [i|e0]; [|split; [discriminate | congruence]].
  destruct (hash_key id) as [k|e0]; [|split; [discriminate | congruence]].
  split; [|discriminate].
  intros c' [= <-]. exists k, i. split; [reflexivity|]. split; [reflexivity|].
  split; [unfold get_installation; simpl; rewrite lookup_insert_eq; reflexivity|].
  split; [intros k' Hne; simpl; rewrite lookup_insert_ne by congruence; reflexivity|].
  split; reflexivity.
Qed.

End AccountMore.

Section AccountMore2.

Variable W : Externals.

Lemma same_installations_keys c c' : same_installations c c' -> keys_kept c c'.
Proof. unfold same_installations, keys_kept. intros -> k H. exact H. Qed.

Lemma update_one_keys _inst : keeps keys_kept (update_one _inst).
Proof.
  intros c k Hk. unfold update_one, bind, lift_o.
  destruct (py_get _inst "installationID") as [id|]; simpl; [|exact Hk].
  destruct (truthy id); simpl; [|exact Hk].
  destruct (new_installation id _inst) as [i|]; simpl; [|exact Hk].
  destruct (hash_key id) as [k0|]; simpl; [|exact Hk].
  destruct (decide (k0 = k)) as [->|Hne].
  - rewrite lookup_insert_eq. eauto.
  - rewrite lookup_insert_ne by exact Hne. exact Hk.
Qed.

Lemma query_keys path payload : keeps keys_kept (query W path payload).
Proof. intros c. apply same_installations_keys, query_same_installations. Qed.

Lemma update_one_other _inst k c :
  (forall id, py_get _inst "installationID" = Return id -> hash_key id <> Return k) ->
  _installations (sn (snd (update_one _inst c))) !! k = _installations (sn c) !! k.
Proof.
  intros H. unfold update_one, bind, lift_o.
  destruct (py_get _inst "installationID") as [id|] eqn:Hid; simpl; [|reflexivity].
  destruct (truthy id); simpl; [|reflexivity].
  destruct (new_installation id _inst) as [i|]; simpl; [|reflexivity].
  destruct (hash_key id) as [k0|] eqn:Hk; simpl; [|reflexivity].
  apply lookup_insert_ne. intros ->. exact (H id eq_refl Hk).
Qed.

Lemma for_each_update_other records k : forall c,
  not_listed k records ->
  _installations (sn (snd (for_each records update_one c))) !! k = _installations (sn c) !! k.
Proof.
  induction records as [|r records IH]; intros c H; simpl; [reflexivity|].
  inversion H as [|? ? Hr Hrest]; subst. rewrite bind_eq.
  pose proof (update_one_other r k c Hr) as H1.
  destruct (update_one r c) as [[[]|e] c1]; simpl in H1 |- *; [|exact H1].
  rewrite IH by exact Hrest. exact H1.
Qed.

(** X10. [update_info] is an upsert that never prunes: whatever the
    server answers and however the call ends, every installation id known
    before is still known after; and an installation whose id is not among
    the ids of the records listed is the very one held before. *)
Theorem update_info_never_prunes (c : Client) :
  let c' := snd (update_info W c) in
  (forall k, is_Some (_installations (sn c) !! k) -> is_Some (_installations (sn c') !! k)) /\
  (forall res c1 records k,
     query W "getInstallations" (JList []) c = (Return res, c1) ->
     py_iter res = Return records ->
     not_listed k records ->
     _installations (sn c') !! k = _installations (sn c) !! k) /\
  (fst (query W "getInstallations" (JList []) c) = Return JNull ->
     _installations (sn c') = _installations (sn c)).
Proof.
  intros c'. split; [|split].
  - assert (H : keeps keys_kept (update_info W)).
    { unfold update_info.
      keeps_with ltac:(first [ apply query_keys
                             | apply keeps_for_each;
                               [try solve [typeclasses eauto] .. | apply update_one_keys] ]). }
    apply H.
  - intros res c1 records k Hq Hit Hnot. subst c'. unfold update_info. rewrite bind_eq, Hq.
    pose proof (query_same_installations W "getInstallations" (JList []) c) as Hsame.
    rewrite Hq in Hsame. unfold same_installations in Hsame. simpl in Hsame. rewrite Hsame.
    assert (Hrun : forall m : M Client unit,
              m = (let* records := lift_o (py_iter res) in for_each records update_one) ->
              _installations (sn (snd (m c1))) !! k = _installations (sn c1) !! k).
    { intros m ->. rewrite bind_eq. unfold lift_o. rewrite Hit.
      apply for_each_update_other. exact Hnot. }
    destruct res; try (apply Hrun; reflexivity). discriminate.
  - intros Hq. subst c'. unfold update_info. rewrite bind_eq.
    pose proof (query_same_installations W "getInstallations" (JList []) c) as Hsame.
    destruct (query W "getInstallations" (JList []) c) as [[res|e] c1]; simpl in Hq; [|discriminate].
    injection Hq as ->. simpl. symmetry. exact Hsame.
Qed.

End AccountMore2.

(** * Further properties of the meter *)

#[local] Instance first_reading_same_refl : Reflexive first_reading_same.
Proof. intros m. reflexivity. Qed.

#[local] Instance first_reading_same_trans : Transitive first_reading_same.
Proof. intros a b c. unfold first_reading_same. congruence. Qed.

Lemma patch_utc_suffix_app_Z p : patch_utc_suffix (p ++ "Z") = p ++ "+00:00".
Proof.
  induction p as [|a p IH]; [reflexivity|].
  change (String a p ++ "Z") with (String a (p ++ "Z")).
  change (String a p ++ "+00:00") with (String a (p ++ "+00:00")).
  rewrite <- IH. destruct p; reflexivity.
Qed.

Lemma patch_utc_suffix_other d : (forall p, d <> p ++ "Z") -> patch_utc_suffix d = d.
Proof.
  induction d as [|a d IH]; intros H; [reflexivity|].
  destruct d as [|b d].
  - simpl. destruct (Ascii.eqb a "Z") eqn:E; [|reflexivity].
    apply Ascii.eqb_eq in E. subst a. exfalso. apply (H ""). reflexivity.
  - change (patch_utc_suffix (String a (String b d)))
      with (String a (patch_utc_suffix (String b d))).
    rewrite IH; [reflexivity|]. intros p Hp. apply (H (String a p)). simpl. rewrite Hp.
    reflexivity.
Qed.

(** X11. The patch of a [readTime]: a trailing "Z" is replaced by "+00:00",
    one only; a string that does not end in "Z" is left as it is. *)
Theorem patch_utc_suffix_spec (d : string) :
  (forall p, d = p ++ "Z" -> patch_utc_suffix d = p ++ "+00:00") /\
  ((forall p, d <> p ++ "Z") -> patch_utc_suffix d = d).
Proof.
  split.
  - intros p ->. apply patch_utc_suffix_app_Z.
  - apply patch_utc_suffix_other.
Qed.

Section MeterMore.

Variable W : Externals.

(** X12. What the loop of [_fetch_data] does with a malformed reading: a
    reading that is not an object raises AttributeError and one whose
    [readingValues] is missing or null raises TypeError; a reading with a
    valid sub-value whose [readTime] is missing or not a string raises
    AttributeError, and one whose [readTime] does not parse raises
    ValueError. In each case the reading has changed nothing. *)
Theorem process_reading_errors (reading : json) (s : MeterCtx) :
  ((forall kvs, reading <> JDict kvs) ->
     process_reading W reading s = (Raise AttributeError, s)) /\
  (py_get reading "readingValues" = Return JNull ->
     process_reading W reading s = (Raise TypeError, s)) /\
  (forall rvs items m d,
     py_get reading "readingValues" = Return rvs -> py_iter rvs = Return items ->
     valid_values items ∅ = Return m -> m <> ∅ ->
     py_get reading "readTime" = Return d ->
     ((forall str, d <> JStr str) ->
        process_reading W reading s = (Raise AttributeError, s)) /\
     (forall str, d = JStr str -> fromisoformat W (patch_utc_suffix str) = None ->
        process_reading W reading s = (Raise (ValueError "Invalid isoformat string"), s))).
Proof.
  split; [|split].
  - intros H. unfold process_reading. rewrite bind_eq. unfold lift_o at 1.
    destruct reading; try reflexivity. exfalso. eapply H. reflexivity.
  - intros H. unfold process_reading. rewrite bind_eq. unfold lift_o at 1. rewrite H.
    reflexivity.
  - intros rvs items m d Hrvs Hit Hm Hne Hd.
    assert (Heq : process_reading W reading s =
              (let* t := parse_iso W (match d with
                                      | JStr s => JStr (patch_utc_suffix s)
                                      | _ => d
                                      end) AttributeError in
               let res := <[KStr "readTime" := VDatetime t]> m in
               let res := <[KStr "readingValues" := VJson rvs]> res in
               let* _ := track_consumption res t in
               let* _ := track_reading res t in
               ret (Some res)) s).
    { unfold process_reading. rewrite bind_eq. unfold lift_o at 1. rewrite Hrvs.
      rewrite bind_eq. unfold lift_o at 1. rewrite Hit.
      rewrite bind_eq. unfold lift_o at 1. rewrite Hm.
      destruct (decide (m = ∅)); [contradiction|].
      rewrite bind_eq. unfold lift_o at 1. rewrite Hd. reflexivity. }
    rewrite Heq. split.
    + intros Hns. rewrite bind_eq. destruct d; try reflexivity.
      exfalso. eapply Hns. reflexivity.
    + intros str -> Hp. rewrite bind_eq. unfold parse_iso. rewrite Hp. reflexivity.
Qed.

Lemma process_reading_time reading s res s' :
  process_reading W reading s = (Return (Some res), s') ->
  exists d t rvs,
    py_get reading "readTime" = Return (JStr d) /\
    fromisoformat W (patch_utc_suffix d) = Some t /\
    py_get reading "readingValues" = Return rvs /\
    res !! KStr "readTime" = Some (VDatetime t) /\
    res !! KStr "readingValues" = Some (VJson rvs).
Proof.
  unfold process_reading, bind, lift_o. intros H.
  destruct (py_get reading "readingValues") as [rvs|] eqn:Hrvs; [|discriminate].
  destruct (py_iter rvs) as [items|]; [|discriminate].
  destruct (valid_values items ∅) as [m|]; [|discriminate].
  destruct (decide (m = ∅)); [discriminate|].
  destruct (py_get reading "readTime") as [d|] eqn:Hd; [|discriminate].
  unfold parse_iso, raise, ret in H.
  destruct d as [| | |str| |]; try discriminate.
  destruct (fromisoformat W (patch_utc_suffix str)) as [t|] eqn:Hp; [|discriminate].
  destruct (track_consumption _ t s) as [[[]|] s2]; [|discriminate].
  destruct (track_reading _ t s2) as [[[]|] s3]; [|discriminate].
  injection H as <- <-. exists str, t, rvs.
  split; [reflexivity|]. split; [exact Hp|]. split; [reflexivity|].
  split; [rewrite lookup_insert_ne by discriminate; apply lookup_insert_eq
         |apply lookup_insert_eq].
Qed.

Lemma process_readings_time readings : forall acc s result s' (P : gmap pykey pyval -> Prop),
  (forall reading s0 res s1,
     reading ∈ readings -> process_reading W reading s0 = (Return (Some res), s1) -> P res) ->
  process_readings W readings acc s = (Return result, s') ->
  Forall P acc -> Forall P result.
Proof.
  induction readings as [|reading rest IH]; intros acc s result s' P HP H Hacc; simpl in H.
  - unfold ret in H. injection H as <- <-. exact Hacc.
  - rewrite bind_eq in H.
    destruct (process_reading W reading s) as [[r|] s1] eqn:Hp; [|discriminate].
    eapply IH; [|exact H|].
    + intros rd s0 res s2 Hin. apply HP. apply elem_of_cons. right. exact Hin.
    + destruct r as [res|]; [|exact Hacc].
      apply Forall_app. split; [exact Hacc|]. constructor; [|constructor].
      eapply HP; [|exact Hp]. apply elem_of_cons. left. reflexivity.
Qed.

Lemma process_readings_client readings acc s :
  client (snd (process_readings W readings acc s)) = client s.
Proof.
  symmetry.
  apply (process_readings_keeps W (on_client eq)
           (fun res t => track_consumption_client _ res t)
           (fun res t => track_reading_client _ res t) readings acc s).
Qed.

(** X13. Every record [_fetch_data] returns comes from a reading of the
    response received: the last request sent is the one to getMeterReading,
    it was answered with status 200, and each record has, under "readTime",
    the datetime parsed from the patched [readTime] of a reading listed in
    the body of that answer and, under "readingValues", the raw sub-values
    of that reading, whatever the types of its sub-values are called. *)
Theorem fetched_records_shape (a b : datetime) (s s' : MeterCtx)
    (l : list (gmap pykey pyval)) :
  _fetch_data W a b s = (Return (Some l), s') ->
  exists pre req resp readings items,
    sent (env (client s')) = (pre ++ [req])%list /\
    url req = API_ENDPOINT ++ "getMeterReading" /\
    transport W (length pre) req = Responded 200 (Return resp) /\
    py_get resp "readings" = Return readings /\ py_iter readings = Return items /\
    Forall (fun res =>
              exists reading d t rvs,
                reading ∈ items /\
                py_get reading "readTime" = Return (JStr d) /\
                fromisoformat W (patch_utc_suffix d) = Some t /\
                py_get reading "readingValues" = Return rvs /\
                res !! KStr "readTime" = Some (VDatetime t) /\
                res !! KStr "readingValues" = Some (VJson rvs)) l.
Proof.
  intros H. apply _fetch_data_inv in H.
  destruct H as (iv & e & fr & s1 & before & resp & s2 & readings & items & H).
  destruct H as (_ & _ & _ & Hq & Hn & Hr & _ & Hi & Hp).
  unfold in_client in Hq.
  destruct (query W "getMeterReading" _ (client s1)) as [o c2] eqn:Hq'.
  injection Hq as -> <-.
  destruct (query_response W _ _ _ _ _ Hq' Hn) as (pre & req & Hs & [Hu _] & Ht).
  pose proof (process_readings_client items [] (mkCtx c2 (self s1))) as Hc.
  rewrite Hp in Hc. simpl in Hc.
  exists pre, req, resp, readings, items.
  split; [rewrite Hc; exact Hs|]. split; [exact Hu|]. split; [exact Ht|].
  split; [exact Hr|]. split; [exact Hi|].
  eapply process_readings_time; [|exact Hp|constructor].
  intros reading s0 res s3 Hin Hrd.
  destruct (process_reading_time _ _ _ _ Hrd) as (d & t & rvs & H1 & H2 & H3 & H4 & H5).
  exists reading, d, t, rvs. auto 10.
Qed.

Lemma fetch_tail_none resp s s' :
  fetch_tail W resp s = (Return None, s') -> s' = s.
Proof.
  intros H.
  assert (H' : resp = JNull \/
    (let* readings := lift_o (py_get resp "readings") in
      if negb (truthy readings) then ret None
      else
        let* items := lift_o (py_iter readings) in
        let* result := process_readings W items [] in
        ret (Some result)) s = (Return None, s')).
  { destruct resp; [left; reflexivity | right; exact H ..]. }
  destruct H' as [->|H'].
  - unfold fetch_tail, ret in H. congruence.
  - clear H. unfold bind, lift_o, ret in H'.
    destruct (py_get resp "readings") as [readings|]; [|discriminate].
    destruct (negb (truthy readings)); [congruence|].
    destruct (py_iter readings) as [items|]; [|discriminate].
    destruct (process_readings W items [] s) as [[result|] s3]; discriminate.
Qed.

Lemma _fetch_data_none a b s s' :
  _fetch_data W a b s = (Return None, s') ->
  self s' = self s \/
  (_first_reading_date (self s) = None /\
   exists d, self s' = set_first_reading_date d (self s)).
Proof.
  rewrite _fetch_data_eq.
  destruct (interval_of (_opt_state (self s)) b) as [[iv e]|];
    [|intros [= <-]; left; reflexivity].
  rewrite bind_eq.
  destruct (_get_first_reading_date W s) as [[[fr|]|e0] s1] eqn:Hfr; try discriminate.
  - assert (Hs1 : self s1 = self s \/
                  (_first_reading_date (self s) = None /\
                   exists d, self s1 = set_first_reading_date d (self s))).
    { destruct (first_date_inv W _ _ _ Hfr) as [[H _]|(Hn & d & H & _)]; [left; exact H|].
      right. split; [exact Hn|]. eauto. }
    rewrite bind_eq. unfold lift_o at 1.
    destruct (dt_lt (tzdata W) a fr) as [before|]; [|discriminate].
    rewrite bind_eq. unfold read_self at 1. cbn beta iota. rewrite bind_eq.
    pose proof (in_client_self
      (query W "getMeterReading"
         (reading_payload W iv (_meter_id (self s1)) (if before then fr else a) e)) s1) as Hself.
    destruct (in_client _ s1) as [[resp|e1] s2]; [|discriminate].
    simpl in Hself. intros Ht.
    apply fetch_tail_none in Ht. subst s'. rewrite Hself. exact Hs1.
  - unfold ret. intros [= <-].
    destruct (first_date_inv W _ _ _ Hfr) as [[H _]|(_ & d & _ & Hd)]; [left; exact H|].
    discriminate.
Qed.

(** X14. A fetch that ends softly leaves the meter alone: when
    [_fetch_data] returns None, the cached data, the cached first reading
    and both trackers are what they were; only the first reading date may
    have been resolved on the way. *)
Theorem fetch_soft_failure (a b : datetime) (s : MeterCtx) :
  fst (_fetch_data W a b s) = Return None ->
  let m' := self (snd (_fetch_data W a b s)) in
  m' = self s \/
  (_first_reading_date (self s) = None /\
   exists d, m' = set_first_reading_date d (self s)).
Proof.
  destruct (_fetch_data W a b s) as [o s'] eqn:E. simpl. intros ->.
  exact (_fetch_data_none _ _ _ _ E).
Qed.

(** X15. [fetch_consumption_data] is [get_historic_data] followed by one
    assignment: it ends as that one does, raising what it raises; the
    cached data becomes the fetched list when there is one and is left as
    it was otherwise, and nothing else differs from what
    [get_historic_data] leaves. *)
Theorem fetch_consumption_data_stores (days : Z) (s : MeterCtx) :
  let h := get_historic_data W days s in
  let r := fetch_consumption_data W days s in
  fst r = match fst h with
          | Return _ => Return tt
          | Raise e => Raise e
          end /\
  _data (self (snd r)) = match fst h with
                         | Return (Some l) => Some l
                         | _ => _data (self s)
                         end /\
  client (snd r) = client (snd h) /\
  match fst h with
  | Return (Some l) => self (snd r) = set_data l (self (snd h))
  | _ => snd r = snd h
  end.
Proof.
  intros h r.
  pose proof (get_historic_data_cache W days s) as [Hd _]. fold h in Hd.
  subst h r. revert Hd.
  unfold fetch_consumption_data, get_historic_data. rewrite !bind_eq.
  destruct (window W days s) as [[w|e] s1]; [|simpl; auto].
  rewrite !bind_eq.
  destruct (_fetch_data W (fst w) (snd w) s1) as [[[l|]|e] s2]; simpl; auto.
Qed.

End MeterMore.

Section MeterMore2.

Variable W : Externals.

(** X16. Resolving the first reading date: from an unresolved slot, a date
    [_get_first_reading_date] returns was read from the answer to the
    request it sent: the last request sent is the one to
    getMeterReadingMetaData for this meter, it was answered with status 200,
    and the date is what [fromisoformat] makes of [readingsAvailableSince]
    in the body of that answer, with the minute zeroed, the second and the
    microsecond kept and the account's time zone put on it, whatever offset
    the string carried; it is stored in the slot, nothing else of the meter
    changing. *)
Theorem first_date_resolution (s s1 : MeterCtx) (d : datetime) :
  _first_reading_date (self s) = None ->
  _get_first_reading_date W s = (Return (Some d), s1) ->
  self s1 = set_first_reading_date d (self s) /\
  exists pre req resp since raw,
    sent (env (client s1)) = (pre ++ [req])%list /\
    length (sent (env (client s))) <= length pre /\
    to_path "getMeterReadingMetaData" (JDict [("meterPointId", _meter_id (self s))]) req /\
    transport W (length pre) req = Responded 200 (Return resp) /\
    py_get resp "readingsAvailableSince" = Return (JStr since) /\
    fromisoformat W since = Some raw /\
    ordinal d = ordinal raw /\ hour d = hour raw /\ minute d = 0%Z /\
    second d = second raw /\ microsecond d = microsecond raw /\
    tzinfo d = Some (time_zone (sn (client s1))).
Proof.
  intros Hn. unfold _get_first_reading_date. rewrite bind_eq. unfold read_self at 1.
  cbn beta iota. rewrite Hn. rewrite bind_eq. unfold read_self at 1. cbn beta iota.
  rewrite bind_eq. unfold in_client at 1.
  destruct (query W "getMeterReadingMetaData" (JDict [("meterPointId", _meter_id (self s))])
              (client s)) as [[resp|e] c1] eqn:Hq; [|discriminate].
  assert (Hrest :
    forall s2,
      (let* since := lift_o (py_get resp "readingsAvailableSince") in
       let* d := parse_iso W since TypeError in
       let* tz := (fun s => (Return (time_zone (sn (client s))), s)) in
       let first : datetime := replace_minute d 0 (Some tz) in
       let* _ := on_self (set_first_reading_date first) in
       ret (Some first)) (mkCtx c1 (self s)) = (Return (Some d), s2) ->
      self s2 = set_first_reading_date d (self s) /\ client s2 = c1 /\
      exists since raw,
        py_get resp "readingsAvailableSince" = Return (JStr since) /\
        fromisoformat W since = Some raw /\
        d = replace_minute raw 0 (Some (time_zone (sn c1)))).
  { intros s2. unfold bind, lift_o, parse_iso, raise, ret, on_self.
    destruct (py_get resp "readingsAvailableSince") as [since|]; [|discriminate].
    destruct since as [| | |str| |]; try discriminate.
    destruct (fromisoformat W str) as [raw|] eqn:Hf; [|discriminate].
    simpl. intros [= <- <-]. simpl. split; [reflexivity|]. split; [reflexivity|].
    exists str, raw. auto. }
  intros H.
  assert (H' : resp <> JNull /\
    (let* since := lift_o (py_get resp "readingsAvailableSince") in
       let* d := parse_iso W since TypeError in
       let* tz := (fun s => (Return (time_zone (sn (client s))), s)) in
       let first : datetime := replace_minute d 0 (Some tz) in
       let* _ := on_self (set_first_reading_date first) in
       ret (Some first)) (mkCtx c1 (self s)) = (Return (Some d), s1)).
  { destruct resp; try (split; [discriminate | exact H]). discriminate. }
  destruct H' as [Hnn H']. apply Hrest in H'.
  destruct H' as (Hself & Hc & since & raw & Hs & Hf & Hd).
  split; [exact Hself|].
  destruct (query_response W _ _ _ _ _ Hq Hnn) as (pre & req & Hsent & Hto & Ht).
  exists pre, req, resp, since, raw. rewrite Hc.
  split; [exact Hsent|]. split.
  { destruct (query_returns_sent W _ _ _ _ _ Hq) as (req' & Hin & _).
    apply list_elem_of_lookup in Hin. destruct Hin as [i Hi]. rewrite lookup_drop in Hi.
    apply lookup_lt_Some in Hi. rewrite Hsent, length_app in Hi. simpl in Hi. lia. }
  split; [exact Hto|]. split; [exact Ht|]. split; [exact Hs|]. split; [exact Hf|].
  subst d. simpl. auto 10.
Qed.

(** X17. The first reading date is resolved once: whatever calls are made
    on the meter after the slot holds a date, the slot still holds that
    date, and [_get_first_reading_date] then returns it without sending a
    request or changing anything. *)
Theorem first_date_resolved_once (calls : list meter_call) (s s' : MeterCtx)
    (seen : list (gmap pykey pyval)) (d : datetime) :
  run_calls W calls s = Some (seen, s') ->
  _first_reading_date (self s) = Some d ->
  _first_reading_date (self s') = Some d /\
  _get_first_reading_date W s' = (Return (Some d), s').
Proof.
  intros H Hd. pose proof (first_date_never_reverts W calls s seen s' d H Hd) as Hd'.
  split; [exact Hd'|]. apply first_date_memo. exact Hd'.
Qed.

Lemma first_reading_same_track_consumption res t :
  keeps (on_meter first_reading_same) (track_consumption res t).
Proof. intros s. apply (track_consumption_cache res t s). Qed.

Lemma first_reading_same_track_reading res t :
  keeps (on_meter first_reading_same) (track_reading res t).
Proof. intros s. apply (track_reading_cache res t s). Qed.

Lemma first_reading_same_date :
  keeps (on_meter first_reading_same) (_get_first_reading_date W).
Proof. apply first_date_keeps_meter; try typeclasses eauto. intros d m. reflexivity. Qed.

Lemma first_reading_same_query path payload :
  keeps (on_meter first_reading_same) (in_client (query W path payload)).
Proof. apply query_keeps_meter. typeclasses eauto. Qed.

Lemma first_reading_same_window days :
  keeps (on_meter first_reading_same) (window W days).
Proof. apply window_keeps_meter. typeclasses eauto. Qed.

Lemma first_reading_same_data l :
  keeps (on_meter first_reading_same) (on_self (set_data l)).
Proof. apply keeps_on_self_meter. intros m. reflexivity. Qed.

Lemma first_reading_same_fetch a b :
  keeps (on_meter first_reading_same) (_fetch_data W a b).
Proof.
  apply (_fetch_data_keeps W (on_meter first_reading_same)
           first_reading_same_track_consumption first_reading_same_track_reading
           first_reading_same_date first_reading_same_query).
Qed.

Lemma first_reading_same_scan fuel a b s r s' :
  scan W fuel a b s = Some (r, s') -> _first_reading (self s) = _first_reading (self s').
Proof.
  apply (scan_keeps W (on_meter first_reading_same)
           first_reading_same_track_consumption first_reading_same_track_reading
           first_reading_same_date first_reading_same_query).
Qed.

Lemma run_call_first_reading c s seen s' :
  run_call W c s = Some (seen, s') -> first_reading_kept (self s) (self s').
Proof.
  destruct c as [a b|days|days|fuel]; simpl; intros H Ht.
  - injection H as _ <-. symmetry. apply first_reading_same_fetch.
  - injection H as _ <-. symmetry.
    apply (fetch_consumption_data_keeps W (on_meter first_reading_same)
             first_reading_same_track_consumption first_reading_same_track_reading
             first_reading_same_date first_reading_same_query
             first_reading_same_window first_reading_same_data).
  - injection H as _ <-. symmetry.
    apply (get_historic_data_keeps W (on_meter first_reading_same)
             first_reading_same_track_consumption first_reading_same_track_reading
             first_reading_same_date first_reading_same_query
             first_reading_same_window).
  - rewrite (get_first_reading_memo W fuel s Ht) in H. injection H as _ <-. reflexivity.
Qed.

(** X18. A truthy first reading is resolved once: whatever calls are made
    on the meter after the slot holds a truthy value, the slot still holds
    that value, and [get_first_reading] then returns it, whatever its
    fuel, without sending a request or changing anything. *)
Theorem first_reading_resolved_once (calls : list meter_call) (s s' : MeterCtx)
    (seen : list (gmap pykey pyval)) :
  run_calls W calls s = Some (seen, s') ->
  val_truthy (_first_reading (self s)) = true ->
  _first_reading (self s') = _first_reading (self s) /\
  forall fuel, get_first_reading W fuel s' = Some (Return (_first_reading (self s)), s').
Proof.
  intros H Ht.
  assert (Hk : _first_reading (self s') = _first_reading (self s)).
  { revert s seen s' H Ht.
    induction calls as [|c rest IH]; intros s seen s' H Ht; simpl in H.
    - injection H as _ <-. reflexivity.
    - destruct (run_call W c s) as [[l s1]|] eqn:Hc; [|discriminate].
      destruct (run_calls W rest s1) as [[l' s2]|] eqn:Hr; [|discriminate].
      injection H as _ <-.
      pose proof (run_call_first_reading _ _ _ _ Hc Ht) as H1.
      rewrite <- H1. eapply IH; [exact Hr|]. rewrite H1. exact Ht. }
  split; [exact Hk|]. intros fuel. rewrite <- Hk. apply get_first_reading_memo.
  rewrite Hk. exact Ht.
Qed.

(** X19. What [get_first_reading] hands out and what it keeps: a value it
    returns is the value of the slot after the call, or it is None and the
    slot is as it was before; a call that raises leaves the slot as it
    was. *)
Theorem get_first_reading_result (fuel : nat) (s s' : MeterCtx) (r : outcome pyval) :
  get_first_reading W fuel s = Some (r, s') ->
  match r with
  | Return v =>
      _first_reading (self s') = v \/
      (v = PyNone /\ _first_reading (self s') = _first_reading (self s))
  | Raise _ => _first_reading (self s') = _first_reading (self s)
  end.
Proof.
  unfold get_first_reading. intros H.
  destruct (val_truthy (_first_reading (self s))).
  { injection H as <- <-. left. reflexivity. }
  pose proof (first_reading_same_date s) as Hd. unfold on_meter, first_reading_same in Hd.
  destruct (_get_first_reading_date W s) as [[[d|]|e] s1]; simpl in Hd.
  - destruct (add_days d 7) as [d7|e]; [|injection H as <- <-; congruence].
    destruct (scan W fuel d d7 s1) as [[o s2]|] eqn:Hs; [|discriminate].
    apply first_reading_same_scan in Hs.
    destruct o as [[l|]|e].
    + destruct l as [|first rest]; [injection H as <- <-; congruence|].
      destruct (first !! KStr "MR") as [v|]; injection H as <- <-.
      * left. reflexivity.
      * right. split; [reflexivity | congruence].
    + injection H as <- <-. right. split; [reflexivity | congruence].
    + injection H as <- <-. congruence.
  - injection H as <- <-. right. split; [reflexivity | congruence].
  - injection H as <- <-. congruence.
Qed.

(** X20. The window of [fetch_consumption_data] and [get_historic_data]:
    one reading of the clock, and the meter is not touched; the end is the
    UTC wall time with minute, second and microsecond zeroed, labelled
    with the account's time zone without conversion; the start is the
    same wall time [days] days earlier with the same label, and when that
    day is not one of the years 1 to 9999 the call raises OverflowError. *)
Theorem window_shape (days : Z) (s : MeterCtx) :
  let now := wall_clock W (clock_reads (env (client s))) in
  let tz := time_zone (sn (client s)) in
  let day := (719163 + now / 86400000000)%Z in
  let h := (now mod 86400000000 / 3600000000)%Z in
  snd (window W days s) = mkCtx (tick (client s)) (self s) /\
  ((1 <= day - days <= 3652059)%Z ->
     fst (window W days s)
     = Return (mkDt (day - days) h 0 0 0 (Some tz), mkDt day h 0 0 0 (Some tz))) /\
  (~ (1 <= day - days <= 3652059)%Z -> fst (window W days s) = Raise OverflowError).
Proof.
  intros now tz day h. unfold window. fold now. fold tz.
  set (e := floor_hour (utc_of_us now) (Some tz) : datetime).
  assert (He : e = mkDt day h 0 0 0 (Some tz)) by reflexivity.
  assert (Ho : (ordinal e + - days = day - days)%Z) by (rewrite He; simpl; lia).
  split; [destruct (add_days e (- days)); reflexivity|]. split; intros Hr.
  - rewrite add_days_in by lia. simpl. rewrite He. unfold days_later. simpl.
    repeat f_equal; lia.
  - rewrite add_days_out by lia. reflexivity.
Qed.

End MeterMore2.

(** ** Worked examples of the further properties *)

Lemma query_attempts_bounded_witness :
  let W := sample_world [PostRaises ClientError; PostRaises ClientError; PostRaises ClientError] in
  let c := sample_client JNull in
  let r := _query W "getInstallations" (JList []) 2 c in
  exists extra,
    sent (env (snd r)) = (sent (env c) ++ extra)%list /\ length extra = 3 /\
    Forall (to_path "getInstallations" (JList [])) extra.
Proof.
  intros W c r.
  destruct (query_attempts_bounded W "getInstallations" (JList []) 2 c)
    as (extra & He & _ & Hf & Hc).
  exists extra. split; [exact He|]. split; [|exact Hf].
  apply Hc. vm_compute. reflexivity.
Defined.

Lemma query_headers_witness :
  let W := sample_world [PostRaises ClientError; ok200 (JNum 1)] in
  let c := sample_client (JStr "tok") in
  exists extra,
    sent (env (snd (_query W "getInstallations" (JList []) 2 c))) =
      (sent (env c) ++ extra)%list /\
    Forall (fun req =>
              exists tok,
                headers req = request_headers (user_agent (sn c)) tok /\
                forall t, tok = Some t ->
                  _jwt (sn c) = JStr t /\
                  exists n, jwt_decode W (JStr t) (wall_clock W n) = true) extra.
Proof.
  intros W c. exact (query_headers W "getInstallations" (JList []) 2 c).
Defined.

Lemma query_with_valid_token_witness :
  let W := sample_world [ok200 (JNum 1)] in
  let c := sample_client (JStr "tok") in
  sends (to_path "getInstallations" (JList [])) c
        (snd (query W "getInstallations" (JList []) c)).
Proof.
  intros W c. apply (query_with_valid_token W "getInstallations" (JList []) c).
  vm_compute. reflexivity.
Defined.

Lemma query_logs_in_first_witness :
  let W := sample_world [ok200 (JDict [("success", JBool true); ("token", JStr "tok")]);
                         ok200 (JNum 1)] in
  let c := sample_client (JStr "old") in
  exists req rest,
    sent (env (snd (query W "getInstallations" (JList []) c))) =
      (sent (env c) ++ req :: rest)%list /\
    url req = API_ENDPOINT ++ "login" /\
    data req = login_payload (sn c) /\
    headers req = request_headers (user_agent (sn c)) None.
Proof.
  intros W c. apply (query_logs_in_first W "getInstallations" (JList []) c).
  vm_compute. reflexivity.
Defined.

Lemma query_login_failure_witness :
  let W := sample_world [ok200 (JDict [("error", JStr "wrong password")])] in
  let c := sample_client JNull in
  let c2 := snd (authenticate W (snd (ok W c))) in
  query W "getInstallations" (JList []) c = (Raise (InvalidLogin (JStr "wrong password")), c2) /\
  sends login_request c c2.
Proof.
  intros W c c2.
  apply (query_login_failure W "getInstallations" (JList []) c c2
           (InvalidLogin (JStr "wrong password"))).
  - vm_compute. reflexivity.
  - apply pair_fst_eq. vm_compute. reflexivity.
Defined.

Lemma query_after_refused_login_witness :
  let W := sample_world [Responded 503 (Return JNull); ok200 (JNum 1)] in
  let c := sample_client JNull in
  exists c1,
    authenticate W c = (Return false, c1) /\
    _jwt (sn c1) = JNull /\
    length (sent (env c1)) = S (length (sent (env c))) /\
    query W "getInstallations" (JList []) c = _query W "getInstallations" (JList []) 2 c1.
Proof.
  intros W c.
  apply (query_after_refused_login W "getInstallations" (JList []) c 503%Z (Return JNull)).
  - reflexivity.
  - lia.
  - intros req. reflexivity.
Defined.

Lemma authenticate_true_holds_token_witness :
  let W := sample_world [ok200 (JDict [("success", JBool true); ("token", JStr "tok")])] in
  let c := sample_client JNull in
  exists tok n,
    _jwt (sn (snd (authenticate W c))) = JStr tok /\
    jwt_decode W (JStr tok) (wall_clock W n) = true /\
    clock_reads (env (snd (authenticate W c))) = S n.
Proof.
  intros W c. apply (authenticate_true_holds_token W c (snd (authenticate W c))).
  apply pair_fst_eq. vm_compute. reflexivity.
Defined.

Lemma new_installation_meters_witness :
  let info := JDict [("installationID", JNum 5); ("customerID", JNum 1);
                     ("address", JStr "Graz");
                     ("meterPoints", JList [sample_point (JNum 0); sample_point (JNum 9)])] in
  exists i,
    new_installation (JNum 5) info = Return i /\
    _installation_id i = JNum 5 /\ _customer_id i = JNum 1 /\ _address i = JStr "Graz" /\
    is_Some (_meters i !! KInt 9).
Proof.
  intros info.
  destruct (returned_ex (new_installation (JNum 5) info)) as [i Hi]; [vm_compute; reflexivity|].
  exists i. split; [exact Hi|].
  destruct (new_installation_meters (JNum 5) info i Hi)
    as (Hid & Hc & _ & _ & Ha & mps & points & Hm & Hp & _ & Hall).
  split; [exact Hid|]. split; [simpl in Hc; congruence|]. split; [simpl in Ha; congruence|].
  simpl in Hm. injection Hm as <-. simpl in Hp. injection Hp as <-.
  destruct (Hall (sample_point (JNum 9)) (JNum 9)) as (mk & Hk & Hs).
  - apply elem_of_cons. right. apply elem_of_cons. left. reflexivity.
  - reflexivity.
  - reflexivity.
  - simpl in Hk. injection Hk as <-. exact Hs.
Defined.

Lemma update_one_stores_witness :
  let _inst := JDict [("installationID", JNum 5); ("customerID", JNum 1);
                      ("address", JStr "Graz");
                      ("meterPoints", JList [sample_point (JNum 9)])] in
  let c := sample_client (JStr "tok") in
  let c' := snd (update_one _inst c) in
  exists i,
    new_installation (JNum 5) _inst = Return i /\
    get_installation (sn c') (KInt 5) = Return i /\
    env c' = env c /\ _jwt (sn c') = _jwt (sn c).
Proof.
  intros _inst c c'.
  destruct (proj1 (update_one_stores _inst (JNum 5) c eq_refl eq_refl) c')
    as (k & i & Hk & Hi & Hg & _ & He & Hj).
  - apply pair_fst_eq. vm_compute. reflexivity.
  - simpl in Hk. injection Hk as <-. exists i. auto.
Defined.

Lemma update_info_never_prunes_witness :
  let W := sample_world [Responded 503 (Return JNull)] in
  let c := sample_client (JStr "tok") in
  _installations (sn (snd (update_info W c))) = _installations (sn c).
Proof.
  intros W c. apply (proj2 (proj2 (update_info_never_prunes W c))).
  vm_compute. reflexivity.
Defined.

Lemma patch_utc_suffix_spec_witness :
  patch_utc_suffix "2023-11-02T00:00:00Z" = "2023-11-02T00:00:00+00:00" /\
  patch_utc_suffix "Z+01:00" = "Z+01:00".
Proof.
  split.
  - apply (proj1 (patch_utc_suffix_spec "2023-11-02T00:00:00Z") "2023-11-02T00:00:00").
    reflexivity.
  - apply (proj2 (patch_utc_suffix_spec "Z+01:00")).
    intros p E. destruct p as [|a [|b [|c [|d [|e [|f [|g [|h p]]]]]]]]; cbv in E; discriminate E.
Defined.

Lemma process_reading_errors_witness :
  let W := sample_world [] in
  let s := sample_ctx "OptIn" in
  process_reading W (JNum 1) s = (Raise AttributeError, s) /\
  process_reading W (JDict [("readTime", JStr "2023-11-02T00:00:00Z")]) s
    = (Raise TypeError, s) /\
  process_reading W (JDict [("readingValues", JList [sample_rv "A" "Valid" 5])]) s
    = (Raise AttributeError, s) /\
  process_reading W (sample_reading "yesterday" [sample_rv "A" "Valid" 5]) s
    = (Raise (ValueError "Invalid isoformat string"), s).
Proof.
  intros W s.
  assert (Hm : valid_values [sample_rv "A" "Valid" 5] ∅ =
               Return (value_of ∅ (valid_values [sample_rv "A" "Valid" 5] ∅))).
  { assert (H : returned (valid_values [sample_rv "A" "Valid" 5] ∅) = true)
      by (vm_compute; reflexivity).
    destruct (valid_values [sample_rv "A" "Valid" 5] ∅); [reflexivity | discriminate]. }
  assert (Hne : value_of ∅ (valid_values [sample_rv "A" "Valid" 5] ∅) <> ∅).
  { intros E. apply (f_equal (fun m : gmap pykey pyval => m !! KStr "A")) in E.
    vm_compute in E. discriminate. }
  split; [|split; [|split]].
  - apply (proj1 (process_reading_errors W (JNum 1) s)). intros kvs. discriminate.
  - apply (proj1 (proj2 (process_reading_errors W
             (JDict [("readTime", JStr "2023-11-02T00:00:00Z")]) s))).
    reflexivity.
  - apply (proj1 (proj2 (proj2 (process_reading_errors W
             (JDict [("readingValues", JList [sample_rv "A" "Valid" 5])]) s))
             (JList [sample_rv "A" "Valid" 5]) [sample_rv "A" "Valid" 5] _ JNull
             eq_refl eq_refl Hm Hne eq_refl)).
    intros str. discriminate.
  - apply (proj2 (proj2 (proj2 (process_reading_errors W
             (sample_reading "yesterday" [sample_rv "A" "Valid" 5]) s))
             (JList [sample_rv "A" "Valid" 5]) [sample_rv "A" "Valid" 5] _ (JStr "yesterday")
             eq_refl eq_refl Hm Hne eq_refl) "yesterday" eq_refl).
    reflexivity.
Defined.

Lemma fetched_records_shape_witness :
  let s := sample_ctx "OptIn" in
  let r := _fetch_data two_fetches (mkDt 738820 9 30 0 0 (Some "UTC"))
                       (mkDt 738830 9 30 0 0 (Some "UTC")) s in
  length (records_of (fst r)) = 1 /\
  exists pre req resp readings items,
    sent (env (client (snd r))) = (pre ++ [req])%list /\
    url req = API_ENDPOINT ++ "getMeterReading" /\
    transport two_fetches (length pre) req = Responded 200 (Return resp) /\
    py_get resp "readings" = Return readings /\ py_iter readings = Return items /\
    Forall (fun res =>
              exists reading d t rvs,
                reading ∈ items /\
                py_get reading "readTime" = Return (JStr d) /\
                fromisoformat two_fetches (patch_utc_suffix d) = Some t /\
                py_get reading "readingValues" = Return rvs /\
                res !! KStr "readTime" = Some (VDatetime t) /\
                res !! KStr "readingValues" = Some (VJson rvs)) (records_of (fst r)).
Proof.
  intros s r. split; [vm_compute; reflexivity|].
  apply (fetched_records_shape two_fetches (mkDt 738820 9 30 0 0 (Some "UTC"))
           (mkDt 738830 9 30 0 0 (Some "UTC")) s (snd r)).
  apply fetched_pair_eq. vm_compute. reflexivity.
Defined.

Lemma fetch_soft_failure_witness :
  let W := sample_world [sample_metadata; Responded 503 (Return JNull)] in
  let s := sample_ctx "OptIn" in
  let m' := self (snd (_fetch_data W (mkDt 738820 9 30 0 0 (Some "UTC"))
                         (mkDt 738830 9 30 0 0 (Some "UTC")) s)) in
  m' = self s \/
  (_first_reading_date (self s) = None /\
   exists d, m' = set_first_reading_date d (self s)).
Proof.
  intros W s.
  apply (fetch_soft_failure W (mkDt 738820 9 30 0 0 (Some "UTC"))
           (mkDt 738830 9 30 0 0 (Some "UTC")) s).
  vm_compute. reflexivity.
Defined.

Lemma first_date_resolution_witness :
  let s := vienna_ctx "OptIn" in
  let s1 := snd (_get_first_reading_date two_fetches s) in
  let d : datetime := mkDt 738825 0 0 0 0 (Some "Europe/Vienna") in
  self s1 = set_first_reading_date d (self s) /\
  exists pre req resp since raw,
    sent (env (client s1)) = (pre ++ [req])%list /\
    length (sent (env (client s))) <= length pre /\
    to_path "getMeterReadingMetaData" (JDict [("meterPointId", JNum 7)]) req /\
    transport two_fetches (length pre) req = Responded 200 (Return resp) /\
    py_get resp "readingsAvailableSince" = Return (JStr since) /\
    fromisoformat two_fetches since = Some raw /\
    ordinal d = ordinal raw /\ hour d = hour raw /\ minute d = 0%Z /\
    second d = second raw /\ microsecond d = microsecond raw /\
    tzinfo d = Some (time_zone (sn (client s1))).
Proof.
  intros s s1 d.
  apply (first_date_resolution two_fetches s s1 d).
  - reflexivity.
  - apply pair_fst_eq. vm_compute. reflexivity.
Defined.

Lemma first_date_resolved_once_witness :
  let s := snd (_get_first_reading_date two_fetches (sample_ctx "OptIn")) in
  exists seen s',
    run_calls two_fetches sample_calls s = Some (seen, s') /\
    _first_reading_date (self s') = Some late_first_date /\
    _get_first_reading_date two_fetches s' = (Return (Some late_first_date), s').
Proof.
  intros s.
  destruct (is_Some_ex (run_calls two_fetches sample_calls s)) as [[seen s'] Hr];
    [vm_compute; reflexivity|].
  exists seen, s'. split; [exact Hr|].
  apply (first_date_resolved_once two_fetches sample_calls s s' seen late_first_date Hr).
  vm_compute. reflexivity.
Defined.

Lemma first_reading_resolved_once_witness :
  let s := mkCtx (sample_client (JStr "tok"))
                 (set_first_reading (VJson (JNum 42)) (sample_meter "OptIn")) in
  exists seen s',
    run_calls two_fetches (CallFirstReading 0 :: sample_calls) s = Some (seen, s') /\
    _first_reading (self s') = VJson (JNum 42) /\
    forall fuel, get_first_reading two_fetches fuel s' = Some (Return (VJson (JNum 42)), s').
Proof.
  intros s.
  destruct (is_Some_ex (run_calls two_fetches (CallFirstReading 0 :: sample_calls) s))
    as [[seen s'] Hr]; [vm_compute; reflexivity|].
  exists seen, s'. split; [exact Hr|].
  apply (first_reading_resolved_once two_fetches (CallFirstReading 0 :: sample_calls)
           s s' seen Hr).
  reflexivity.
Defined.

Lemma get_first_reading_result_witness :
  exists s',
    get_first_reading late_reading 3 (sample_ctx "OptIn")
      = Some (Return (VJson (JNum 42)), s') /\
    (_first_reading (self s') = VJson (JNum 42) \/
     (VJson (JNum 42) = PyNone /\
      _first_reading (self s') = _first_reading (self (sample_ctx "OptIn")))).
Proof.
  destruct (is_Some_ex (get_first_reading late_reading 3 (sample_ctx "OptIn")))
    as [[r s'] Hr]; [vm_compute; reflexivity|].
  assert (Hv : fst (default (Raise IndexError, sample_ctx "OptIn")
                      (get_first_reading late_reading 3 (sample_ctx "OptIn")))
               = Return (VJson (JNum 42))) by (vm_compute; reflexivity).
  rewrite Hr in Hv. simpl in Hv. subst r.
  exists s'. split; [exact Hr|].
  exact (get_first_reading_result late_reading 3 (sample_ctx "OptIn") s' _ Hr).
Defined.

Lemma window_shape_witness :
  fst (window early_meter 30 (vienna_ctx "OptIn"))
  = Return (mkDt 738808 22 0 0 0 (Some "Europe/Vienna"),
            mkDt 738838 22 0 0 0 (Some "Europe/Vienna")) /\
  fst (window early_meter 1000000 (vienna_ctx "OptIn")) = Raise OverflowError.
Proof.
  split.
  - apply (proj1 (proj2 (window_shape early_meter 30 (vienna_ctx "OptIn")))).
    vm_compute. split; discriminate.
  - apply (proj2 (proj2 (window_shape early_meter 1000000 (vienna_ctx "OptIn")))).
    vm_compute. intros [H _]. apply H. reflexivity.
Defined.

(** A first reading of 0 and then a first record whose valid "MR" value
    is null: the second call returns None and puts None in the slot. *)
Example first_reading_null_overwrites :
  let s0 := sample_ctx "OptIn" in
  let r1 := default (Raise IndexError, s0) (get_first_reading null_reading 1 s0) in
  let r2 := default (Raise IndexError, s0) (get_first_reading null_reading 1 (snd r1)) in
  _first_reading (self (snd r1)) = VJson (JNum 0) /\
  fst r2 = Return PyNone /\
  _first_reading (self (snd r2)) = PyNone.
Proof. vm_compute. repeat split; reflexivity. Qed.
